(** * Timetable scripts of [sih.py]: constraint models, decoding and reporting

    [sih.py] holds four successive timetable scripts.  Each one declares its
    input data, builds a CP-SAT model, hands it to the external solver and
    prints the solution it gets back.  This development embeds the model
    construction and the post-processing of every script and states the
    scheduling properties over the solutions that the solver is allowed to
    return. *)

From Stdlib Require Import ZArith List Lia Bool Ascii.
From stdpp Require Import gmap strings list fin_maps pretty.

Local Open Scope nat_scope.

(** ** Python exceptions as an error monad *)

Inductive PyErr := KeyError | ValueError | IndexError | TypeError.

Inductive result (A : Type) :=
| Ok (a : A)
| Raise (e : PyErr).
Arguments Ok {A} a.
Arguments Raise {A} e.

#[global] Instance result_ret : MRet result := λ A a, Ok a.
#[global] Instance result_bind : MBind result := λ A B k m,
  match m with Ok a => k a | Raise e => Raise e end.
#[global] Instance result_fmap : FMap result := λ A B f m,
  match m with Ok a => Ok (f a) | Raise e => Raise e end.

(** [d[k]] on a dict. *)
Definition getitem {V} (m : gmap string V) (k : string) : result V :=
  match m !! k with Some v => Ok v | None => Raise KeyError end.

(** [l[i]] on a list, for a non-negative index. *)
Definition list_getitem {A} (l : list A) (i : nat) : result A :=
  match l !! i with Some a => Ok a | None => Raise IndexError end.

(** [l.index(s)]: position of the first occurrence. *)
Fixpoint index (l : list string) (s : string) : result nat :=
  match l with
  | [] => Raise ValueError
  | a :: l' => if decide (a = s) then Ok 0 else S <$> index l' s
  end.

(** A [for] loop whose body may raise and which adds constraints to the
    model: the constraints of the iterations, in order. *)
Fixpoint for_each {A B} (l : list A) (body : A → result (list B)) : result (list B) :=
  match l with
  | [] => Ok []
  | a :: l' => cs ← body a; rest ← for_each l' body; Ok (cs ++ rest)
  end.

(** [[a for a in l if p(a)]] where the test may raise. *)
Fixpoint filterM {A} (p : A → result bool) (l : list A) : result (list A) :=
  match l with
  | [] => Ok []
  | a :: l' => b ← p a; rest ← filterM p l'; Ok (if b : bool then a :: rest else rest)
  end.

(** A loop threading a state through a body that may raise. *)
Fixpoint foldM {A S} (body : S → A → result S) (s : S) (l : list A) : result S :=
  match l with
  | [] => Ok s
  | a :: l' => s' ← body s a; foldM body s' l'
  end.

(** ** The fragment of CP-SAT the scripts use *)

Inductive BoolVar :=
| X (c t r : nat)          (* x[c, t, r] *)
| same_room (i j : nat).   (* same_room_i_j *)

Inductive IntVar :=
| course_time (c : nat)
| course_room (c : nat).

#[global] Instance BoolVar_eq_dec : EqDecision BoolVar.
Proof. solve_decision. Defined.
#[global] Instance IntVar_eq_dec : EqDecision IntVar.
Proof. solve_decision. Defined.

Inductive Literal :=
| Lit (b : BoolVar)
| Not (b : BoolVar).

Inductive LinearExpr :=
| IntV (v : IntVar)
| BoolV (b : BoolVar)
| Const (k : Z)
| Sum (bs : list BoolVar)
| Plus (e1 e2 : LinearExpr).

Inductive BoundedLinearExpression :=
| LinEq (e1 e2 : LinearExpr)
| LinNe (e1 e2 : LinearExpr)
| LinLe (e1 e2 : LinearExpr)
| LinGe (e1 e2 : LinearExpr).

Inductive Constraint :=
| AddAtMostOne (bs : list BoolVar)
| Add (e : BoundedLinearExpression) (only_enforce_if : list Literal).

Record CpModel := {
  int_vars : list (IntVar * (Z * Z));   (* NewIntVar(lb, ub, _) *)
  bool_vars : list BoolVar;             (* NewBoolVar(_) *)
  constraints : list Constraint }.

(** What [solver.Value] answers after a successful solve. *)
Record Solution := {
  BooleanValue : BoolVar → bool;
  Value : IntVar → Z }.

Inductive CpSolverStatus := UNKNOWN | MODEL_INVALID | FEASIBLE | INFEASIBLE | OPTIMAL.

Record CpSolverResponse := {
  status : CpSolverStatus;
  solution : Solution }.

(** CP-SAT stores the constants of a linear expression as 64-bit integers:
    comparing an expression over variables with a Python integer outside
    that range raises [TypeError]. *)
Definition INT_MIN : Z := (- 2 ^ 63)%Z.
Definition INT_MAX : Z := (2 ^ 63 - 1)%Z.

Definition in_int64 (k : Z) : Prop := (INT_MIN ≤ k ≤ INT_MAX)%Z.

Definition int64_const (k : Z) : result Z :=
  if decide (in_int64 k) then Ok k else Raise TypeError.

Definition count_true (s : Solution) (bs : list BoolVar) : nat :=
  length (filter (λ b, BooleanValue s b = true) bs).

Fixpoint eval (s : Solution) (e : LinearExpr) : Z :=
  match e with
  | IntV v => Value s v
  | BoolV b => if BooleanValue s b then 1%Z else 0%Z
  | Const k => k
  | Sum bs => Z.of_nat (count_true s bs)
  | Plus e1 e2 => (eval s e1 + eval s e2)%Z
  end.

Definition eval_lit (s : Solution) (l : Literal) : bool :=
  match l with
  | Lit b => BooleanValue s b
  | Not b => negb (BooleanValue s b)
  end.

Definition holds_ble (s : Solution) (e : BoundedLinearExpression) : bool :=
  match e with
  | LinEq e1 e2 => (eval s e1 =? eval s e2)%Z
  | LinNe e1 e2 => negb (eval s e1 =? eval s e2)%Z
  | LinLe e1 e2 => (eval s e1 <=? eval s e2)%Z
  | LinGe e1 e2 => (eval s e2 <=? eval s e1)%Z
  end.

Definition holds (s : Solution) (c : Constraint) : bool :=
  match c with
  | AddAtMostOne bs => count_true s bs <=? 1
  | Add e lits => if forallb (eval_lit s) lits then holds_ble s e else true
  end.

Definition in_domain (s : Solution) (v : IntVar * (Z * Z)) : bool :=
  let '(iv, (lb, ub)) := v in (lb <=? Value s iv)%Z && (Value s iv <=? ub)%Z.

Definition satisfies (s : Solution) (m : CpModel) : bool :=
  forallb (in_domain s) (int_vars m) && forallb (holds s) (constraints m).

(** The contract of the external [CpSolver.Solve]: a solution is reported
    only if it satisfies the model, infeasibility only if no solution exists;
    running out of time ([UNKNOWN]) promises nothing. *)
Definition cp_sat_contract (m : CpModel) (resp : CpSolverResponse) : Prop :=
  match status resp with
  | OPTIMAL | FEASIBLE => satisfies (solution resp) m = true
  | INFEASIBLE => ∀ s, satisfies s m = false
  | UNKNOWN | MODEL_INVALID => True
  end.

(** ** Input data *)

(** The data every script declares.  [days] and [slots_per_day] are counts
    (5 and 8 in every script), hence natural numbers. *)
Record Data := {
  days : nat;
  slots_per_day : nat;
  rooms : list string;
  courses : list string;
  faculty : gmap string string;
  shared_students : list (string * string) }.

Definition total_slots (d : Data) : nat := days d * slots_per_day d.
Definition room_indices (d : Data) : list nat := seq 0 (length (rooms d)).
Definition course_indices (d : Data) : list nat := seq 0 (length (courses d)).
Definition time_slots (d : Data) : list nat := seq 0 (total_slots d).

(** [faculty[courses[c]]] *)
Definition faculty_of (d : Data) (c : nat) : result string :=
  cname ← list_getitem (courses d) c; getitem (faculty d) cname.

(** The keys of the dict [x]. *)
Definition x_keys (d : Data) : list (nat * nat * nat) :=
  c ← course_indices d; t ← time_slots d; r ← room_indices d; [(c, t, r)].

(** [x[c, t, r]] for an arbitrary integer [t]. *)
Definition x_getitem (d : Data) (c : nat) (t : Z) (r : nat) : result BoolVar :=
  if decide ((0 ≤ t)%Z ∧ (c, Z.to_nat t, r) ∈ x_keys d)
  then Ok (X c (Z.to_nat t) r) else Raise KeyError.

(** ** Constraint groups shared by the grid scripts (second to fourth) *)

(** "Only one course per room at each time slot" *)
Definition one_course_per_room (d : Data) : list Constraint :=
  t ← time_slots d; r ← room_indices d;
  [AddAtMostOne ((λ c, X c t r) <$> course_indices d)].

(** "Each time slot must be used" (second script only) *)
Definition every_slot_used (d : Data) : list Constraint :=
  t ← time_slots d;
  [Add (LinGe (Sum (c ← course_indices d; r ← room_indices d; [X c t r])) (Const 1)) []].

(** "A course can't be in two rooms at the same time" *)
Definition one_room_per_course (d : Data) : list Constraint :=
  c ← course_indices d; t ← time_slots d;
  [AddAtMostOne ((λ r, X c t r) <$> room_indices d)].

(** [[c for c in course_indices if faculty[courses[c]] == f]] *)
Definition relevant_courses (d : Data) (f : string) : result (list nat) :=
  filterM (λ c, f' ← faculty_of d c; Ok (bool_decide (f' = f))) (course_indices d).

(** [set(faculty.values())] *)
Definition faculty_values (d : Data) : list string :=
  elements (map_img (faculty d) : gset string).

(** "Faculty cannot be in more than one place at the same time" *)
Definition faculty_one_place (d : Data) : result (list Constraint) :=
  for_each (time_slots d) (λ t,
    for_each (faculty_values d) (λ f,
      relevant ← relevant_courses d f;
      Ok [AddAtMostOne (c ← relevant; r ← room_indices d; [X c t r])])).

(** "Faculty unavailability" *)
Definition faculty_unavailable (d : Data) (faculty_unavailability : gmap string (list Z))
  : result (list Constraint) :=
  for_each (course_indices d) (λ c,
    f_name ← faculty_of d c;
    match faculty_unavailability !! f_name with
    | Some ts =>
        for_each ts (λ t,
          for_each (room_indices d) (λ r,
            v ← x_getitem d c t r;
            Ok [Add (LinEq (BoolV v) (Const 0)) []]))
    | None => Ok []
    end).

(** "Shared students – no overlap" *)
Definition shared_students_no_overlap (d : Data) : result (list Constraint) :=
  for_each (shared_students d) (λ '(course1, course2),
    i ← index (courses d) course1;
    j ← index (courses d) course2;
    Ok ((λ t, Add (LinLe (Plus (Sum ((λ r1, X i t r1) <$> room_indices d))
                               (Sum ((λ r2, X j t r2) <$> room_indices d)))
                         (Const 1)) []) <$> time_slots d)).

(** "Each course must be scheduled multiple times per week" *)
Definition min_lectures_per_course (d : Data) (course_min_lectures : gmap string Z)
  : result (list Constraint) :=
  for_each (course_indices d) (λ c,
    cname ← list_getitem (courses d) c;
    min_lectures ← getitem course_min_lectures cname;
    let lectures := t ← time_slots d; r ← room_indices d; [X c t r] in
    (* the sum of no variable is the Python integer 0 and the comparison a
       Python bool, which [Add] accepts; otherwise the constant goes to
       CP-SAT *)
    bound ← match lectures with
            | [] => Ok min_lectures
            | _ => int64_const min_lectures
            end;
    Ok [Add (LinGe (Sum lectures) (Const bound)) []]).

Definition x_vars (d : Data) : list BoolVar :=
  (λ '(c, t, r), X c t r) <$> x_keys d.

(** ** The model of each script *)

(** First script: one start time and one room per course. *)
Definition build1 (d : Data) (faculty_unavailability : gmap string (list Z))
  : result CpModel :=
  let time_room_vars :=
    c ← course_indices d;
    [ (course_time c, (0, Z.of_nat (total_slots d) - 1)%Z);
      (course_room c, (0, Z.of_nat (length (rooms d)) - 1)%Z) ] in
  (* 1. No two courses in the same room at the same time *)
  let c1 :=
    i ← course_indices d; j ← course_indices d;
    if i <? j then
      [ Add (LinEq (IntV (course_room i)) (IntV (course_room j))) [Lit (same_room i j)];
        Add (LinNe (IntV (course_room i)) (IntV (course_room j))) [Not (same_room i j)];
        Add (LinNe (IntV (course_time i)) (IntV (course_time j))) [Lit (same_room i j)] ]
    else [] in
  (* 2. Faculty not double-booked *)
  c2 ← for_each (course_indices d) (λ i,
          for_each (course_indices d) (λ j,
            if i <? j then
              fi ← faculty_of d i; fj ← faculty_of d j;
              if decide (fi = fj)
              then Ok [Add (LinNe (IntV (course_time i)) (IntV (course_time j))) []]
              else Ok []
            else Ok []));
  (* 3. Faculty unavailable time slots *)
  c3 ← for_each (course_indices d) (λ i,
          f_name ← faculty_of d i;
          match faculty_unavailability !! f_name with
          | Some slots =>
              for_each slots (λ slot,
                bound ← int64_const slot;
                Ok [Add (LinNe (IntV (course_time i)) (Const bound)) []])
          | None => Ok []
          end);
  (* 4. Avoid shared student conflicts *)
  c4 ← for_each (shared_students d) (λ pair,
          i ← index (courses d) pair.1;
          j ← index (courses d) pair.2;
          Ok [Add (LinNe (IntV (course_time i)) (IntV (course_time j))) []]);
  Ok {| int_vars := time_room_vars;
        bool_vars := i ← course_indices d; j ← course_indices d;
                     if i <? j then [same_room i j] else [];
        constraints := c1 ++ c2 ++ c3 ++ c4 |}.

(** Second script: the boolean grid, every slot used, no quota. *)
Definition build2 (d : Data) (faculty_unavailability : gmap string (list Z))
  : result CpModel :=
  c4 ← faculty_one_place d;
  c5 ← faculty_unavailable d faculty_unavailability;
  c6 ← shared_students_no_overlap d;
  Ok {| int_vars := []; bool_vars := x_vars d;
        constraints := one_course_per_room d ++ every_slot_used d
                       ++ one_room_per_course d ++ c4 ++ c5 ++ c6 |}.

(** Third script: unavailability and minimum lectures. *)
Definition build3 (d : Data) (faculty_unavailability : gmap string (list Z))
    (course_min_lectures : gmap string Z) : result CpModel :=
  c3 ← faculty_one_place d;
  c4 ← faculty_unavailable d faculty_unavailability;
  c5 ← shared_students_no_overlap d;
  c6 ← min_lectures_per_course d course_min_lectures;
  Ok {| int_vars := []; bool_vars := x_vars d;
        constraints := one_course_per_room d ++ one_room_per_course d
                       ++ c3 ++ c4 ++ c5 ++ c6 |}.

(** Fourth script: no unavailability data, minimum lectures kept. *)
Definition build4 (d : Data) (course_min_lectures : gmap string Z) : result CpModel :=
  c3 ← faculty_one_place d;
  c4 ← shared_students_no_overlap d;
  c5 ← min_lectures_per_course d course_min_lectures;
  Ok {| int_vars := []; bool_vars := x_vars d;
        constraints := one_course_per_room d ++ one_room_per_course d
                       ++ c3 ++ c4 ++ c5 |}.

(** A script together with the data it declares. *)
Inductive script :=
| Script1 (d : Data) (faculty_unavailability : gmap string (list Z))
| Script2 (d : Data) (faculty_unavailability : gmap string (list Z))
| Script3 (d : Data) (faculty_unavailability : gmap string (list Z))
          (course_min_lectures : gmap string Z)
| Script4 (d : Data) (course_min_lectures : gmap string Z).

Definition data (p : script) : Data :=
  match p with
  | Script1 d _ | Script2 d _ | Script3 d _ _ | Script4 d _ => d
  end.

Definition build (p : script) : result CpModel :=
  match p with
  | Script1 d u => build1 d u
  | Script2 d u => build2 d u
  | Script3 d u q => build3 d u q
  | Script4 d q => build4 d q
  end.

(** The unavailability table a script declares; the fourth declares none. *)
Definition declared_unavailability (p : script) : gmap string (list Z) :=
  match p with
  | Script1 _ u | Script2 _ u | Script3 _ u _ => u
  | Script4 _ _ => ∅
  end.

(** The quota table a script declares; the first two declare none. *)
Definition declared_min_lectures (p : script) : gmap string Z :=
  match p with
  | Script1 _ _ | Script2 _ _ => ∅
  | Script3 _ _ q | Script4 _ q => q
  end.

(** Whether course [c] occupies room [r] at slot [t] in a solution: for the
    grid scripts the value of [x[c, t, r]], for the first script its start
    time and room. *)
Definition scheduled (p : script) (s : Solution) (c t r : nat) : bool :=
  match p with
  | Script1 _ _ =>
      (Value s (course_time c) =? Z.of_nat t)%Z && (Value s (course_room c) =? Z.of_nat r)%Z
  | _ => BooleanValue s (X c t r)
  end.

(** The solutions a script can receive from the solver with status
    [OPTIMAL] or [FEASIBLE]. *)
Definition Solved (p : script) (s : Solution) : Prop :=
  ∃ m, build p = Ok m ∧ satisfies s m = true.

(** Number of rooms course [c] occupies at slot [t]. *)
Definition rooms_used (p : script) (s : Solution) (c t : nat) : nat :=
  length (filter (λ r, scheduled p s c t r = true) (room_indices (data p))).

(** Number of lectures of course [c] over the week. *)
Definition lectures_scheduled (p : script) (s : Solution) (c : nat) : nat :=
  length (filter (λ tr, scheduled p s c tr.1 tr.2 = true)
            (t ← time_slots (data p); r ← room_indices (data p); [(t, r)])).

(** ** The data declared in [sih.py] *)

Definition data12 : Data := {|
  days := 5; slots_per_day := 8;
  rooms := ["R1"; "R2"; "R3"];
  courses := ["AI"; "ML"; "Math"; "B.Ed_Psych"; "ITEP"];
  faculty := list_to_map [("AI", "Dr.A"); ("ML", "Dr.B"); ("Math", "Dr.C");
                          ("B.Ed_Psych", "Dr.D"); ("ITEP", "Dr.E")];
  shared_students := [("AI", "ML"); ("Math", "B.Ed_Psych")] |}.

Definition unavailability12 : gmap string (list Z) :=
  list_to_map [("Dr.A", [0; 1; 2; 3]%Z); ("Dr.C", [10; 11]%Z)].

Definition data34 : Data := {|
  days := 5; slots_per_day := 8;
  rooms := ["R1"; "R2"; "R3"];
  courses := ["AI"; "ML"; "Math"; "B.Ed_Psych"; "ITEP";
              "DBMS"; "OS"; "Networking"; "English"; "Physics"];
  faculty := list_to_map [("AI", "Dr.A"); ("ML", "Dr.B"); ("Math", "Dr.C");
                          ("B.Ed_Psych", "Dr.D"); ("ITEP", "Dr.E"); ("DBMS", "Dr.F");
                          ("OS", "Dr.G"); ("Networking", "Dr.H"); ("English", "Dr.I");
                          ("Physics", "Dr.J")];
  shared_students := [("AI", "ML"); ("Math", "B.Ed_Psych"); ("DBMS", "OS");
                      ("Networking", "OS"); ("English", "Physics")] |}.

Definition unavailability3 : gmap string (list Z) :=
  list_to_map [("Dr.A", [0; 1; 2; 3]%Z); ("Dr.C", [10; 11]%Z);
               ("Dr.G", [20; 21; 22]%Z); ("Dr.I", [30; 31; 32; 33]%Z)].

Definition course_min_lectures34 : gmap string Z :=
  list_to_map [("AI", 3); ("ML", 3); ("Math", 3); ("DBMS", 3); ("OS", 3);
               ("Networking", 2); ("English", 2); ("Physics", 2);
               ("B.Ed_Psych", 2); ("ITEP", 2)]%Z.

Definition sih_v1 : script := Script1 data12 unavailability12.
Definition sih_v2 : script := Script2 data12 unavailability12.
Definition sih_v3 : script := Script3 data34 unavailability3 course_min_lectures34.
Definition sih_v4 : script := Script4 data34 course_min_lectures34.

(** ** Decoding a solution into a timetable *)

Definition newline : string := String "010"%char "".

(** [f"{cname} ({fname}, {rname})"] for course [c] in room [r]. *)
Definition entry (d : Data) (c r : nat) : result string :=
  course_name ← list_getitem (courses d) c;
  faculty_name ← getitem (faculty d) course_name;
  room_name ← list_getitem (rooms d) r;
  Ok (course_name +:+ " (" +:+ faculty_name +:+ ", " +:+ room_name +:+ ")").

(** The text of a cell: its entries one per line, or the marker. *)
Definition cell_text (cell_entries : list string) : string :=
  match cell_entries with
  | [] => "Free"
  | _ => String.concat newline cell_entries
  end.

(** [[f(a) for a in l]] where [f] may raise. *)
Fixpoint map_result {A B} (f : A → result B) (l : list A) : result (list B) :=
  match l with
  | [] => Ok []
  | a :: l' => b ← f a; rest ← map_result f l'; Ok (b :: rest)
  end.

Record Table := {
  headers : list string;
  table_data : list (list string) }.

(** What a script prints after the solve. *)
Inductive Printed (R : Type) :=
| Report (r : R)
| NoFeasibleTimetableFound.
Arguments Report {R} r.
Arguments NoFeasibleTimetableFound {R}.

(** *** Second script: a dict of dicts keyed by displayed day and period *)

Definition dd_get (timetable : gmap nat (gmap nat (list string))) (day period : nat)
  : list string :=
  default [] (default ∅ (timetable !! day) !! period).

(** [timetable[day][period].append(e)] on the nested [defaultdict]. *)
Definition dd_append (timetable : gmap nat (gmap nat (list string)))
    (day period : nat) (e : string) : gmap nat (gmap nat (list string)) :=
  let row := default ∅ (timetable !! day) in
  <[day := <[period := default [] (row !! period) ++ [e]]> row]> timetable.

Definition fill_timetable2 (d : Data) (s : Solution)
  : result (gmap nat (gmap nat (list string))) :=
  foldM (λ timetable t,
    let day := Nat.div t (slots_per_day d) + 1 in
    let period := Nat.modulo t (slots_per_day d) + 1 in
    foldM (λ timetable c,
      foldM (λ timetable r,
        if BooleanValue s (X c t r) then
          e ← entry d c r; Ok (dd_append timetable day period e)
        else Ok timetable)
      timetable (room_indices d))
    timetable (course_indices d))
  ∅ (time_slots d).

Definition rows2 (d : Data) (timetable : gmap nat (gmap nat (list string)))
  : list (list string) :=
  (λ day, ("Day " +:+ pretty day)
          :: ((λ period, cell_text (dd_get timetable day period))
                <$> seq 1 (slots_per_day d)))
  <$> seq 1 (days d).

Definition decode2 (d : Data) (s : Solution) : result Table :=
  timetable ← fill_timetable2 d s;
  Ok {| headers := "Day/Period" :: ((λ p, "P" +:+ pretty p) <$> seq 1 8);
        table_data := rows2 d timetable |}.

Definition feasible (st : CpSolverStatus) : bool :=
  match st with OPTIMAL | FEASIBLE => true | _ => false end.

(** The second script, from its data to what it prints.  [Solve] stands for
    [CpSolver.Solve] with its 30 second limit: an external call whose answer
    the script only inspects. *)
Definition script2 (Solve : CpModel → CpSolverResponse) (d : Data)
    (faculty_unavailability : gmap string (list Z)) : result (Printed Table) :=
  model ← build2 d faculty_unavailability;
  let resp := Solve model in
  if feasible (status resp)
  then Report <$> decode2 d (solution resp)
  else Ok NoFeasibleTimetableFound.

(** *** Third and fourth script: a days × slots grid of lists *)

(** [timetable[day][period].append(e)] on the nested lists. *)
Definition append_entry (timetable : list (list (list string)))
    (day period : nat) (e : string) : result (list (list (list string))) :=
  row ← list_getitem timetable day;
  cell ← list_getitem row period;
  Ok (<[day := <[period := cell ++ [e]]> row]> timetable).

Definition fill_timetable34 (d : Data) (s : Solution)
  : result (list (list (list string))) :=
  foldM (λ timetable c,
    foldM (λ timetable t,
      foldM (λ timetable r,
        if BooleanValue s (X c t r) then
          let day := Nat.div t (slots_per_day d) in
          let period := Nat.modulo t (slots_per_day d) in
          e ← entry d c r; append_entry timetable day period e
        else Ok timetable)
      timetable (room_indices d))
    timetable (time_slots d))
  (replicate (days d) (replicate (slots_per_day d) [])) (course_indices d).

Definition rows34 (d : Data) (timetable : list (list (list string)))
  : result (list (list string)) :=
  map_result (λ day,
    cells ← map_result (λ period,
               row ← list_getitem timetable day;
               cell_entries ← list_getitem row period;
               Ok (cell_text cell_entries))
             (seq 0 (slots_per_day d));
    Ok (("Day " +:+ pretty (day + 1)) :: cells))
  (seq 0 (days d)).

Definition decode34 (d : Data) (s : Solution) : result Table :=
  timetable ← fill_timetable34 d s;
  rows ← rows34 d timetable;
  Ok {| headers := "Day/Period"
                   :: ((λ p, "P" +:+ pretty p) <$> seq 1 (slots_per_day d));
        table_data := rows |}.

Record Summary := {
  per_course : list (string * nat * Z);   (* name, lectures scheduled, minimum *)
  total_lectures : nat;
  total_available : nat }.

Definition summary4 (d : Data) (course_min_lectures : gmap string Z) (s : Solution)
  : result Summary :=
  lines ← map_result (λ c,
             course_name ← list_getitem (courses d) c;
             let lectures := count_true s (t ← time_slots d; r ← room_indices d; [X c t r]) in
             min_lectures ← getitem course_min_lectures course_name;
             Ok (course_name, lectures, min_lectures))
           (course_indices d);
  Ok {| per_course := lines;
        total_lectures := foldr (λ l acc, l.1.2 + acc) 0 lines;
        total_available := length (rooms d) * total_slots d |}.

(** The fourth script, from its data to what it prints (the CSV files it
    also writes repeat [table_data] under a time-stamped name and are left
    out). *)
Definition script4 (Solve : CpModel → CpSolverResponse) (d : Data)
    (course_min_lectures : gmap string Z) : result (Printed (Table * Summary)) :=
  model ← build4 d course_min_lectures;
  let resp := Solve model in
  if feasible (status resp) then
    table ← decode34 d (solution resp);
    summ ← summary4 d course_min_lectures (solution resp);
    Ok (Report (table, summ))
  else Ok NoFeasibleTimetableFound.

(** ** Sample solutions *)

(** A solution given by the list of its true cells. *)
Definition solution_of_cells (cells : list (nat * nat * nat)) : Solution := {|
  BooleanValue := λ b,
    match b with
    | X c t r => bool_decide ((c, t, r) ∈ cells)
    | same_room _ _ => false
    end;
  Value := λ _, 0%Z |}.

(** ITEP in room R1 at every slot: accepted by the second script. *)
Definition sample2 : Solution :=
  solution_of_cells ((λ t, (4, t, 0)) <$> seq 0 40).

(** One lecture per slot in room R1: accepted by the third and fourth script. *)
Definition sample34 : Solution :=
  solution_of_cells
    [ (0, 4, 0); (0, 5, 0); (0, 6, 0); (1, 7, 0); (1, 8, 0); (1, 9, 0);
      (2, 12, 0); (2, 13, 0); (2, 14, 0); (3, 15, 0); (3, 16, 0);
      (4, 17, 0); (4, 18, 0); (5, 19, 0); (5, 20, 0); (5, 21, 0);
      (6, 23, 0); (6, 24, 0); (6, 25, 0); (7, 26, 0); (7, 27, 0);
      (8, 28, 0); (8, 29, 0); (9, 34, 0); (9, 35, 0) ].

(** Each course in its own room at its own slot: accepted by the first script. *)
Definition sample1 : Solution := {|
  BooleanValue := λ b,
    match b with
    | same_room i j => bool_decide (i mod 3 = j mod 3)
    | X _ _ _ => false
    end;
  Value := λ v,
    match v with
    | course_time c => (Z.of_nat c + 4)%Z
    | course_room c => Z.of_nat (c mod 3)
    end |}.

(** ** Specification vocabulary *)

(** Course [c] is taught by faculty [f]. *)
Definition teaches (d : Data) (f : string) (c : nat) : Prop :=
  ∃ cname, courses d !! c = Some cname ∧ faculty d !! cname = Some f.

(** The constraint groups that every grid script puts in its model. *)
Record grid_model (d : Data) (m : CpModel) : Prop := {
  gm_room : one_course_per_room d ⊆ constraints m;
  gm_course : one_room_per_course d ⊆ constraints m;
  gm_faculty : ∃ cs, faculty_one_place d = Ok cs ∧ cs ⊆ constraints m;
  gm_shared : ∃ cs, shared_students_no_overlap d = Ok cs ∧ cs ⊆ constraints m }.

#[global] Instance PyErr_eq_dec : EqDecision PyErr.
Proof. solve_decision. Defined.
#[global] Instance result_eq_dec {A} `{EqDecision A} : EqDecision (result A).
Proof. solve_decision. Defined.

(** The courses taught by faculty [f]. *)
Definition taught_by (d : Data) (f : string) : list nat :=
  filter (λ c, faculty_of d c = Ok f) (course_indices d).

(** Data on which no lookup of the fourth script can fail. *)
Record lookups_defined (d : Data) (course_min_lectures : gmap string Z) : Prop := {
  ld_faculty : ∀ cname, cname ∈ courses d → is_Some (faculty d !! cname);
  ld_min : ∀ cname, cname ∈ courses d → is_Some (course_min_lectures !! cname);
  ld_int64 : ∀ cname k, cname ∈ courses d → course_min_lectures !! cname = Some k →
             in_int64 k;
  ld_shared : ∀ a b, (a, b) ∈ shared_students d → a ∈ courses d ∧ b ∈ courses d }.

(** One room, two slots, three courses that each need one lecture. *)
Definition pigeon_data : Data := {|
  days := 1; slots_per_day := 2;
  rooms := ["R1"];
  courses := ["AI"; "ML"; "Math"];
  faculty := list_to_map [("AI", "Dr.A"); ("ML", "Dr.B"); ("Math", "Dr.C")];
  shared_students := [] |}.

Definition pigeon_min : gmap string Z :=
  list_to_map [("AI", 1); ("ML", 1); ("Math", 1)]%Z.

Definition no_solution : Solution := solution_of_cells [].

(** A solver that gives up at its time limit, and one that proves
    infeasibility. *)
Definition timed_out : CpModel → CpSolverResponse :=
  λ _, {| status := UNKNOWN; solution := no_solution |}.
Definition exhausted : CpModel → CpSolverResponse :=
  λ _, {| status := INFEASIBLE; solution := no_solution |}.

(** One slot, one course asking for five lectures. *)
Definition overbooked_data : Data := {|
  days := 1; slots_per_day := 1;
  rooms := ["R1"];
  courses := ["AI"];
  faculty := list_to_map [("AI", "Dr.A")];
  shared_students := [] |}.

Definition overbooked_min : gmap string Z := list_to_map [("AI", 5%Z)].

(** A course whose faculty entry is missing. *)
Definition dangling_data : Data := {|
  days := 1; slots_per_day := 1;
  rooms := ["R1"];
  courses := ["AI"; "ML"];
  faculty := list_to_map [("AI", "Dr.A")];
  shared_students := [] |}.

Definition dangling_min : gmap string Z := list_to_map [("AI", 1%Z); ("ML", 1%Z)].

(** The entries of the cell for [day] and [period] in the grid of lists. *)
Definition cell_at (timetable : list (list (list string))) (day period : nat)
  : list string :=
  match timetable !! day with
  | Some row => default [] (row !! period)
  | None => []
  end.

(** A grid of [days] rows of [slots_per_day] cells. *)
Definition grid_shape (d : Data) (timetable : list (list (list string))) : Prop :=
  length timetable = days d ∧
  ∀ day row, timetable !! day = Some row → length row = slots_per_day d.

(** One iteration of the innermost decoding loop of the third and fourth
    script. *)
Definition step34 (d : Data) (s : Solution) (timetable : list (list (list string)))
    (ctr : nat * nat * nat) : result (list (list (list string))) :=
  let '(c, t, r) := ctr in
  if BooleanValue s (X c t r) then
    let day := Nat.div t (slots_per_day d) in
    let period := Nat.modulo t (slots_per_day d) in
    e ← entry d c r; append_entry timetable day period e
  else Ok timetable.

(** One iteration of the innermost decoding loop of the second script. *)
Definition step2 (d : Data) (s : Solution)
    (timetable : gmap nat (gmap nat (list string))) (tcr : nat * nat * nat)
  : result (gmap nat (gmap nat (list string))) :=
  let '(t, c, r) := tcr in
  if BooleanValue s (X c t r) then
    e ← entry d c r;
    Ok (dd_append timetable (Nat.div t (slots_per_day d) + 1)
          (Nat.modulo t (slots_per_day d) + 1) e)
  else Ok timetable.

(** Two solutions that give every variable of the grid the same value. *)
Definition same_grid (d : Data) (s s' : Solution) : Prop :=
  ∀ c t r, c < length (courses d) → t < total_slots d → r < length (rooms d) →
    BooleanValue s' (X c t r) = BooleanValue s (X c t r).

(** [sample34] with one more lecture: AI (Dr.A) in room R1 at slot 0, a slot
    that the third script lists as unavailable for Dr.A. *)
Definition sample4_slot0 : Solution :=
  solution_of_cells
    [ (0, 0, 0);
      (0, 4, 0); (0, 5, 0); (0, 6, 0); (1, 7, 0); (1, 8, 0); (1, 9, 0);
      (2, 12, 0); (2, 13, 0); (2, 14, 0); (3, 15, 0); (3, 16, 0);
      (4, 17, 0); (4, 18, 0); (5, 19, 0); (5, 20, 0); (5, 21, 0);
      (6, 23, 0); (6, 24, 0); (6, 25, 0); (7, 26, 0); (7, 27, 0);
      (8, 28, 0); (8, 29, 0); (9, 34, 0); (9, 35, 0) ].

(** ** The remaining parts of the scripts *)

(** *** First script: the printed lines *)

(** What can stop the printing loop of the first script. *)
Inductive Exn1 :=
| Lookup1 (e : PyErr)
| ZeroDivisionError.

(** [l[i]] for an arbitrary integer: a negative index counts from the end. *)
Definition list_getitem_int {A} (l : list A) (i : Z) : result A :=
  let n := Z.of_nat (length l) in
  if decide (0 ≤ i < n)%Z then list_getitem l (Z.to_nat i)
  else if decide (- n ≤ i < 0)%Z then list_getitem l (Z.to_nat (n + i))
  else Raise IndexError.

(** One printed line: course, faculty, day, period, room. *)
Record Line1 := {
  line_course : string;
  line_faculty : string;
  line_day : Z;
  line_period : Z;
  line_room : string }.

(** The body of the printing loop for course [c]. *)
Definition line1 (d : Data) (s : Solution) (c : nat) : Exn1 + Line1 :=
  match list_getitem (courses d) c with
  | Raise e => inl (Lookup1 e)
  | Ok course_name =>
      let time_slot := Value s (course_time c) in
      match list_getitem_int (rooms d) (Value s (course_room c)) with
      | Raise e => inl (Lookup1 e)
      | Ok room_name =>
          if decide (slots_per_day d = 0) then inl ZeroDivisionError
          else
            let day := (time_slot `div` Z.of_nat (slots_per_day d) + 1)%Z in
            let period := (time_slot `mod` Z.of_nat (slots_per_day d) + 1)%Z in
            match getitem (faculty d) course_name with
            | Raise e => inl (Lookup1 e)
            | Ok faculty_name =>
                inr {| line_course := course_name; line_faculty := faculty_name;
                       line_day := day; line_period := period;
                       line_room := room_name |}
            end
      end
  end.

(** The lines printed, and the exception that stopped the loop if any. *)
Fixpoint print_lines1 (d : Data) (s : Solution) (cs : list nat)
  : list Line1 * option Exn1 :=
  match cs with
  | [] => ([], None)
  | c :: cs' =>
      match line1 d s c with
      | inl e => ([], Some e)
      | inr l => let '(ls, e) := print_lines1 d s cs' in (l :: ls, e)
      end
  end.

(** The first script, from its data to what it prints. *)
Definition script1 (Solve : CpModel → CpSolverResponse) (d : Data)
    (faculty_unavailability : gmap string (list Z))
  : result (Printed (list Line1 * option Exn1)) :=
  model ← build1 d faculty_unavailability;
  let resp := Solve model in
  if feasible (status resp)
  then Ok (Report (print_lines1 d (solution resp) (course_indices d)))
  else Ok NoFeasibleTimetableFound.

(** *** Third script *)

(** The third script, from its data to what it prints. *)
Definition script3 (Solve : CpModel → CpSolverResponse) (d : Data)
    (faculty_unavailability : gmap string (list Z))
    (course_min_lectures : gmap string Z) : result (Printed Table) :=
  model ← build3 d faculty_unavailability course_min_lectures;
  let resp := Solve model in
  if feasible (status resp)
  then Report <$> decode34 d (solution resp)
  else Ok NoFeasibleTimetableFound.

(** *** Fourth script: the rows of the CSV export *)

(** [s.replace(old, new)] for a one-character [old]. *)
Fixpoint replace_char (old : ascii) (new : string) (s : string) : string :=
  match s with
  | EmptyString => EmptyString
  | String ch s' =>
      if decide (ch = old) then new +:+ replace_char old new s'
      else String ch (replace_char old new s')
  end.

(** [ch in s] *)
Fixpoint contains_char (ch : ascii) (s : string) : bool :=
  match s with
  | EmptyString => false
  | String ch' s' => bool_decide (ch' = ch) || contains_char ch s'
  end.

(** A cell as it is written to the CSV file. *)
Definition csv_cell (cell : string) : string :=
  if contains_char "010"%char cell then replace_char "010"%char "; " cell else cell.

(** The rows handed to [csv.writer]: the header, then the data rows. *)
Definition csv_rows (table : Table) : list (list string) :=
  headers table :: ((λ row : list string, csv_cell <$> row) <$> table_data table).

(** *** Vocabulary for the further properties *)

Definition to_option {A} (r : result A) : option A :=
  match r with Ok a => Some a | Raise _ => None end.

(** The entries of slot [t], by course and then by room. *)
Definition slot_entries (d : Data) (s : Solution) (t : nat) : list string :=
  omap (λ cr : nat * nat,
          if BooleanValue s (X cr.1 t cr.2) then to_option (entry d cr.1 cr.2) else None)
       (c ← course_indices d; r ← room_indices d; [(c, r)]).

(** What one iteration of the decoding loop adds to the cell [day], [period]. *)
Definition sel34 (d : Data) (s : Solution) (day period : nat) (ctr : nat * nat * nat)
  : option string :=
  let '(c, t, r) := ctr in
  if BooleanValue s (X c t r) then
    if decide (Nat.div t (slots_per_day d) = day ∧ Nat.modulo t (slots_per_day d) = period)
    then to_option (entry d c r) else None
  else None.

(** Number of true cells of slot [t] over all courses and rooms. *)
Definition lectures_in_slot (d : Data) (s : Solution) (t : nat) : nat :=
  length (filter (λ cr : nat * nat, BooleanValue s (X cr.1 t cr.2) = true)
            (c ← course_indices d; r ← room_indices d; [(c, r)])).

(** Two slots, one room, and a conflict pair that names AI twice. *)
Definition self_conflict_data : Data := {|
  days := 1; slots_per_day := 2;
  rooms := ["R1"];
  courses := ["AI"; "ML"];
  faculty := list_to_map [("AI", "Dr.A"); ("ML", "Dr.B")];
  shared_students := [("AI", "AI")] |}.

Definition self_conflict_solution : Solution :=
  solution_of_cells [(1, 0, 0); (1, 1, 0)].

(** A conflict pair that names a course the script does not declare. *)
Definition unknown_pair_data : Data := {|
  days := 1; slots_per_day := 2;
  rooms := ["R1"];
  courses := ["AI"; "ML"];
  faculty := list_to_map [("AI", "Dr.A"); ("ML", "Dr.B")];
  shared_students := [("AI", "Physics")] |}.

(** Dr.A unavailable at slot 7 of a two-slot week. *)
Definition out_of_range_unavailability : gmap string (list Z) :=
  list_to_map [("Dr.A", [7%Z])].

(** Courses without any faculty table. *)
Definition no_faculty_data : Data := {|
  days := 1; slots_per_day := 2;
  rooms := ["R1"];
  courses := ["AI"];
  faculty := ∅;
  shared_students := [] |}.

Definition one_lecture_min : gmap string Z := list_to_map [("AI", 1%Z)].

Definition one_lecture_solution : Solution := solution_of_cells [(0, 0, 0)].

Definition found : CpModel → CpSolverResponse :=
  λ _, {| status := FEASIBLE; solution := one_lecture_solution |}.

(** Whether a script uses the boolean grid [x]. *)
Definition grid_script (p : script) : bool :=
  match p with Script1 _ _ => false | _ => true end.

(** The sum of the minima printed in the summary. *)
Definition total_minimum (summ : Summary) : Z :=
  foldr (λ (l : string * nat * Z) acc, (l.2 + acc)%Z) 0%Z (per_course summ).

(** A quota and an unavailable slot that do not fit in 64 bits. *)
Definition huge_min : gmap string Z := list_to_map [("AI", (2 ^ 64)%Z)].

Definition huge_unavailability : gmap string (list Z) :=
  list_to_map [("Dr.A", [(2 ^ 64)%Z])].

(* ================================================================== *)
(** * Properties *)

(** ** The error monad and its loops *)

Lemma bind_Ok {A B} (m : result A) (k : A → result B) (b : B) :
  m ≫= k = Ok b ↔ ∃ a, m = Ok a ∧ k a = Ok b.
Proof.
  destruct m as [a|e]; simpl; split.
  - intros H; exists a; auto.
  - intros (a' & [= ->] & H); exact H.
  - discriminate.
  - intros (a' & [=] & _).
Qed.

Lemma fmap_Ok {A B} (f : A → B) (m : result A) (b : B) :
  f <$> m = Ok b ↔ ∃ a, m = Ok a ∧ b = f a.
Proof.
  destruct m as [a|e]; simpl; split.
  - intros [= <-]; eauto.
  - intros (a' & [= ->] & ->); reflexivity.
  - discriminate.
  - intros (a' & [=] & _).
Qed.

Ltac inv_bind H :=
  repeat match type of H with
  | _ ≫= _ = Ok _ =>
      let a := fresh "a" in let Ha := fresh "H" a in
      apply bind_Ok in H as (a & Ha & H)
  end.

Lemma for_each_Ok_elem {A B} (l : list A) (body : A → result (list B)) cs a :
  for_each l body = Ok cs → a ∈ l → ∃ cs', body a = Ok cs' ∧ cs' ⊆ cs.
Proof.
  revert cs; induction l as [|a0 l IH]; intros cs Hcs Ha.
  - inversion Ha.
  - simpl in Hcs. apply bind_Ok in Hcs as (cs0 & H0 & Hcs).
    apply bind_Ok in Hcs as (rest & Hrest & [= <-]).
    apply elem_of_cons in Ha as [->|Ha].
    + exists cs0; split; [done|]. intros y Hy; apply elem_of_app; auto.
    + destruct (IH _ Hrest Ha) as (cs' & Hb & Hsub).
      exists cs'; split; [done|]. intros y Hy; apply elem_of_app; auto.
Qed.

Lemma for_each_is_Ok {A B} (l : list A) (body : A → result (list B)) :
  (∀ a, a ∈ l → ∃ cs, body a = Ok cs) → ∃ cs, for_each l body = Ok cs.
Proof.
  induction l as [|a0 l IH]; intros Hb; simpl.
  - eauto.
  - destruct (Hb a0) as (cs0 & ->); [left|].
    destruct IH as (rest & ->); [intros a Ha; apply Hb; by right|].
    simpl. eauto.
Qed.

Lemma for_each_Raise_head {A B} (a : A) (l : list A) (body : A → result (list B)) e :
  body a = Raise e → for_each (a :: l) body = Raise e.
Proof. intros H; simpl; by rewrite H. Qed.

Lemma filterM_Ok_elem {A} (p : A → result bool) (l l' : list A) :
  filterM p l = Ok l' → ∀ a, a ∈ l' ↔ a ∈ l ∧ p a = Ok true.
Proof.
  revert l'; induction l as [|a0 l IH]; intros l' H a; simpl in H.
  - injection H as <-. split; [inversion 1|intros [Hin _]; inversion Hin].
  - apply bind_Ok in H as (b & Hb & H).
    apply bind_Ok in H as (rest & Hrest & [= <-]).
    specialize (IH _ Hrest a). destruct b.
    + rewrite !elem_of_cons, IH. split.
      * intros [->|[? ?]]; auto.
      * intros [[->|?] ?]; auto.
    + rewrite elem_of_cons, IH. split.
      * intros [? ?]; auto.
      * intros [[->|?] Hp]; [congruence|auto].
Qed.

Lemma filterM_Ok_total {A} (p : A → result bool) (l l' : list A) a :
  filterM p l = Ok l' → a ∈ l → ∃ b, p a = Ok b.
Proof.
  revert l'; induction l as [|a0 l IH]; intros l' H Ha; simpl in H.
  - inversion Ha.
  - apply bind_Ok in H as (b & Hb & H).
    apply bind_Ok in H as (rest & Hrest & _).
    apply elem_of_cons in Ha as [->|Ha]; eauto.
Qed.

Lemma filterM_is_Ok {A} (p : A → result bool) (l : list A) :
  (∀ a, a ∈ l → ∃ b, p a = Ok b) → ∃ l', filterM p l = Ok l'.
Proof.
  induction l as [|a0 l IH]; intros Hp; simpl; [eauto|].
  destruct (Hp a0) as (b & ->); [left|].
  destruct IH as (rest & ->); [intros a Ha; apply Hp; by right|].
  simpl; eauto.
Qed.

Lemma index_Ok_lookup (l : list string) (s : string) (i : nat) :
  index l s = Ok i → l !! i = Some s.
Proof.
  revert i; induction l as [|a l IH]; intros i H; simpl in H; [discriminate|].
  destruct (decide (a = s)) as [->|Hne].
  - by injection H as <-.
  - apply fmap_Ok in H as (j & Hj & ->). simpl. auto.
Qed.

Lemma index_is_Ok (l : list string) (s : string) :
  s ∈ l → ∃ i, index l s = Ok i.
Proof.
  induction l as [|a l IH]; intros H; [inversion H|]. simpl.
  destruct (decide (a = s)); [eauto|].
  apply elem_of_cons in H as [->|H]; [done|].
  destruct (IH H) as (i & ->). simpl; eauto.
Qed.

(** ** Counting true cells *)

Lemma filter_le_1_unique {A} (P : A → Prop) `{∀ a, Decision (P a)} (l : list A) a b :
  length (filter P l) ≤ 1 → a ∈ l → b ∈ l → P a → P b → a = b.
Proof.
  induction l as [|a0 l IH]; intros Hlen Ha Hb Pa Pb; [inversion Ha|].
  rewrite filter_cons in Hlen.
  assert (Hnil : ∀ y, P a0 → y ∈ l → P y → False).
  { intros y P0 Hy Py. rewrite decide_True in Hlen by done. simpl in Hlen.
    assert (Hy' : y ∈ filter P l) by (apply list_elem_of_filter; auto).
    destruct (filter P l); [inversion Hy'|simpl in Hlen; lia]. }
  apply elem_of_cons in Ha as [->|Ha]; apply elem_of_cons in Hb as [->|Hb].
  - done.
  - exfalso; eauto.
  - exfalso; eauto.
  - destruct (decide (P a0)); [exfalso; eauto|]. auto.
Qed.

Lemma filter_le_1_intro {A} (P : A → Prop) `{∀ a, Decision (P a)} (l : list A) :
  NoDup l → (∀ a b, a ∈ l → b ∈ l → P a → P b → a = b) → length (filter P l) ≤ 1.
Proof.
  induction 1 as [|a0 l Hnotin Hnd IH]; intros Huniq; [simpl; lia|].
  rewrite filter_cons. destruct (decide (P a0)) as [P0|_].
  - assert (Hnil : filter P l = []).
    { destruct (filter P l) as [|y ys] eqn:E; [done|].
      assert (Hy : y ∈ filter P l) by (rewrite E; left).
      apply list_elem_of_filter in Hy as [Py Hy].
      assert (a0 = y) by (apply Huniq; auto; [left|by right]).
      subst; contradiction. }
    rewrite Hnil; simpl; lia.
  - apply IH. intros a b Ha Hb; apply Huniq; by right.
Qed.

Lemma filter_pos_exists {A} (P : A → Prop) `{∀ a, Decision (P a)} (l : list A) :
  0 < length (filter P l) → ∃ a, a ∈ l ∧ P a.
Proof.
  destruct (filter P l) as [|a l'] eqn:E; simpl; [lia|]. intros _.
  assert (Ha : a ∈ filter P l) by (rewrite E; left).
  apply list_elem_of_filter in Ha as [? ?]; eauto.
Qed.

Lemma count_true_fmap {A} (s : Solution) (f : A → BoolVar) (l : list A) :
  count_true s (f <$> l) = length (filter (λ a, BooleanValue s (f a) = true) l).
Proof.
  unfold count_true. induction l as [|a l IH]; [done|].
  rewrite fmap_cons, !filter_cons. destruct (decide (BooleanValue s (f a) = true)); simpl; lia.
Qed.

Lemma bind_pair_fmap {A B C} (f : A → B → C) (l1 : list A) (l2 : list B) :
  (a ← l1; b ← l2; [f a b]) = (λ ab, f ab.1 ab.2) <$> (a ← l1; b ← l2; [(a, b)]).
Proof.
  induction l1 as [|a l1 IH]; [done|].
  change ((a ← (a :: l1); b ← l2; [f a b]))
    with ((b ← l2; [f a b]) ++ (a ← l1; b ← l2; [f a b])).
  change ((a ← (a :: l1); b ← l2; [(a, b)]))
    with ((b ← l2; [(a, b)]) ++ (a ← l1; b ← l2; [(a, b)])).
  rewrite fmap_app, IH. f_equal.
  clear. induction l2 as [|b l2 IH]; [done|].
  change (b ← (b :: l2); [f a b]) with (f a b :: (b ← l2; [f a b])).
  change (b ← (b :: l2); [(a, b)]) with ((a, b) :: (b ← l2; [(a, b)])).
  rewrite fmap_cons, IH. done.
Qed.

Lemma elem_of_pairs {A B} (l1 : list A) (l2 : list B) a b :
  (a, b) ∈ (a ← l1; b ← l2; [(a, b)]) ↔ a ∈ l1 ∧ b ∈ l2.
Proof.
  rewrite list_elem_of_bind. split.
  - intros (a' & Hb & Ha). apply list_elem_of_bind in Hb as (b' & Hb & Hb').
    apply list_elem_of_singleton in Hb as [= -> ->]. done.
  - intros [Ha Hb]. exists a; split; [|done].
    apply list_elem_of_bind. exists b; split; [|done]. by apply list_elem_of_singleton.
Qed.

Lemma satisfies_holds (s : Solution) (m : CpModel) (c : Constraint) :
  satisfies s m = true → c ∈ constraints m → holds s c = true.
Proof.
  unfold satisfies. intros H Hc. apply andb_true_iff in H as [_ H].
  rewrite forallb_forall in H. apply H. by apply list_elem_of_In.
Qed.

Lemma satisfies_in_domain (s : Solution) (m : CpModel) v lb ub :
  satisfies s m = true → (v, (lb, ub)) ∈ int_vars m → (lb ≤ Value s v ≤ ub)%Z.
Proof.
  unfold satisfies. intros H Hv. apply andb_true_iff in H as [H _].
  rewrite forallb_forall in H. apply list_elem_of_In, H in Hv. simpl in Hv.
  apply andb_true_iff in Hv as [H1 H2]. lia.
Qed.

(** ** What the constraint groups contain *)

Lemma elem_of_indices (n k : nat) : k ∈ seq 0 n ↔ k < n.
Proof. rewrite elem_of_seq. lia. Qed.

Lemma faculty_of_Ok (d : Data) (c : nat) (f : string) :
  faculty_of d c = Ok f ↔ teaches d f c.
Proof.
  unfold faculty_of, teaches, list_getitem, getitem. split.
  - intros H. destruct (courses d !! c) as [cname|] eqn:E; [|discriminate].
    simpl in H. destruct (faculty d !! cname) as [f'|] eqn:E'; [|discriminate].
    injection H as <-. eauto.
  - intros (cname & -> & H). simpl. by rewrite H.
Qed.

Lemma teaches_lt (d : Data) (f : string) (c : nat) :
  teaches d f c → c < length (courses d).
Proof. intros (cname & H & _). by apply lookup_lt_Some in H. Qed.

Lemma teaches_faculty_values (d : Data) (f : string) (c : nat) :
  teaches d f c → f ∈ faculty_values d.
Proof.
  intros (cname & _ & H). unfold faculty_values.
  apply elem_of_elements. apply elem_of_map_img. eauto.
Qed.

Lemma relevant_courses_elem (d : Data) (f : string) (rel : list nat) (c : nat) :
  relevant_courses d f = Ok rel → c ∈ rel ↔ teaches d f c.
Proof.
  intros H. unfold relevant_courses in H.
  rewrite (filterM_Ok_elem _ _ _ H c). split.
  - intros [_ Hc]. apply bind_Ok in Hc as (f' & Hf & [= Hb]).
    apply bool_decide_eq_true in Hb as ->. by apply faculty_of_Ok.
  - intros Ht. split.
    + apply elem_of_indices. by eapply teaches_lt.
    + apply faculty_of_Ok in Ht. rewrite Ht. simpl. by rewrite bool_decide_eq_true_2.
Qed.

Lemma room_constraint_in (d : Data) (t r : nat) :
  t < total_slots d → r < length (rooms d) →
  AddAtMostOne ((λ c, X c t r) <$> course_indices d) ∈ one_course_per_room d.
Proof.
  intros Ht Hr. unfold one_course_per_room.
  apply list_elem_of_bind. exists t. split; [|by apply elem_of_indices].
  apply list_elem_of_bind. exists r. split; [|by apply elem_of_indices].
  by apply list_elem_of_singleton.
Qed.

Lemma course_constraint_in (d : Data) (c t : nat) :
  c < length (courses d) → t < total_slots d →
  AddAtMostOne ((λ r, X c t r) <$> room_indices d) ∈ one_room_per_course d.
Proof.
  intros Hc Ht. unfold one_room_per_course.
  apply list_elem_of_bind. exists c. split; [|by apply elem_of_indices].
  apply list_elem_of_bind. exists t. split; [|by apply elem_of_indices].
  by apply list_elem_of_singleton.
Qed.

Lemma every_slot_constraint_in (d : Data) (t : nat) :
  t < total_slots d →
  Add (LinGe (Sum (c ← course_indices d; r ← room_indices d; [X c t r])) (Const 1)) []
    ∈ every_slot_used d.
Proof.
  intros Ht. unfold every_slot_used.
  apply list_elem_of_bind. exists t. split; [|by apply elem_of_indices].
  by apply list_elem_of_singleton.
Qed.

Lemma faculty_constraint_in (d : Data) (cs : list Constraint) (t : nat) (f : string) :
  faculty_one_place d = Ok cs → t < total_slots d → f ∈ faculty_values d →
  ∃ rel, relevant_courses d f = Ok rel ∧
         AddAtMostOne (c ← rel; r ← room_indices d; [X c t r]) ∈ cs.
Proof.
  intros H Ht Hf. unfold faculty_one_place in H.
  destruct (for_each_Ok_elem _ _ _ t H) as (cs1 & H1 & Hsub1); [by apply elem_of_indices|].
  destruct (for_each_Ok_elem _ _ _ f H1) as (cs2 & H2 & Hsub2); [done|].
  apply bind_Ok in H2 as (rel & Hrel & [= <-]).
  exists rel. split; [done|]. apply Hsub1, Hsub2. left.
Qed.

Lemma unavailable_constraint_in (d : Data) (u : gmap string (list Z))
    (cs : list Constraint) (c r : nat) (f : string) (ts : list Z) (t : Z) :
  faculty_unavailable d u = Ok cs → teaches d f c → u !! f = Some ts → t ∈ ts →
  r < length (rooms d) →
  ∃ v, x_getitem d c t r = Ok v ∧ Add (LinEq (BoolV v) (Const 0)) [] ∈ cs.
Proof.
  intros H Hteach Hu Ht Hr. unfold faculty_unavailable in H.
  destruct (for_each_Ok_elem _ _ _ c H) as (cs1 & H1 & Hsub1).
  { apply elem_of_indices. by eapply teaches_lt. }
  apply bind_Ok in H1 as (f' & Hf' & H1).
  apply faculty_of_Ok in Hteach. rewrite Hteach in Hf'. injection Hf' as <-.
  rewrite Hu in H1.
  destruct (for_each_Ok_elem _ _ _ t H1) as (cs2 & H2 & Hsub2); [done|].
  destruct (for_each_Ok_elem _ _ _ r H2) as (cs3 & H3 & Hsub3); [by apply elem_of_indices|].
  apply bind_Ok in H3 as (v & Hv & [= <-]).
  exists v. split; [done|]. apply Hsub1, Hsub2, Hsub3. left.
Qed.

Lemma x_getitem_Ok (d : Data) (c : nat) (t : Z) (r : nat) (v : BoolVar) :
  x_getitem d c t r = Ok v →
  (0 ≤ t)%Z ∧ Z.to_nat t < total_slots d ∧ v = X c (Z.to_nat t) r.
Proof.
  unfold x_getitem. destruct (decide _) as [[H0 Hin]|]; [|discriminate].
  intros [= <-]. split; [done|]. split; [|done].
  unfold x_keys in Hin.
  apply list_elem_of_bind in Hin as (c' & Hin & _).
  apply list_elem_of_bind in Hin as (t' & Hin & Ht').
  apply list_elem_of_bind in Hin as (r' & Hin & _).
  apply list_elem_of_singleton in Hin as [= -> -> ->].
  by apply elem_of_indices in Ht'.
Qed.

Lemma shared_constraint_in (d : Data) (cs : list Constraint) (course1 course2 : string) :
  shared_students_no_overlap d = Ok cs → (course1, course2) ∈ shared_students d →
  ∃ i j, index (courses d) course1 = Ok i ∧ index (courses d) course2 = Ok j ∧
    ∀ t, t < total_slots d →
      Add (LinLe (Plus (Sum ((λ r1, X i t r1) <$> room_indices d))
                       (Sum ((λ r2, X j t r2) <$> room_indices d)))
                 (Const 1)) [] ∈ cs.
Proof.
  intros H Hin. unfold shared_students_no_overlap in H.
  destruct (for_each_Ok_elem _ _ _ _ H Hin) as (cs1 & H1 & Hsub1).
  apply bind_Ok in H1 as (i & Hi & H1). apply bind_Ok in H1 as (j & Hj & [= <-]).
  exists i, j. split; [done|]. split; [done|]. intros t Ht.
  apply Hsub1. apply list_elem_of_fmap. exists t. split; [done|]. by apply elem_of_indices.
Qed.

Lemma int64_const_Ok (k k' : Z) : int64_const k = Ok k' → k' = k ∧ in_int64 k.
Proof.
  unfold int64_const. destruct (decide (in_int64 k)); [|discriminate].
  by intros [= <-].
Qed.

Lemma int64_const_in_range (k : Z) : in_int64 k → int64_const k = Ok k.
Proof. intros H. unfold int64_const. by rewrite decide_True. Qed.

Lemma int64_const_Raise (k : Z) (e : PyErr) : int64_const k = Raise e → e = TypeError.
Proof.
  unfold int64_const. destruct (decide (in_int64 k)); [discriminate|]. by intros [= <-].
Qed.

Lemma min_lectures_constraint_in (d : Data) (q : gmap string Z) (cs : list Constraint)
    (c : nat) (cname : string) :
  min_lectures_per_course d q = Ok cs → courses d !! c = Some cname →
  ∃ k, q !! cname = Some k ∧
    Add (LinGe (Sum (t ← time_slots d; r ← room_indices d; [X c t r])) (Const k)) [] ∈ cs.
Proof.
  intros H Hc. unfold min_lectures_per_course in H.
  destruct (for_each_Ok_elem _ _ _ c H) as (cs1 & H1 & Hsub1).
  { apply elem_of_indices. by apply lookup_lt_Some in Hc. }
  unfold list_getitem in H1. rewrite Hc in H1. simpl in H1.
  apply bind_Ok in H1 as (k & Hk & H1). apply bind_Ok in H1 as (bound & Hbound & [= <-]).
  unfold getitem in Hk. destruct (q !! cname) as [k'|] eqn:E; [|discriminate].
  injection Hk as ->. exists k. split; [done|]. apply Hsub1.
  assert (bound = k) as ->.
  { destruct (t ← time_slots d; r ← room_indices d; [X c t r]).
    - by injection Hbound as <-.
    - by apply int64_const_Ok in Hbound as [-> _]. }
  left.
Qed.

(** ** What each script's model contains *)

Ltac solve_sub :=
  intros ? ?; simpl; rewrite ?elem_of_app; auto 10.

Lemma build2_inv (d : Data) (u : gmap string (list Z)) (m : CpModel) :
  build2 d u = Ok m →
  grid_model d m ∧ every_slot_used d ⊆ constraints m ∧
  ∃ cs, faculty_unavailable d u = Ok cs ∧ cs ⊆ constraints m.
Proof.
  unfold build2. intros H.
  apply bind_Ok in H as (c4 & H4 & H). apply bind_Ok in H as (c5 & H5 & H).
  apply bind_Ok in H as (c6 & H6 & [= <-]).
  split; [constructor|split]; simpl.
  - solve_sub.
  - solve_sub.
  - exists c4; split; [done|solve_sub].
  - exists c6; split; [done|solve_sub].
  - solve_sub.
  - exists c5; split; [done|solve_sub].
Qed.

Lemma build3_inv (d : Data) (u : gmap string (list Z)) (q : gmap string Z) (m : CpModel) :
  build3 d u q = Ok m →
  grid_model d m ∧
  (∃ cs, faculty_unavailable d u = Ok cs ∧ cs ⊆ constraints m) ∧
  (∃ cs, min_lectures_per_course d q = Ok cs ∧ cs ⊆ constraints m).
Proof.
  unfold build3. intros H.
  apply bind_Ok in H as (c3 & H3 & H). apply bind_Ok in H as (c4 & H4 & H).
  apply bind_Ok in H as (c5 & H5 & H). apply bind_Ok in H as (c6 & H6 & [= <-]).
  split; [constructor|split]; simpl.
  - solve_sub.
  - solve_sub.
  - exists c3; split; [done|solve_sub].
  - exists c5; split; [done|solve_sub].
  - exists c4; split; [done|solve_sub].
  - exists c6; split; [done|solve_sub].
Qed.

Lemma build4_inv (d : Data) (q : gmap string Z) (m : CpModel) :
  build4 d q = Ok m →
  grid_model d m ∧
  (∃ cs, min_lectures_per_course d q = Ok cs ∧ cs ⊆ constraints m).
Proof.
  unfold build4. intros H.
  apply bind_Ok in H as (c3 & H3 & H). apply bind_Ok in H as (c4 & H4 & H).
  apply bind_Ok in H as (c5 & H5 & [= <-]).
  split; [constructor|]; simpl.
  - solve_sub.
  - solve_sub.
  - exists c3; split; [done|solve_sub].
  - exists c4; split; [done|solve_sub].
  - exists c5; split; [done|solve_sub].
Qed.

(** Every script but the first builds a grid model. *)
Lemma build_grid (p : script) (m : CpModel) :
  build p = Ok m →
  match p with Script1 _ _ => True | _ => grid_model (data p) m end.
Proof.
  destruct p; simpl; intros H; [done| | |].
  - by apply build2_inv in H as [? _].
  - by apply build3_inv in H as [? _].
  - by apply build4_inv in H as [? _].
Qed.

(** ** The first script's model *)

Lemma build1_inv (d : Data) (u : gmap string (list Z)) (m : CpModel) :
  build1 d u = Ok m →
  (∀ c, c < length (courses d) →
     (course_time c, (0, Z.of_nat (total_slots d) - 1)%Z) ∈ int_vars m ∧
     (course_room c, (0, Z.of_nat (length (rooms d)) - 1)%Z) ∈ int_vars m) ∧
  (∀ i j, i < j → j < length (courses d) →
     Add (LinEq (IntV (course_room i)) (IntV (course_room j))) [Lit (same_room i j)]
       ∈ constraints m ∧
     Add (LinNe (IntV (course_room i)) (IntV (course_room j))) [Not (same_room i j)]
       ∈ constraints m ∧
     Add (LinNe (IntV (course_time i)) (IntV (course_time j))) [Lit (same_room i j)]
       ∈ constraints m) ∧
  (∀ i j f, i < j → teaches d f i → teaches d f j →
     Add (LinNe (IntV (course_time i)) (IntV (course_time j))) [] ∈ constraints m) ∧
  (∀ c f ts slot, teaches d f c → u !! f = Some ts → slot ∈ ts →
     Add (LinNe (IntV (course_time c)) (Const slot)) [] ∈ constraints m) ∧
  (∀ a b, (a, b) ∈ shared_students d →
     ∃ i j, index (courses d) a = Ok i ∧ index (courses d) b = Ok j ∧
       Add (LinNe (IntV (course_time i)) (IntV (course_time j))) [] ∈ constraints m).
Proof.
  unfold build1. intros H.
  apply bind_Ok in H as (c2 & H2 & H). apply bind_Ok in H as (c3 & H3 & H).
  apply bind_Ok in H as (c4 & H4 & [= <-]). simpl.
  split; [|split; [|split; [|split]]].
  - intros c Hc. split.
    + apply list_elem_of_bind. exists c. split; [left|by apply elem_of_indices].
    + apply list_elem_of_bind. exists c. split; [right; left|by apply elem_of_indices].
  - intros i j Hij Hj.
    assert (Hin : ∀ y,
      y ∈ [ Add (LinEq (IntV (course_room i)) (IntV (course_room j))) [Lit (same_room i j)];
            Add (LinNe (IntV (course_room i)) (IntV (course_room j))) [Not (same_room i j)];
            Add (LinNe (IntV (course_time i)) (IntV (course_time j))) [Lit (same_room i j)] ] →
      y ∈ (i ← course_indices d; j ← course_indices d;
           if i <? j then
             [ Add (LinEq (IntV (course_room i)) (IntV (course_room j))) [Lit (same_room i j)];
               Add (LinNe (IntV (course_room i)) (IntV (course_room j))) [Not (same_room i j)];
               Add (LinNe (IntV (course_time i)) (IntV (course_time j))) [Lit (same_room i j)] ]
           else [])).
    { intros y Hy. apply list_elem_of_bind. exists i. split; [|apply elem_of_indices; lia].
      apply list_elem_of_bind. exists j. split; [|by apply elem_of_indices].
      destruct (Nat.ltb_spec i j); [done|lia]. }
    repeat split; apply elem_of_app; left; apply Hin.
    + left.
    + right; left.
    + right; right; left.
  - intros i j f Hij Hi Hj.
    destruct (for_each_Ok_elem _ _ _ i H2) as (cs1 & H1 & Hsub1).
    { apply elem_of_indices. by eapply teaches_lt. }
    destruct (for_each_Ok_elem _ _ _ j H1) as (cs2 & H2' & Hsub2).
    { apply elem_of_indices. by eapply teaches_lt. }
    destruct (Nat.ltb_spec i j); [|lia].
    apply faculty_of_Ok in Hi, Hj. rewrite Hi, Hj in H2'. simpl in H2'.
    rewrite decide_True in H2' by done. injection H2' as <-.
    apply elem_of_app; right. apply elem_of_app; left. apply Hsub1, Hsub2. left.
  - intros c f ts slot Hc Hu Hslot.
    destruct (for_each_Ok_elem _ _ _ c H3) as (cs1 & H1 & Hsub1).
    { apply elem_of_indices. by eapply teaches_lt. }
    apply faculty_of_Ok in Hc. rewrite Hc in H1. simpl in H1. rewrite Hu in H1.
    destruct (for_each_Ok_elem _ _ _ slot H1 Hslot) as (cs2 & H2' & Hsub2).
    apply bind_Ok in H2' as (bound & Hbound & [= <-]).
    apply int64_const_Ok in Hbound as [-> _].
    apply elem_of_app; right. apply elem_of_app; right. apply elem_of_app; left.
    apply Hsub1, Hsub2. left.
  - intros a b Hab.
    destruct (for_each_Ok_elem _ _ _ _ H4 Hab) as (cs1 & H1 & Hsub1). simpl in H1.
    apply bind_Ok in H1 as (i & Hi & H1). apply bind_Ok in H1 as (j & Hj & [= <-]).
    exists i, j. split; [done|]. split; [done|].
    apply elem_of_app; right. apply elem_of_app; right. apply elem_of_app; right.
    apply Hsub1. left.
Qed.

Section first_script.
Context (d : Data) (u : gmap string (list Z)) (m : CpModel) (s : Solution).
Hypothesis Hbuild : build1 d u = Ok m.
Hypothesis Hsat : satisfies s m = true.

Lemma s1_time_domain c :
  c < length (courses d) →
  (0 ≤ Value s (course_time c) < Z.of_nat (total_slots d))%Z.
Proof.
  intros Hc. destruct (build1_inv _ _ _ Hbuild) as (Hv & _).
  destruct (Hv c Hc) as [H _]. apply (satisfies_in_domain s) in H; [lia|done].
Qed.

Lemma s1_room_domain c :
  c < length (courses d) →
  (0 ≤ Value s (course_room c) < Z.of_nat (length (rooms d)))%Z.
Proof.
  intros Hc. destruct (build1_inv _ _ _ Hbuild) as (Hv & _).
  destruct (Hv c Hc) as [_ H]. apply (satisfies_in_domain s) in H; [lia|done].
Qed.

Lemma s1_room_or_time_lt i j :
  i < j → j < length (courses d) →
  Value s (course_room i) ≠ Value s (course_room j) ∨
  Value s (course_time i) ≠ Value s (course_time j).
Proof.
  intros Hij Hj. destruct (build1_inv _ _ _ Hbuild) as (_ & Hc & _).
  destruct (Hc i j Hij Hj) as (_ & H2 & H3).
  apply (satisfies_holds s) in H2, H3; [|done..]. simpl in H2, H3.
  destruct (BooleanValue s (same_room i j)); simpl in *.
  - right. apply negb_true_iff, Z.eqb_neq in H3. done.
  - left. apply negb_true_iff, Z.eqb_neq in H2. done.
Qed.

Lemma s1_room_or_time i j :
  i ≠ j → i < length (courses d) → j < length (courses d) →
  Value s (course_room i) ≠ Value s (course_room j) ∨
  Value s (course_time i) ≠ Value s (course_time j).
Proof.
  intros Hne Hi Hj. destruct (Nat.lt_total i j) as [Hlt|[->|Hlt]]; [|done|].
  - by apply s1_room_or_time_lt.
  - destruct (s1_room_or_time_lt j i Hlt Hi); [left|right]; congruence.
Qed.

Lemma s1_faculty i j f :
  i ≠ j → teaches d f i → teaches d f j →
  Value s (course_time i) ≠ Value s (course_time j).
Proof.
  assert (Hlt : ∀ i j, i < j → teaches d f i → teaches d f j →
                       Value s (course_time i) ≠ Value s (course_time j)).
  { clear i j. intros i j Hij Hi Hj.
    destruct (build1_inv _ _ _ Hbuild) as (_ & _ & Hc & _).
    specialize (Hc i j f Hij Hi Hj). apply (satisfies_holds s) in Hc; [|done].
    simpl in Hc. by apply negb_true_iff, Z.eqb_neq in Hc. }
  intros Hne Hi Hj. destruct (Nat.lt_total i j) as [H|[->|H]]; [auto|done|].
  intros Heq. by apply (Hlt j i H Hj Hi).
Qed.

Lemma s1_unavailable c f ts slot :
  teaches d f c → u !! f = Some ts → slot ∈ ts → Value s (course_time c) ≠ slot.
Proof.
  intros Hc Hu Hslot. destruct (build1_inv _ _ _ Hbuild) as (_ & _ & _ & H & _).
  specialize (H c f ts slot Hc Hu Hslot). apply (satisfies_holds s) in H; [|done].
  simpl in H. by apply negb_true_iff, Z.eqb_neq in H.
Qed.

Lemma s1_shared a b :
  (a, b) ∈ shared_students d →
  ∃ i j, index (courses d) a = Ok i ∧ index (courses d) b = Ok j ∧
         Value s (course_time i) ≠ Value s (course_time j).
Proof.
  intros Hab. destruct (build1_inv _ _ _ Hbuild) as (_ & _ & _ & _ & H).
  destruct (H a b Hab) as (i & j & Hi & Hj & Hc). exists i, j.
  split; [done|]. split; [done|]. apply (satisfies_holds s) in Hc; [|done].
  simpl in Hc. by apply negb_true_iff, Z.eqb_neq in Hc.
Qed.
End first_script.

(** ** Solutions of the grid scripts *)

Lemma NoDup_pairs {A B} (l1 : list A) (l2 : list B) :
  NoDup l1 → NoDup l2 → NoDup (a ← l1; b ← l2; [(a, b)]).
Proof.
  intros H1 H2. apply NoDup_bind; [| |done].
  - intros a1 a2 y _ _ Hy1 Hy2.
    apply list_elem_of_bind in Hy1 as (b1 & Hy1 & _).
    apply list_elem_of_bind in Hy2 as (b2 & Hy2 & _).
    apply list_elem_of_singleton in Hy1, Hy2. congruence.
  - intros a _. apply NoDup_bind; [| |done].
    + intros b1 b2 y _ _ Hy1 Hy2. apply list_elem_of_singleton in Hy1, Hy2. congruence.
    + intros b _. apply NoDup_singleton.
Qed.

Lemma Solved_intro (p : script) (s : Solution) :
  match build p with Ok m => satisfies s m | Raise _ => false end = true → Solved p s.
Proof. unfold Solved. destruct (build p) as [m|e]; [eauto|discriminate]. Qed.

Lemma elem_of_taught_by (d : Data) (f : string) (c : nat) :
  c ∈ taught_by d f ↔ teaches d f c.
Proof.
  unfold taught_by, course_indices.
  rewrite list_elem_of_filter, faculty_of_Ok, elem_of_indices.
  split; [tauto|]. intros H; split; [done|]. by eapply teaches_lt.
Qed.

Section grid_scripts.
Context (d : Data) (m : CpModel) (s : Solution).
Hypothesis Hgrid : grid_model d m.
Hypothesis Hsat : satisfies s m = true.

Lemma grid_room_count t r :
  t < total_slots d → r < length (rooms d) →
  length (filter (λ c, BooleanValue s (X c t r) = true) (course_indices d)) ≤ 1.
Proof.
  intros Ht Hr. pose proof (room_constraint_in d t r Ht Hr) as H.
  apply (gm_room _ _ Hgrid), (satisfies_holds s) in H; [|done].
  simpl in H. apply Nat.leb_le in H. by rewrite count_true_fmap in H.
Qed.

Lemma grid_course_count c t :
  c < length (courses d) → t < total_slots d →
  length (filter (λ r, BooleanValue s (X c t r) = true) (room_indices d)) ≤ 1.
Proof.
  intros Hc Ht. pose proof (course_constraint_in d c t Hc Ht) as H.
  apply (gm_course _ _ Hgrid), (satisfies_holds s) in H; [|done].
  simpl in H. apply Nat.leb_le in H. by rewrite count_true_fmap in H.
Qed.

Lemma grid_faculty_unique t f c1 r1 c2 r2 :
  t < total_slots d → teaches d f c1 → teaches d f c2 →
  r1 < length (rooms d) → r2 < length (rooms d) →
  BooleanValue s (X c1 t r1) = true → BooleanValue s (X c2 t r2) = true →
  c1 = c2 ∧ r1 = r2.
Proof.
  intros Ht H1 H2 Hr1 Hr2 Hx1 Hx2.
  destruct (gm_faculty _ _ Hgrid) as (cs & Hcs & Hsub).
  destruct (faculty_constraint_in d cs t f Hcs Ht) as (rel & Hrel & Hin).
  { by eapply teaches_faculty_values. }
  apply Hsub, (satisfies_holds s) in Hin; [|done]. simpl in Hin.
  apply Nat.leb_le in Hin.
  assert (Hmem : ∀ c r, teaches d f c → r < length (rooms d) →
                        X c t r ∈ (c ← rel; r ← room_indices d; [X c t r])).
  { intros c r Hc Hr. apply list_elem_of_bind. exists c.
    split; [|by apply (relevant_courses_elem d f rel c Hrel)].
    apply list_elem_of_bind. exists r. split; [left|by apply elem_of_indices]. }
  assert (Heq : X c1 t r1 = X c2 t r2).
  { eapply (filter_le_1_unique (λ b, BooleanValue s b = true)); eauto. }
  by injection Heq.
Qed.

Lemma grid_shared course1 course2 i j t :
  (course1, course2) ∈ shared_students d →
  index (courses d) course1 = Ok i → index (courses d) course2 = Ok j →
  t < total_slots d →
  length (filter (λ r, BooleanValue s (X i t r) = true) (room_indices d))
  + length (filter (λ r, BooleanValue s (X j t r) = true) (room_indices d)) ≤ 1.
Proof.
  intros Hin Hi Hj Ht.
  destruct (gm_shared _ _ Hgrid) as (cs & Hcs & Hsub).
  destruct (shared_constraint_in d cs _ _ Hcs Hin) as (i' & j' & Hi' & Hj' & H).
  rewrite Hi in Hi'. rewrite Hj in Hj'. injection Hi' as <-. injection Hj' as <-.
  specialize (H t Ht). apply Hsub, (satisfies_holds s) in H; [|done].
  simpl in H. rewrite !count_true_fmap in H. apply Z.leb_le in H. lia.
Qed.
End grid_scripts.

(** ** Room exclusivity *)

Lemma s1_scheduled_unique_room (s : Solution) (c t : nat) (n : nat) :
  length (filter (λ r, ((Value s (course_time c) =? Z.of_nat t)%Z
                        && (Value s (course_room c) =? Z.of_nat r)%Z) = true) (seq 0 n))
  ≤ (if (Value s (course_time c) =? Z.of_nat t)%Z then 1 else 0).
Proof.
  destruct (Value s (course_time c) =? Z.of_nat t)%Z eqn:E; simpl.
  - apply filter_le_1_intro; [apply NoDup_seq|].
    intros a b _ _ Ha Hb. apply Z.eqb_eq in Ha, Hb. lia.
  - induction (seq 0 n) as [|a l IH]; [done|].
    rewrite filter_cons. destruct (decide (false = true)); [discriminate|done].
Qed.

(** C3. In every solution a script can receive, at most one course is
    scheduled in room [r] at slot [t]: no two courses share a (slot, room)
    pair. *)
Theorem room_exclusivity (p : script) (s : Solution) (t r : nat) :
  Solved p s → t < total_slots (data p) → r < length (rooms (data p)) →
  length (filter (λ c, scheduled p s c t r = true) (course_indices (data p))) ≤ 1 ∧
  ∀ c1 c2, c1 < length (courses (data p)) → c2 < length (courses (data p)) →
    scheduled p s c1 t r = true → scheduled p s c2 t r = true → c1 = c2.
Proof.
  intros (m & Hb & Hs) Ht Hr.
  assert (Hcount :
    length (filter (λ c, scheduled p s c t r = true) (course_indices (data p))) ≤ 1).
  { destruct p as [d u|d u|d u q|d q]; simpl in *.
    - apply filter_le_1_intro; [apply NoDup_seq|].
      intros a b Ha Hb' Hsa Hsb. apply elem_of_indices in Ha, Hb'.
      apply andb_true_iff in Hsa as [Ha1 Ha2]. apply andb_true_iff in Hsb as [Hb1 Hb2].
      apply Z.eqb_eq in Ha1, Ha2, Hb1, Hb2.
      destruct (decide (a = b)) as [|Hne]; [done|].
      destruct (s1_room_or_time d u m s Hb Hs a b Hne Ha Hb'); congruence.
    - apply build2_inv in Hb as [Hg _]. by eapply grid_room_count.
    - apply build3_inv in Hb as [Hg _]. by eapply grid_room_count.
    - apply build4_inv in Hb as [Hg _]. by eapply grid_room_count. }
  split; [done|]. intros c1 c2 H1 H2 Hs1 Hs2.
  eapply (filter_le_1_unique (λ c, scheduled p s c t r = true)); eauto;
    by apply elem_of_indices.
Qed.

Lemma sih_v1_solved : Solved sih_v1 sample1.
Proof. apply Solved_intro. vm_compute. reflexivity. Qed.
Lemma sih_v2_solved : Solved sih_v2 sample2.
Proof. apply Solved_intro. vm_compute. reflexivity. Qed.
Lemma sih_v3_solved : Solved sih_v3 sample34.
Proof. apply Solved_intro. vm_compute. reflexivity. Qed.
Lemma sih_v4_solved : Solved sih_v4 sample34.
Proof. apply Solved_intro. vm_compute. reflexivity. Qed.

Lemma room_exclusivity_witness :
  Solved sih_v4 sample34 ∧ 4 < total_slots (data sih_v4) ∧
  0 < length (rooms (data sih_v4)) ∧
  length (filter (λ c, scheduled sih_v4 sample34 c 4 0 = true)
            (course_indices (data sih_v4))) ≤ 1.
Proof.
  assert (H1 : 4 < total_slots (data sih_v4)) by (vm_compute; lia).
  assert (H2 : 0 < length (rooms (data sih_v4))) by (vm_compute; lia).
  split; [exact sih_v4_solved|]. split; [exact H1|]. split; [exact H2|].
  exact (proj1 (room_exclusivity sih_v4 sample34 4 0 sih_v4_solved H1 H2)).
Defined.

(** ** Faculty exclusivity *)

Lemma NoDup_taught_by (d : Data) (f : string) : NoDup (taught_by d f).
Proof. apply NoDup_filter, NoDup_seq. Qed.

(** C6. In every solution a script can receive, among all the courses
    taught by faculty [f] and all rooms, at most one cell is true at slot
    [t]: a faculty member is never in two places at once. *)
Theorem faculty_exclusivity (p : script) (s : Solution) (t : nat) (f : string) :
  Solved p s → t < total_slots (data p) →
  length (filter (λ cr, scheduled p s cr.1 t cr.2 = true)
            (c ← taught_by (data p) f; r ← room_indices (data p); [(c, r)])) ≤ 1 ∧
  ∀ c1 r1 c2 r2,
    teaches (data p) f c1 → teaches (data p) f c2 →
    r1 < length (rooms (data p)) → r2 < length (rooms (data p)) →
    scheduled p s c1 t r1 = true → scheduled p s c2 t r2 = true →
    c1 = c2 ∧ r1 = r2.
Proof.
  intros (m & Hb & Hs) Ht.
  assert (Hpair : ∀ c1 r1 c2 r2,
    teaches (data p) f c1 → teaches (data p) f c2 →
    r1 < length (rooms (data p)) → r2 < length (rooms (data p)) →
    scheduled p s c1 t r1 = true → scheduled p s c2 t r2 = true →
    c1 = c2 ∧ r1 = r2).
  { intros c1 r1 c2 r2 H1 H2 Hr1 Hr2 Hs1 Hs2.
    destruct p as [d u|d u|d u q|d q]; simpl in *.
    - apply andb_true_iff in Hs1 as [Ht1 Hq1]. apply andb_true_iff in Hs2 as [Ht2 Hq2].
      apply Z.eqb_eq in Ht1, Hq1, Ht2, Hq2.
      destruct (decide (c1 = c2)) as [->|Hne]; [split; [done|lia]|].
      exfalso. apply (s1_faculty d u m s Hb Hs c1 c2 f Hne H1 H2). congruence.
    - apply build2_inv in Hb as [Hg _]. by eapply grid_faculty_unique.
    - apply build3_inv in Hb as [Hg _]. by eapply grid_faculty_unique.
    - apply build4_inv in Hb as [Hg _]. by eapply grid_faculty_unique. }
  split; [|exact Hpair].
  apply filter_le_1_intro.
  - apply NoDup_pairs; [apply NoDup_taught_by|apply NoDup_seq].
  - intros [c1 r1] [c2 r2] Hin1 Hin2 Hs1 Hs2. simpl in Hs1, Hs2.
    apply elem_of_pairs in Hin1 as [Hc1 Hr1]. apply elem_of_pairs in Hin2 as [Hc2 Hr2].
    apply elem_of_taught_by in Hc1, Hc2. apply elem_of_indices in Hr1, Hr2.
    destruct (Hpair c1 r1 c2 r2) as [-> ->]; auto.
Qed.

Lemma faculty_exclusivity_witness :
  Solved sih_v3 sample34 ∧ 4 < total_slots (data sih_v3) ∧
  length (filter (λ cr, scheduled sih_v3 sample34 cr.1 4 cr.2 = true)
            (c ← taught_by (data sih_v3) "Dr.A"; r ← room_indices (data sih_v3);
             [(c, r)])) ≤ 1.
Proof.
  assert (H1 : 4 < total_slots (data sih_v3)) by (vm_compute; lia).
  split; [exact sih_v3_solved|]. split; [exact H1|].
  exact (proj1 (faculty_exclusivity sih_v3 sample34 4 "Dr.A" sih_v3_solved H1)).
Defined.

(** ** Conflict pairs *)

(** C4. For every declared pair of courses with shared students and every
    slot, the cells of the two courses over all rooms hold at most one true
    value in total: the two courses never run in the same slot. *)
Theorem conflict_pair_exclusivity (p : script) (s : Solution)
    (course1 course2 : string) (i j t : nat) :
  Solved p s → (course1, course2) ∈ shared_students (data p) →
  index (courses (data p)) course1 = Ok i →
  index (courses (data p)) course2 = Ok j →
  t < total_slots (data p) →
  rooms_used p s i t + rooms_used p s j t ≤ 1.
Proof.
  intros (m & Hb & Hs) Hin Hi Hj Ht. unfold rooms_used.
  destruct p as [d u|d u|d u q|d q]; simpl in *.
  - destruct (s1_shared d u m s Hb Hs _ _ Hin) as (i' & j' & Hi' & Hj' & Hne).
    rewrite Hi in Hi'. rewrite Hj in Hj'. injection Hi' as <-. injection Hj' as <-.
    pose proof (s1_scheduled_unique_room s i t (length (rooms d))) as H1.
    pose proof (s1_scheduled_unique_room s j t (length (rooms d))) as H2.
    unfold room_indices.
    destruct (Z.eqb_spec (Value s (course_time i)) (Z.of_nat t));
      destruct (Z.eqb_spec (Value s (course_time j)) (Z.of_nat t)); lia.
  - apply build2_inv in Hb as [Hg _]. by eapply grid_shared.
  - apply build3_inv in Hb as [Hg _]. by eapply grid_shared.
  - apply build4_inv in Hb as [Hg _]. by eapply grid_shared.
Qed.

Lemma conflict_pair_exclusivity_witness :
  Solved sih_v4 sample34 ∧ ("AI", "ML") ∈ shared_students (data sih_v4) ∧
  index (courses (data sih_v4)) "AI" = Ok 0 ∧
  index (courses (data sih_v4)) "ML" = Ok 1 ∧
  7 < total_slots (data sih_v4) ∧
  rooms_used sih_v4 sample34 0 7 + rooms_used sih_v4 sample34 1 7 ≤ 1.
Proof.
  assert (H1 : ("AI", "ML") ∈ shared_students (data sih_v4)) by (simpl; left).
  assert (H2 : index (courses (data sih_v4)) "AI" = Ok 0) by reflexivity.
  assert (H3 : index (courses (data sih_v4)) "ML" = Ok 1) by reflexivity.
  assert (H4 : 7 < total_slots (data sih_v4)) by (vm_compute; lia).
  repeat (split; [assumption || exact sih_v4_solved|]).
  exact (conflict_pair_exclusivity sih_v4 sample34 "AI" "ML" 0 1 7
           sih_v4_solved H1 H2 H3 H4).
Defined.

(** ** Minimum lectures *)

Lemma grid_min_lectures (d : Data) (q : gmap string Z) (cs : list Constraint)
    (m : CpModel) (s : Solution) (c : nat) (cname : string) (k : Z) :
  min_lectures_per_course d q = Ok cs → cs ⊆ constraints m →
  satisfies s m = true → courses d !! c = Some cname → q !! cname = Some k →
  (k ≤ Z.of_nat (length (filter (λ tr : nat * nat, BooleanValue s (X c tr.1 tr.2) = true)
                           (t ← time_slots d; r ← room_indices d; [(t, r)]))))%Z.
Proof.
  intros Hcs Hsub Hs Hc Hq.
  destruct (min_lectures_constraint_in d q cs c cname Hcs Hc) as (k' & Hk' & Hin).
  rewrite Hq in Hk'. injection Hk' as <-.
  apply Hsub, (satisfies_holds s) in Hin; [|done]. simpl in Hin.
  rewrite (bind_pair_fmap (λ t r, X c t r)), count_true_fmap in Hin.
  by apply Z.leb_le in Hin.
Qed.

(** C5. For every course with a declared minimum [k], every solution a
    script can receive schedules at least [k] lectures of that course over
    all slots and rooms. *)
Theorem minimum_lecture_quota (p : script) (s : Solution) (c : nat)
    (cname : string) (k : Z) :
  Solved p s → courses (data p) !! c = Some cname →
  declared_min_lectures p !! cname = Some k →
  (k ≤ Z.of_nat (lectures_scheduled p s c))%Z.
Proof.
  intros (m & Hb & Hs) Hc Hq. unfold lectures_scheduled.
  destruct p as [d u|d u|d u q|d q]; simpl in *.
  - by rewrite lookup_empty in Hq.
  - by rewrite lookup_empty in Hq.
  - apply build3_inv in Hb as (_ & _ & cs & Hcs & Hsub). by eapply grid_min_lectures.
  - apply build4_inv in Hb as (_ & cs & Hcs & Hsub). by eapply grid_min_lectures.
Qed.

Lemma minimum_lecture_quota_witness :
  Solved sih_v4 sample34 ∧ courses (data sih_v4) !! 0 = Some "AI" ∧
  declared_min_lectures sih_v4 !! "AI" = Some 3%Z ∧
  (3 ≤ Z.of_nat (lectures_scheduled sih_v4 sample34 0))%Z.
Proof.
  assert (H1 : courses (data sih_v4) !! 0 = Some "AI") by reflexivity.
  assert (H2 : declared_min_lectures sih_v4 !! "AI" = Some 3%Z) by (vm_compute; reflexivity).
  repeat (split; [assumption || exact sih_v4_solved|]).
  exact (minimum_lecture_quota sih_v4 sample34 0 "AI" 3 sih_v4_solved H1 H2).
Defined.

(** ** Faculty unavailability *)

Lemma grid_unavailable (d : Data) (u : gmap string (list Z)) (cs : list Constraint)
    (m : CpModel) (s : Solution) (c r t : nat) (f : string) (ts : list Z) :
  faculty_unavailable d u = Ok cs → cs ⊆ constraints m → satisfies s m = true →
  teaches d f c → u !! f = Some ts → Z.of_nat t ∈ ts → r < length (rooms d) →
  BooleanValue s (X c t r) = false.
Proof.
  intros Hcs Hsub Hs Hc Hu Ht Hr.
  destruct (unavailable_constraint_in d u cs c r f ts _ Hcs Hc Hu Ht Hr) as (v & Hv & Hin).
  apply x_getitem_Ok in Hv as (_ & _ & ->). rewrite Nat2Z.id in Hin.
  apply Hsub, (satisfies_holds s) in Hin; [|done]. simpl in Hin.
  by destruct (BooleanValue s (X c t r)).
Qed.

(** C1. In every solution a script can receive, a course taught by a
    faculty member with a declared set of unavailable slots is scheduled in
    no room at any slot of that set. *)
Theorem faculty_unavailability_respected (p : script) (s : Solution) (c t r : nat)
    (f : string) (ts : list Z) :
  Solved p s → teaches (data p) f c →
  declared_unavailability p !! f = Some ts → Z.of_nat t ∈ ts →
  r < length (rooms (data p)) →
  scheduled p s c t r = false.
Proof.
  intros (m & Hb & Hs) Hc Hu Ht Hr.
  destruct p as [d u|d u|d u q|d q]; simpl in *.
  - pose proof (s1_unavailable d u m s Hb Hs c f ts _ Hc Hu Ht) as Hne.
    apply andb_false_iff. left. by apply Z.eqb_neq.
  - apply build2_inv in Hb as (_ & _ & cs & Hcs & Hsub). by eapply grid_unavailable.
  - apply build3_inv in Hb as (_ & (cs & Hcs & Hsub) & _). by eapply grid_unavailable.
  - by rewrite lookup_empty in Hu.
Qed.

Lemma faculty_unavailability_respected_witness :
  Solved sih_v3 sample34 ∧ teaches (data sih_v3) "Dr.A" 0 ∧
  declared_unavailability sih_v3 !! "Dr.A" = Some [0; 1; 2; 3]%Z ∧
  Z.of_nat 2 ∈ [0; 1; 2; 3]%Z ∧ 1 < length (rooms (data sih_v3)) ∧
  scheduled sih_v3 sample34 0 2 1 = false.
Proof.
  assert (H1 : teaches (data sih_v3) "Dr.A" 0).
  { exists "AI". split; [reflexivity|vm_compute; reflexivity]. }
  assert (H2 : declared_unavailability sih_v3 !! "Dr.A" = Some [0; 1; 2; 3]%Z)
    by (vm_compute; reflexivity).
  assert (H3 : Z.of_nat 2 ∈ [0; 1; 2; 3]%Z) by (simpl; do 2 right; left).
  assert (H4 : 1 < length (rooms (data sih_v3))) by (vm_compute; lia).
  repeat (split; [assumption || exact sih_v3_solved|]).
  exact (faculty_unavailability_respected sih_v3 sample34 0 2 1 "Dr.A" _
           sih_v3_solved H1 H2 H3 H4).
Defined.

(** ** When model construction succeeds *)

Lemma lookup_course_elem (d : Data) (c : nat) :
  c < length (courses d) → ∃ cname, courses d !! c = Some cname ∧ cname ∈ courses d.
Proof.
  intros Hc. destruct (lookup_lt_is_Some_2 (courses d) c Hc) as (cname & H).
  exists cname. split; [done|]. apply list_elem_of_lookup. eauto.
Qed.

Lemma faculty_of_is_Ok (d : Data) (c : nat) :
  (∀ cname, cname ∈ courses d → is_Some (faculty d !! cname)) →
  c < length (courses d) → ∃ f, faculty_of d c = Ok f.
Proof.
  intros Hf Hc. destruct (lookup_course_elem d c Hc) as (cname & Hl & Hin).
  destruct (Hf cname Hin) as (f & Hfc). exists f. apply faculty_of_Ok.
  exists cname. done.
Qed.

Lemma faculty_one_place_is_Ok (d : Data) :
  (∀ cname, cname ∈ courses d → is_Some (faculty d !! cname)) →
  ∃ cs, faculty_one_place d = Ok cs.
Proof.
  intros Hf. apply for_each_is_Ok. intros t _. apply for_each_is_Ok. intros f _.
  destruct (filterM_is_Ok
              (λ c, f' ← faculty_of d c; Ok (bool_decide (f' = f))) (course_indices d))
    as (rel & Hrel).
  { intros c Hc. apply elem_of_indices in Hc.
    destruct (faculty_of_is_Ok d c Hf Hc) as (f' & ->). simpl. eauto. }
  unfold relevant_courses. rewrite Hrel. simpl. eauto.
Qed.

Lemma shared_students_is_Ok (d : Data) :
  (∀ a b, (a, b) ∈ shared_students d → a ∈ courses d ∧ b ∈ courses d) →
  ∃ cs, shared_students_no_overlap d = Ok cs.
Proof.
  intros Hs. apply for_each_is_Ok. intros [a b] Hab.
  destruct (Hs a b Hab) as [Ha Hb].
  destruct (index_is_Ok _ _ Ha) as (i & ->). destruct (index_is_Ok _ _ Hb) as (j & ->).
  simpl. eauto.
Qed.

Lemma min_lectures_is_Ok (d : Data) (q : gmap string Z) :
  (∀ cname, cname ∈ courses d → is_Some (q !! cname)) →
  (∀ cname k, cname ∈ courses d → q !! cname = Some k → in_int64 k) →
  ∃ cs, min_lectures_per_course d q = Ok cs.
Proof.
  intros Hq Hint. apply for_each_is_Ok. intros c Hc. apply elem_of_indices in Hc.
  destruct (lookup_course_elem d c Hc) as (cname & Hl & Hin).
  destruct (Hq cname Hin) as (k & Hk).
  unfold list_getitem, getitem. rewrite Hl. simpl. rewrite Hk. simpl.
  destruct (t ← time_slots d; r ← room_indices d; [X c t r]); simpl; [eauto|].
  rewrite int64_const_in_range by eauto. simpl. eauto.
Qed.

Lemma build4_is_Ok (d : Data) (q : gmap string Z) :
  lookups_defined d q → ∃ m, build4 d q = Ok m.
Proof.
  intros [Hf Hq Hint Hs]. unfold build4.
  destruct (faculty_one_place_is_Ok d Hf) as (c3 & ->).
  destruct (shared_students_is_Ok d Hs) as (c4 & ->).
  destruct (min_lectures_is_Ok d q Hq Hint) as (c5 & ->).
  simpl. eauto.
Qed.

(** ** What the script prints for each solver status *)

Lemma script4_not_feasible (Solve : CpModel → CpSolverResponse) (d : Data)
    (q : gmap string Z) (m : CpModel) :
  build4 d q = Ok m → feasible (status (Solve m)) = false →
  script4 Solve d q = Ok NoFeasibleTimetableFound.
Proof. intros Hb Hf. unfold script4. rewrite Hb. simpl. by rewrite Hf. Qed.

Lemma script4_feasible (Solve : CpModel → CpSolverResponse) (d : Data)
    (q : gmap string Z) (m : CpModel) :
  build4 d q = Ok m → feasible (status (Solve m)) = true →
  script4 Solve d q ≠ Ok NoFeasibleTimetableFound.
Proof.
  intros Hb Hf. unfold script4. rewrite Hb. simpl. rewrite Hf.
  destruct (decode34 d (solution (Solve m))) as [table|e]; simpl; [|discriminate].
  destruct (summary4 d q (solution (Solve m))) as [summ|e]; simpl; discriminate.
Qed.

Lemma contract_infeasible (m : CpModel) (resp : CpSolverResponse) :
  (∀ s, satisfies s m = false) → cp_sat_contract m resp →
  feasible (status resp) = false.
Proof.
  intros Hno Hc. unfold cp_sat_contract in Hc.
  destruct (status resp); simpl; try done; by rewrite Hno in Hc.
Qed.

(** C2 (as stated, refuted).  On the pigeonhole data the fourth script
    prints the same message whether the solver ran out of time or proved
    infeasibility: the two outcomes are not told apart. *)
Lemma timeout_reported_as_infeasible :
  status (timed_out {| int_vars := []; bool_vars := []; constraints := [] |}) = UNKNOWN ∧
  status (exhausted {| int_vars := []; bool_vars := []; constraints := [] |}) = INFEASIBLE ∧
  script4 timed_out pigeon_data pigeon_min = Ok NoFeasibleTimetableFound ∧
  script4 exhausted pigeon_data pigeon_min = Ok NoFeasibleTimetableFound.
Proof. repeat split; vm_compute; reflexivity. Qed.

(** ** Too few room-slots *)

Lemma grid_lecture_exists (d : Data) (q : gmap string Z) (cs : list Constraint)
    (m : CpModel) (s : Solution) (c : nat) (cname : string) (k : Z) :
  min_lectures_per_course d q = Ok cs → cs ⊆ constraints m →
  satisfies s m = true → courses d !! c = Some cname → q !! cname = Some k →
  (1 ≤ k)%Z →
  ∃ t r, t < total_slots d ∧ r < length (rooms d) ∧ BooleanValue s (X c t r) = true.
Proof.
  intros Hcs Hsub Hs Hc Hq Hk.
  pose proof (grid_min_lectures d q cs m s c cname k Hcs Hsub Hs Hc Hq) as Hle.
  destruct (filter_pos_exists
              (λ tr : nat * nat, BooleanValue s (X c tr.1 tr.2) = true)
              (t ← time_slots d; r ← room_indices d; [(t, r)])) as ([t r] & Hin & Htrue).
  { lia. }
  apply elem_of_pairs in Hin as [Ht Hr]. apply elem_of_indices in Ht, Hr.
  exists t, r. done.
Qed.

Lemma grid_room_unique (d : Data) (m : CpModel) (s : Solution) (t r c1 c2 : nat) :
  grid_model d m → satisfies s m = true →
  t < total_slots d → r < length (rooms d) →
  c1 < length (courses d) → c2 < length (courses d) →
  BooleanValue s (X c1 t r) = true → BooleanValue s (X c2 t r) = true → c1 = c2.
Proof.
  intros Hg Hs Ht Hr H1 H2 Hx1 Hx2.
  eapply (filter_le_1_unique (λ c, BooleanValue s (X c t r) = true)).
  - by eapply grid_room_count.
  - by apply elem_of_indices.
  - by apply elem_of_indices.
  - done.
  - done.
Qed.

Lemma pigeonhole_no_solution (d : Data) (q : gmap string Z) (m : CpModel) (s : Solution) :
  length (rooms d) = 1 → total_slots d = 2 → length (courses d) = 3 →
  (∀ cname, cname ∈ courses d → q !! cname = Some 1%Z) →
  build4 d q = Ok m → satisfies s m = false.
Proof.
  intros Hr Ht Hc Hq Hb. destruct (satisfies s m) eqn:Hs; [exfalso|done].
  apply build4_inv in Hb as (Hg & cs & Hcs & Hsub).
  assert (Hlec : ∀ c, c < 3 → ∃ t, t < 2 ∧ BooleanValue s (X c t 0) = true).
  { intros c Hlt. destruct (lookup_course_elem d c) as (cname & Hl & Hin); [lia|].
    destruct (grid_lecture_exists d q cs m s c cname 1 Hcs Hsub Hs Hl (Hq _ Hin))
      as (t & r & Ht' & Hr' & Hx); [lia|].
    exists t. split; [lia|]. by replace r with 0 in Hx by lia. }
  destruct (Hlec 0) as (t0 & Ht0 & Hx0); [lia|].
  destruct (Hlec 1) as (t1 & Ht1 & Hx1); [lia|].
  destruct (Hlec 2) as (t2 & Ht2 & Hx2); [lia|].
  assert (Huniq : ∀ t c1 c2, t < 2 → c1 < 3 → c2 < 3 →
            BooleanValue s (X c1 t 0) = true → BooleanValue s (X c2 t 0) = true → c1 = c2).
  { intros t c1 c2 Hlt H1 H2. apply (grid_room_unique d m s t 0 c1 c2 Hg Hs); lia. }
  assert (t0 ≠ t1).
  { intros E. rewrite E in Hx0.
    pose proof (Huniq t1 0 1 Ht1 ltac:(lia) ltac:(lia) Hx0 Hx1). lia. }
  assert (t0 ≠ t2).
  { intros E. rewrite E in Hx0.
    pose proof (Huniq t2 0 2 Ht2 ltac:(lia) ltac:(lia) Hx0 Hx2). lia. }
  assert (t1 ≠ t2).
  { intros E. rewrite E in Hx1.
    pose proof (Huniq t2 1 2 Ht2 ltac:(lia) ltac:(lia) Hx1 Hx2). lia. }
  lia.
Qed.

(** C7. With one room, two slots and three courses that each need one
    lecture, the fourth script builds a model that no assignment satisfies,
    and with any solver that honours its contract it prints that no feasible
    timetable was found. *)
Theorem pigeonhole_infeasible (Solve : CpModel → CpSolverResponse) (d : Data)
    (q : gmap string Z) :
  length (rooms d) = 1 → total_slots d = 2 → length (courses d) = 3 →
  (∀ cname, cname ∈ courses d → q !! cname = Some 1%Z) →
  (∀ cname, cname ∈ courses d → is_Some (faculty d !! cname)) →
  (∀ a b, (a, b) ∈ shared_students d → a ∈ courses d ∧ b ∈ courses d) →
  ∃ m, build4 d q = Ok m ∧
       (∀ s, satisfies s m = false) ∧
       (cp_sat_contract m (Solve m) →
        script4 Solve d q = Ok NoFeasibleTimetableFound).
Proof.
  intros Hr Ht Hc Hq Hf Hsh.
  destruct (build4_is_Ok d q) as (m & Hb).
  { constructor; [done| | |done].
    - intros cname Hin. rewrite (Hq _ Hin). eauto.
    - intros cname k Hin Hk. rewrite (Hq _ Hin) in Hk. injection Hk as <-.
      split; vm_compute; discriminate. }
  exists m. split; [done|].
  assert (Hno : ∀ s, satisfies s m = false).
  { intros s. by eapply pigeonhole_no_solution. }
  split; [done|]. intros Hcontract.
  apply (script4_not_feasible Solve d q m Hb).
  by eapply contract_infeasible.
Qed.

Lemma pigeonhole_infeasible_witness :
  ∃ m, build4 pigeon_data pigeon_min = Ok m ∧
       (∀ s, satisfies s m = false) ∧
       (cp_sat_contract m (exhausted m) →
        script4 exhausted pigeon_data pigeon_min = Ok NoFeasibleTimetableFound).
Proof.
  apply (pigeonhole_infeasible exhausted pigeon_data pigeon_min).
  - reflexivity.
  - reflexivity.
  - reflexivity.
  - intros cname Hin. simpl in Hin.
    repeat (apply elem_of_cons in Hin as [->|Hin]; [vm_compute; reflexivity|]).
    inversion Hin.
  - intros cname Hin. simpl in Hin.
    repeat (apply elem_of_cons in Hin as [->|Hin]; [vm_compute; eauto|]).
    inversion Hin.
  - intros a b Hin. inversion Hin.
Defined.

(** ** Model construction does not validate its input *)

Lemma filter_row_length {A B} (P : A * B → Prop) `{∀ ab, Decision (P ab)}
    (a : A) (l2 : list B) :
  length (filter P (b ← l2; [(a, b)])) = length (filter (λ b, P (a, b)) l2).
Proof.
  induction l2 as [|b l2 IH]; [done|].
  change (b ← (b :: l2); [(a, b)]) with ((a, b) :: (b ← l2; [(a, b)])).
  rewrite !filter_cons. destruct (decide (P (a, b))); simpl; lia.
Qed.

Lemma filter_pairs_length {A B} (P : A * B → Prop) `{∀ ab, Decision (P ab)}
    (l1 : list A) (l2 : list B) :
  (∀ a, a ∈ l1 → length (filter (λ b, P (a, b)) l2) ≤ 1) →
  length (filter P (a ← l1; b ← l2; [(a, b)])) ≤ length l1.
Proof.
  induction l1 as [|a l1 IH]; intros Hrow; [done|].
  change (a ← (a :: l1); b ← l2; [(a, b)])
    with ((b ← l2; [(a, b)]) ++ (a ← l1; b ← l2; [(a, b)])).
  rewrite filter_app, length_app, filter_row_length. simpl.
  pose proof (Hrow a ltac:(left)).
  assert (length (filter P (a ← l1; b ← l2; [(a, b)])) ≤ length l1).
  { apply IH. intros a' Ha'. apply Hrow. by right. }
  lia.
Qed.

Lemma grid_lectures_le_slots (d : Data) (m : CpModel) (s : Solution) (c : nat) :
  grid_model d m → satisfies s m = true → c < length (courses d) →
  length (filter (λ tr : nat * nat, BooleanValue s (X c tr.1 tr.2) = true)
            (t ← time_slots d; r ← room_indices d; [(t, r)])) ≤ total_slots d.
Proof.
  intros Hg Hs Hc.
  etransitivity; [apply filter_pairs_length|].
  - intros t Ht. apply elem_of_indices in Ht. simpl.
    by apply (grid_course_count d m s Hg Hs c t).
  - unfold time_slots. by rewrite length_seq.
Qed.

Lemma filterM_Raise {A} (p : A → result bool) (l : list A) (a : A) (e : PyErr) :
  a ∈ l → p a = Raise e → (∀ a' e', a' ∈ l → p a' = Raise e' → e' = e) →
  filterM p l = Raise e.
Proof.
  induction l as [|a0 l IH]; intros Ha Hp Hall; [inversion Ha|]. simpl.
  destruct (p a0) as [b|e0] eqn:E; simpl.
  - rewrite IH; [done| |done|].
    + apply elem_of_cons in Ha as [->|Ha]; [congruence|done].
    + intros a' e' Ha'. apply Hall. by right.
  - f_equal. apply (Hall a0); [left|done].
Qed.

Lemma faculty_of_Raise (d : Data) (c : nat) (e : PyErr) :
  c < length (courses d) → faculty_of d c = Raise e → e = KeyError.
Proof.
  intros Hc. destruct (lookup_lt_is_Some_2 (courses d) c Hc) as (cname & Hl).
  unfold faculty_of, list_getitem, getitem. rewrite Hl. simpl.
  destruct (faculty d !! cname); [discriminate|]. by intros [= <-].
Qed.

Lemma faculty_one_place_KeyError (d : Data) (c : nat) (cname : string) :
  0 < total_slots d → faculty d ≠ ∅ →
  courses d !! c = Some cname → faculty d !! cname = None →
  faculty_one_place d = Raise KeyError.
Proof.
  intros Ht Hne Hc Hf. unfold faculty_one_place, time_slots.
  destruct (total_slots d) as [|n]; [lia|]. simpl seq.
  apply for_each_Raise_head.
  destruct (faculty_values d) as [|f fs] eqn:Hvals.
  { exfalso. apply Hne. unfold faculty_values in Hvals.
    apply elements_empty_inv in Hvals. by apply map_img_empty_inv in Hvals. }
  apply for_each_Raise_head.
  unfold relevant_courses.
  rewrite (filterM_Raise _ _ c KeyError); [done| | |].
  - apply elem_of_indices. by apply lookup_lt_Some in Hc.
  - unfold faculty_of, list_getitem, getitem. rewrite Hc. simpl. by rewrite Hf.
  - intros c' e' Hc' He'. apply elem_of_indices in Hc'.
    destruct (faculty_of d c') as [f'|e''] eqn:E; simpl in He'; [discriminate|].
    injection He' as <-. by eapply faculty_of_Raise.
Qed.

(** C9 (as stated, refuted).  A course asks for five lectures where a single
    slot exists, and the fourth script still builds its model: nothing is
    rejected before the solve. *)
Lemma overbooked_quota_accepted :
  courses overbooked_data !! 0 = Some "AI" ∧
  overbooked_min !! "AI" = Some 5%Z ∧
  (Z.of_nat (total_slots overbooked_data) < 5)%Z ∧
  (∃ m, build4 overbooked_data overbooked_min = Ok m) ∧
  script4 exhausted overbooked_data overbooked_min = Ok NoFeasibleTimetableFound.
Proof.
  split; [reflexivity|]. split; [vm_compute; reflexivity|]. split; [vm_compute; reflexivity|].
  split; [eexists; vm_compute; reflexivity|vm_compute; reflexivity].
Qed.

(** C9 (amended).  Model construction in the fourth script performs no
    validation of its own.  When every lookup it makes is defined and the
    quotas are 64-bit integers it returns a model, also when a quota is larger
    than the number of slots: such a model is merely satisfied by no
    assignment.  A course without a faculty entry stops construction with a
    [KeyError], before any solve, as soon as there is a slot and a faculty
    entry to iterate over. *)
Theorem construction_without_validation (d : Data) (q : gmap string Z) :
  (lookups_defined d q →
   ∃ m, build4 d q = Ok m ∧
     ∀ c cname k, courses d !! c = Some cname → q !! cname = Some k →
       (Z.of_nat (total_slots d) < k)%Z → ∀ s, satisfies s m = false) ∧
  (∀ c cname, 0 < total_slots d → faculty d ≠ ∅ →
     courses d !! c = Some cname → faculty d !! cname = None →
     build4 d q = Raise KeyError).
Proof.
  split.
  - intros Hld. destruct (build4_is_Ok d q Hld) as (m & Hb).
    exists m. split; [done|]. intros c cname k Hc Hq Hk s.
    destruct (satisfies s m) eqn:Hs; [exfalso|done].
    apply build4_inv in Hb as (Hg & cs & Hcs & Hsub).
    pose proof (grid_min_lectures d q cs m s c cname k Hcs Hsub Hs Hc Hq) as Hge.
    pose proof (grid_lectures_le_slots d m s c Hg Hs) as Hle.
    apply lookup_lt_Some in Hc. specialize (Hle Hc). lia.
  - intros c cname Ht Hne Hc Hf. unfold build4.
    by rewrite (faculty_one_place_KeyError d c cname).
Qed.

Lemma overbooked_lookups_defined : lookups_defined overbooked_data overbooked_min.
Proof.
  constructor.
  - intros cname Hin. apply list_elem_of_singleton in Hin as ->. vm_compute. eauto.
  - intros cname Hin. apply list_elem_of_singleton in Hin as ->. vm_compute. eauto.
  - intros cname k Hin Hk. apply list_elem_of_singleton in Hin as ->.
    vm_compute in Hk. injection Hk as <-. split; vm_compute; discriminate.
  - intros a b Hin. inversion Hin.
Qed.

Lemma construction_without_validation_witness :
  (∃ m, build4 overbooked_data overbooked_min = Ok m ∧ ∀ s, satisfies s m = false) ∧
  build4 dangling_data dangling_min = Raise KeyError.
Proof.
  split.
  - destruct (proj1 (construction_without_validation overbooked_data overbooked_min)
                overbooked_lookups_defined) as (m & Hb & Hno).
    exists m. split; [exact Hb|].
    apply (Hno 0 "AI" 5%Z); [reflexivity|vm_compute; reflexivity|vm_compute; reflexivity].
  - apply (proj2 (construction_without_validation dangling_data dangling_min) 1 "ML").
    + vm_compute; lia.
    + intros H. apply (f_equal (λ m : gmap string string, m !! "AI")) in H.
      vm_compute in H. discriminate.
    + reflexivity.
    + vm_compute; reflexivity.
Defined.

(** ** Loops with state *)

Lemma foldM_app {A S} (body : S → A → result S) (s : S) (l1 l2 : list A) :
  foldM body s (l1 ++ l2) = (foldM body s l1 ≫= λ s', foldM body s' l2).
Proof.
  revert s; induction l1 as [|a l1 IH]; intros s; [done|]. simpl.
  destruct (body s a) as [s'|e]; simpl; [apply IH|done].
Qed.

Lemma foldM_row {A B S} (a : A) (l2 : list B) (body : A → S → B → result S) (s : S) :
  foldM (body a) s l2 = foldM (λ s ab, body ab.1 s ab.2) s (b ← l2; [(a, b)]).
Proof.
  revert s; induction l2 as [|b l2 IH]; intros s; [done|].
  change (b ← (b :: l2); [(a, b)]) with ((a, b) :: (b ← l2; [(a, b)])). simpl.
  destruct (body a s b) as [s'|e]; simpl; [apply IH|done].
Qed.

Lemma foldM_pairs {A B S} (l1 : list A) (l2 : list B) (body : A → S → B → result S)
    (s : S) :
  foldM (λ s a, foldM (body a) s l2) s l1
  = foldM (λ s ab, body ab.1 s ab.2) s (a ← l1; b ← l2; [(a, b)]).
Proof.
  revert s; induction l1 as [|a l1 IH]; intros s; [done|].
  change (a ← (a :: l1); b ← l2; [(a, b)])
    with ((b ← l2; [(a, b)]) ++ (a ← l1; b ← l2; [(a, b)])).
  rewrite foldM_app. simpl. rewrite <- foldM_row.
  destruct (foldM (body a) s l2) as [s'|e]; simpl; [apply IH|done].
Qed.

Lemma foldM_ext_in {A S} (body body' : S → A → result S) (s : S) (l : list A) :
  (∀ a s, a ∈ l → body s a = body' s a) → foldM body s l = foldM body' s l.
Proof.
  revert s; induction l as [|a l IH]; intros s Hext; [done|]. simpl.
  rewrite Hext by left. destruct (body' s a) as [s'|e]; simpl; [|done].
  apply IH. intros a' s'' Ha'. apply Hext. by right.
Qed.

Lemma elem_of_triples {A B C} (l1 : list A) (l2 : list B) (l3 : list C) a b c :
  (a, b, c) ∈ (ab ← (a ← l1; b ← l2; [(a, b)]); c ← l3; [(ab, c)])
  ↔ a ∈ l1 ∧ b ∈ l2 ∧ c ∈ l3.
Proof. rewrite (elem_of_pairs _ l3 (a, b) c), elem_of_pairs. tauto. Qed.

Lemma map_result_is_Ok {A B} (f : A → result B) (l : list A) :
  (∀ a, a ∈ l → ∃ b, f a = Ok b) → ∃ l', map_result f l = Ok l'.
Proof.
  induction l as [|a l IH]; intros Hf; simpl; [eauto|].
  destruct (Hf a) as (b & ->); [left|].
  destruct IH as (l' & ->); [intros a' Ha'; apply Hf; by right|]. simpl. eauto.
Qed.

Lemma map_result_lookup {A B} (f : A → result B) (l : list A) (l' : list B) i a :
  map_result f l = Ok l' → l !! i = Some a → ∃ b, f a = Ok b ∧ l' !! i = Some b.
Proof.
  revert l' i; induction l as [|a0 l IH]; intros l' i H Hi; [done|]. simpl in H.
  apply bind_Ok in H as (b0 & Hb0 & H). apply bind_Ok in H as (rest & Hrest & [= <-]).
  destruct i as [|i]; simpl in *.
  - injection Hi as ->. eauto.
  - eauto.
Qed.

Lemma map_result_ext_in {A B} (f g : A → result B) (l : list A) :
  (∀ a, a ∈ l → f a = g a) → map_result f l = map_result g l.
Proof.
  induction l as [|a l IH]; intros Hext; [done|]. simpl.
  rewrite Hext by left. rewrite IH; [done|]. intros a' Ha'. apply Hext. by right.
Qed.

(** ** Decoding in the third and fourth script *)

Lemma fill_timetable34_flat (d : Data) (s : Solution) :
  fill_timetable34 d s
  = foldM (step34 d s) (replicate (days d) (replicate (slots_per_day d) []))
      (ct ← (c ← course_indices d; t ← time_slots d; [(c, t)]);
       r ← room_indices d; [(ct, r)]).
Proof.
  unfold fill_timetable34.
  rewrite (foldM_pairs (course_indices d) (time_slots d)
             (λ c timetable t,
                foldM (λ timetable r,
                  if BooleanValue s (X c t r) then
                    let day := Nat.div t (slots_per_day d) in
                    let period := Nat.modulo t (slots_per_day d) in
                    e ← entry d c r; append_entry timetable day period e
                  else Ok timetable) timetable (room_indices d))).
  rewrite (foldM_pairs _ (room_indices d)
             (λ ct timetable r,
                if BooleanValue s (X ct.1 ct.2 r) then
                  let day := Nat.div ct.2 (slots_per_day d) in
                  let period := Nat.modulo ct.2 (slots_per_day d) in
                  e ← entry d ct.1 r; append_entry timetable day period e
                else Ok timetable)).
  apply foldM_ext_in. intros [[c t] r] tt _. reflexivity.
Qed.

Lemma grid_shape_initial (d : Data) :
  grid_shape d (replicate (days d) (replicate (slots_per_day d) [])).
Proof.
  split; [apply length_replicate|].
  intros day row H. apply lookup_replicate in H as [-> _]. apply length_replicate.
Qed.

Lemma cell_at_initial (d : Data) (day period : nat) :
  cell_at (replicate (days d) (replicate (slots_per_day d) [])) day period = [].
Proof.
  unfold cell_at.
  destruct (replicate (days d) (replicate (slots_per_day d) []) !! day) as [row|] eqn:E;
    [|done].
  apply lookup_replicate in E as [-> _].
  destruct (replicate (slots_per_day d) [] !! period) as [cell|] eqn:E'; [|done].
  by apply lookup_replicate in E' as [-> _].
Qed.

Lemma append_entry_Ok (d : Data) (tt tt' : list (list (list string)))
    (day period : nat) (e : string) :
  grid_shape d tt → append_entry tt day period e = Ok tt' →
  grid_shape d tt' ∧
  ∀ day' period',
    cell_at tt' day' period'
    = if decide (day' = day ∧ period' = period)
      then cell_at tt day period ++ [e] else cell_at tt day' period'.
Proof.
  intros [Hlen Hrows] H. unfold append_entry, list_getitem in H.
  destruct (tt !! day) as [row|] eqn:Hrow; [|discriminate]. simpl in H.
  destruct (row !! period) as [cell|] eqn:Hcell; [|discriminate]. simpl in H.
  injection H as <-.
  pose proof (lookup_lt_Some _ _ _ Hrow) as Hday.
  pose proof (lookup_lt_Some _ _ _ Hcell) as Hper.
  split.
  - split; [by rewrite length_insert|]. intros day' row' H'.
    destruct (decide (day' = day)) as [->|Hne].
    + rewrite list_lookup_insert_eq in H' by done. injection H' as <-.
      rewrite length_insert. eauto.
    + rewrite list_lookup_insert_ne in H' by done. eauto.
  - intros day' period'. unfold cell_at.
    destruct (decide (day' = day)) as [->|Hne].
    + rewrite list_lookup_insert_eq by done. rewrite Hrow.
      destruct (decide (period' = period)) as [->|Hne'].
      * rewrite list_lookup_insert_eq by done. rewrite Hcell.
        by rewrite decide_True.
      * rewrite list_lookup_insert_ne by done. rewrite decide_False by tauto. done.
    + rewrite list_lookup_insert_ne by done. rewrite decide_False by tauto. done.
Qed.

Lemma append_entry_is_Ok (d : Data) (tt : list (list (list string)))
    (day period : nat) (e : string) :
  grid_shape d tt → day < days d → period < slots_per_day d →
  ∃ tt', append_entry tt day period e = Ok tt'.
Proof.
  intros [Hlen Hrows] Hday Hper. unfold append_entry, list_getitem.
  destruct (lookup_lt_is_Some_2 tt day) as (row & Hrow); [lia|]. rewrite Hrow. simpl.
  destruct (lookup_lt_is_Some_2 row period) as (cell & Hcell).
  { rewrite (Hrows _ _ Hrow). done. }
  rewrite Hcell. simpl. eauto.
Qed.

Lemma slot_day_period (d : Data) (t : nat) :
  t < total_slots d →
  Nat.div t (slots_per_day d) < days d ∧
  Nat.modulo t (slots_per_day d) < slots_per_day d.
Proof.
  unfold total_slots. intros Ht.
  assert (slots_per_day d ≠ 0) by (intros E; rewrite E in Ht; lia).
  split.
  - apply Nat.Div0.div_lt_upper_bound. lia.
  - by apply Nat.mod_upper_bound.
Qed.

Lemma step34_fold_inv (d : Data) (s : Solution) (l : list (nat * nat * nat))
    (tt0 tt : list (list (list string))) :
  grid_shape d tt0 → foldM (step34 d s) tt0 l = Ok tt →
  grid_shape d tt ∧
  ∀ day period e,
    e ∈ cell_at tt day period ↔
    e ∈ cell_at tt0 day period ∨
    ∃ c t r, (c, t, r) ∈ l ∧ BooleanValue s (X c t r) = true ∧
             Nat.div t (slots_per_day d) = day ∧
             Nat.modulo t (slots_per_day d) = period ∧ entry d c r = Ok e.
Proof.
  revert tt0; induction l as [|[[c t] r] l IH]; intros tt0 Hshape H.
  - injection H as <-. split; [done|]. intros day period e. split; [auto|].
    intros [?|(c & t & r & Hin & _)]; [done|inversion Hin].
  - simpl in H. apply bind_Ok in H as (tt1 & Hstep & Hrest).
    destruct (BooleanValue s (X c t r)) eqn:Hx.
    + apply bind_Ok in Hstep as (e0 & He0 & Happ).
      destruct (append_entry_Ok d _ _ _ _ _ Hshape Happ) as [Hshape1 Hcell].
      destruct (IH tt1 Hshape1 Hrest) as [Hshape' Hiff]. split; [done|].
      intros day period e. rewrite Hiff, Hcell. split.
      * intros [Hin|(c' & t' & r' & Hin & Hrest')].
        -- destruct (decide _) as [[-> ->]|_]; [|by left].
           apply elem_of_app in Hin as [Hin|Hin]; [by left|].
           apply list_elem_of_singleton in Hin as ->.
           right. exists c, t, r. split; [left|done].
        -- right. exists c', t', r'. split; [by right|done].
      * intros [Hin|(c' & t' & r' & Hin & Hx' & Hd & Hp & He)].
        -- left. destruct (decide _) as [[-> ->]|_]; [|done].
           apply elem_of_app. by left.
        -- apply elem_of_cons in Hin as [[= -> -> ->]|Hin].
           ++ left. rewrite decide_True by done.
              apply elem_of_app. right. apply list_elem_of_singleton. congruence.
           ++ right. exists c', t', r'. done.
    + injection Hstep as <-.
      destruct (IH tt0 Hshape Hrest) as [Hshape' Hiff]. split; [done|].
      intros day period e. rewrite Hiff. split.
      * intros [Hin|(c' & t' & r' & Hin & Hrest')]; [by left|].
        right. exists c', t', r'. split; [by right|done].
      * intros [Hin|(c' & t' & r' & Hin & Hx' & Hrest')]; [by left|].
        apply elem_of_cons in Hin as [[= -> -> ->]|Hin]; [congruence|].
        right. exists c', t', r'. done.
Qed.

Lemma step34_fold_is_Ok (d : Data) (s : Solution) (l : list (nat * nat * nat))
    (tt0 : list (list (list string))) :
  grid_shape d tt0 →
  (∀ c t r, (c, t, r) ∈ l → t < total_slots d ∧ ∃ e, entry d c r = Ok e) →
  ∃ tt, foldM (step34 d s) tt0 l = Ok tt.
Proof.
  revert tt0; induction l as [|[[c t] r] l IH]; intros tt0 Hshape Hl; simpl; [eauto|].
  assert (Hl' : ∀ c t r, (c, t, r) ∈ l → t < total_slots d ∧ ∃ e, entry d c r = Ok e).
  { intros c' t' r' Hin. apply Hl. by right. }
  destruct (BooleanValue s (X c t r)); simpl; [|by apply IH].
  destruct (Hl c t r) as [Ht (e & He)]; [left|]. rewrite He. simpl.
  destruct (slot_day_period d t Ht) as [Hday Hper].
  destruct (append_entry_is_Ok d tt0 _ _ e Hshape Hday Hper) as (tt1 & Happ).
  rewrite Happ. simpl. apply IH; [|done].
  by destruct (append_entry_Ok d _ _ _ _ _ Hshape Happ).
Qed.

Lemma entry_is_Ok (d : Data) (c r : nat) :
  (∀ cname, cname ∈ courses d → is_Some (faculty d !! cname)) →
  c < length (courses d) → r < length (rooms d) → ∃ e, entry d c r = Ok e.
Proof.
  intros Hf Hc Hr. unfold entry, list_getitem, getitem.
  destruct (lookup_course_elem d c Hc) as (cname & Hl & Hin). rewrite Hl. simpl.
  destruct (Hf cname Hin) as (f & ->). simpl.
  destruct (lookup_lt_is_Some_2 (rooms d) r Hr) as (rname & ->). simpl. eauto.
Qed.

Lemma rows34_Ok (d : Data) (tt : list (list (list string))) :
  grid_shape d tt →
  ∃ rows, rows34 d tt = Ok rows ∧
    ∀ day, day < days d →
      ∃ row, rows !! day = Some row ∧
        row !! 0 = Some ("Day " +:+ pretty (day + 1)) ∧
        ∀ period, period < slots_per_day d →
          row !! (period + 1) = Some (cell_text (cell_at tt day period)).
Proof.
  intros [Hlen Hrows].
  assert (Hcell : ∀ day period, day < days d → period < slots_per_day d →
    (row ← list_getitem tt day; cell_entries ← list_getitem row period;
     Ok (cell_text cell_entries)) = Ok (cell_text (cell_at tt day period))).
  { intros day period Hday Hper. unfold list_getitem, cell_at.
    destruct (lookup_lt_is_Some_2 tt day) as (row & Hrow); [lia|]. rewrite Hrow. simpl.
    destruct (lookup_lt_is_Some_2 row period) as (cell & Hc).
    { by rewrite (Hrows _ _ Hrow). }
    rewrite Hc. done. }
  unfold rows34.
  match goal with |- ∃ rows, map_result ?f _ = _ ∧ _ =>
    destruct (map_result_is_Ok f (seq 0 (days d))) as (rows & Hr) end.
  { intros day Hday. apply elem_of_indices in Hday.
    match goal with |- ∃ b, (?m ≫= _) = _ =>
      match m with map_result ?g _ =>
        destruct (map_result_is_Ok g (seq 0 (slots_per_day d))) as (cells & Hc) end end.
    { intros period Hper. apply elem_of_indices in Hper. rewrite Hcell by done. eauto. }
    rewrite Hc. simpl. eauto. }
  exists rows. split; [done|]. intros day Hday.
  destruct (map_result_lookup _ _ _ day day Hr) as (row & Hrow & Hlook).
  { by apply lookup_seq_lt. }
  apply bind_Ok in Hrow as (cells & Hcells & [= <-]).
  eexists. split; [done|]. split; [done|]. intros period Hper.
  destruct (map_result_lookup _ _ _ period period Hcells) as (cell & Hc & Hlook').
  { by apply lookup_seq_lt. }
  rewrite Hcell in Hc by done. injection Hc as <-.
  by rewrite Nat.add_1_r.
Qed.

Lemma fill_timetable34_Ok (d : Data) (s : Solution) :
  (∀ cname, cname ∈ courses d → is_Some (faculty d !! cname)) →
  ∃ tt, fill_timetable34 d s = Ok tt ∧ grid_shape d tt ∧
    ∀ day period e,
      e ∈ cell_at tt day period ↔
      ∃ c t r, c < length (courses d) ∧ t < total_slots d ∧ r < length (rooms d) ∧
               BooleanValue s (X c t r) = true ∧
               Nat.div t (slots_per_day d) = day ∧
               Nat.modulo t (slots_per_day d) = period ∧ entry d c r = Ok e.
Proof.
  intros Hf. rewrite fill_timetable34_flat.
  destruct (step34_fold_is_Ok d s
              (ct ← (c ← course_indices d; t ← time_slots d; [(c, t)]);
               r ← room_indices d; [(ct, r)])
              (replicate (days d) (replicate (slots_per_day d) [])))
    as (tt & Htt).
  { apply grid_shape_initial. }
  { intros c t r Hin. apply elem_of_triples in Hin as (Hc & Ht & Hr).
    apply elem_of_indices in Hc, Ht, Hr. split; [done|]. by apply entry_is_Ok. }
  exists tt. split; [done|].
  destruct (step34_fold_inv d s _ _ _ (grid_shape_initial d) Htt) as [Hshape Hiff].
  split; [done|]. intros day period e. rewrite Hiff, cell_at_initial. split.
  - intros [Hin|(c & t & r & Hin & Hrest)]; [inversion Hin|].
    apply elem_of_triples in Hin as (Hc & Ht & Hr). apply elem_of_indices in Hc, Ht, Hr.
    exists c, t, r. tauto.
  - intros (c & t & r & Hc & Ht & Hr & Hrest). right. exists c, t, r.
    split; [|done]. apply elem_of_triples.
    unfold course_indices, time_slots, room_indices. by rewrite !elem_of_indices.
Qed.

Lemma fill_timetable34_same_grid (d : Data) (s s' : Solution) :
  same_grid d s s' → fill_timetable34 d s' = fill_timetable34 d s.
Proof.
  intros Hsame. rewrite !fill_timetable34_flat. apply foldM_ext_in.
  intros [[c t] r] tt Hin. apply elem_of_triples in Hin as (Hc & Ht & Hr).
  apply elem_of_indices in Hc, Ht, Hr. simpl. by rewrite Hsame.
Qed.

Lemma div_mod_slot (n day period : nat) :
  period < n → Nat.div (day * n + period) n = day ∧ Nat.modulo (day * n + period) n = period.
Proof.
  intros Hp. split.
  - rewrite Nat.add_comm, Nat.div_add by lia. rewrite Nat.div_small by done. lia.
  - rewrite Nat.add_comm, Nat.Div0.mod_add. by apply Nat.mod_small.
Qed.

(** C8. The decoder of the fourth script is a function of the grid values
    alone.  On data whose courses all have a faculty entry it returns a table
    in which the entry of every true cell at slot [t] stands in the row
    labelled day [t / slots_per_day + 1], in the column headed period
    [t mod slots_per_day + 1]: that cell is the entries of the true cells of
    slot [t], and of no other, one per line; every (day, period) without a
    true cell in any room reads "Free"; and two solutions with the same grid
    values decode to the same table. *)
Theorem decode_projection (d : Data) (s : Solution) :
  (∀ cname, cname ∈ courses d → is_Some (faculty d !! cname)) →
  ∃ table, decode34 d s = Ok table ∧
    (∀ c t r e,
       c < length (courses d) → t < total_slots d → r < length (rooms d) →
       BooleanValue s (X c t r) = true → entry d c r = Ok e →
       ∃ row entries,
         table_data table !! Nat.div t (slots_per_day d) = Some row ∧
         row !! 0 = Some ("Day " +:+ pretty (Nat.div t (slots_per_day d) + 1)) ∧
         headers table !! (Nat.modulo t (slots_per_day d) + 1)
           = Some ("P" +:+ pretty (Nat.modulo t (slots_per_day d) + 1)) ∧
         row !! (Nat.modulo t (slots_per_day d) + 1)
           = Some (String.concat newline entries) ∧
         e ∈ entries ∧
         (∀ e', e' ∈ entries ↔
                ∃ c' r', c' < length (courses d) ∧ r' < length (rooms d) ∧
                         BooleanValue s (X c' t r') = true ∧ entry d c' r' = Ok e')) ∧
    (∀ day period,
       day < days d → period < slots_per_day d →
       (∀ c r, c < length (courses d) → r < length (rooms d) →
               BooleanValue s (X c (day * slots_per_day d + period) r) = false) →
       ∃ row, table_data table !! day = Some row ∧ row !! (period + 1) = Some "Free") ∧
    (∀ s', same_grid d s s' → decode34 d s' = Ok table).
Proof.
  intros Hf.
  destruct (fill_timetable34_Ok d s Hf) as (tt & Htt & Hshape & Hiff).
  destruct (rows34_Ok d tt Hshape) as (rows & Hrows & Hlook).
  assert (Hdec : decode34 d s = Ok
    {| headers := "Day/Period" :: ((λ p, "P" +:+ pretty p) <$> seq 1 (slots_per_day d));
       table_data := rows |}).
  { unfold decode34. rewrite Htt. simpl. rewrite Hrows. done. }
  eexists. split; [exact Hdec|]. simpl. split; [|split].
  - intros c t r e Hc Ht Hr Hx He.
    destruct (slot_day_period d t Ht) as [Hday Hper].
    destruct (Hlook _ Hday) as (row & Hrow & Hlabel & Hcells).
    exists row, (cell_at tt (Nat.div t (slots_per_day d)) (Nat.modulo t (slots_per_day d))).
    assert (Hin : e ∈ cell_at tt (Nat.div t (slots_per_day d))
                             (Nat.modulo t (slots_per_day d))).
    { apply Hiff. exists c, t, r. done. }
    split; [done|]. split; [done|]. split; [|split; [|split]].
    + rewrite Nat.add_1_r. simpl. rewrite list_lookup_fmap, lookup_seq_lt by done.
      simpl. done.
    + rewrite (Hcells _ Hper).
      destruct (cell_at tt (Nat.div t (slots_per_day d))
                  (Nat.modulo t (slots_per_day d))); [inversion Hin|done].
    + done.
    + intros e'. rewrite Hiff. split.
      * intros (c' & t' & r' & Hc' & Ht' & Hr' & Hx' & Hd & Hp & He').
        assert (t' = t) as ->.
        { pose proof (Nat.div_mod_eq t (slots_per_day d)).
          pose proof (Nat.div_mod_eq t' (slots_per_day d)). rewrite Hd, Hp in *. lia. }
        exists c', r'. done.
      * intros (c' & r' & Hc' & Hr' & Hx' & He'). exists c', t, r'. done.
  - intros day period Hday Hper Hfree.
    destruct (Hlook _ Hday) as (row & Hrow & _ & Hcells).
    exists row. split; [done|]. rewrite (Hcells _ Hper).
    destruct (cell_at tt day period) as [|e es] eqn:E; [done|]. exfalso.
    assert (He : e ∈ cell_at tt day period) by (rewrite E; left).
    apply Hiff in He as (c & t & r & Hc & Ht & Hr & Hx & Hd & Hp & _).
    assert (t = day * slots_per_day d + period).
    { pose proof (Nat.div_mod_eq t (slots_per_day d)). rewrite Hd, Hp in *. lia. }
    subst t. rewrite Hfree in Hx by done. discriminate.
  - intros s' Hsame. unfold decode34.
    rewrite (fill_timetable34_same_grid d s s' Hsame).
    unfold decode34 in Hdec. exact Hdec.
Qed.

Lemma data34_faculty_defined :
  ∀ cname, cname ∈ courses data34 → is_Some (faculty data34 !! cname).
Proof.
  intros cname Hin. simpl in Hin.
  repeat (apply elem_of_cons in Hin as [->|Hin]; [vm_compute; eauto|]).
  inversion Hin.
Qed.

Lemma decode_projection_witness :
  ∃ table, decode34 data34 sample34 = Ok table ∧
    (∃ row, table_data table !! 0 = Some row ∧ row !! (0 + 1) = Some "Free") ∧
    (∃ row entries,
       table_data table !! Nat.div 4 (slots_per_day data34) = Some row ∧
       row !! (Nat.modulo 4 (slots_per_day data34) + 1)
         = Some (String.concat newline entries) ∧
       "AI (Dr.A, R1)" ∈ entries).
Proof.
  destruct (decode_projection data34 sample34 data34_faculty_defined)
    as (table & Hdec & Hcell & Hfree & _).
  exists table. split; [exact Hdec|]. split.
  - apply (Hfree 0 0); [vm_compute; lia|vm_compute; lia|].
    intros c r Hc Hr. simpl in Hc, Hr.
    do 10 (destruct c as [|c]; [do 3 (destruct r as [|r]; [reflexivity|]); lia|]). lia.
  - destruct (Hcell 0 4 0 "AI (Dr.A, R1)") as (row & entries & H1 & _ & _ & H2 & H3 & _).
    + vm_compute; lia.
    + vm_compute; lia.
    + vm_compute; lia.
    + reflexivity.
    + vm_compute; reflexivity.
    + exists row, entries. split; [exact H1|]. split; [exact H2|exact H3].
Defined.

(** ** Decoding in the second script *)

Lemma string_length_app (a b : string) :
  String.length (a +:+ b) = String.length a + String.length b.
Proof. induction a as [|ch a IH]; simpl; [done|]. by rewrite IH. Qed.

Lemma entry_length (d : Data) (c r : nat) (e : string) :
  entry d c r = Ok e → 5 ≤ String.length e.
Proof.
  unfold entry. intros H.
  apply bind_Ok in H as (cname & _ & H). apply bind_Ok in H as (fname & _ & H).
  apply bind_Ok in H as (rname & _ & [= <-]).
  rewrite !string_length_app. simpl. lia.
Qed.

Lemma cell_text_length (e : string) (es : list string) :
  String.length e ≤ String.length (cell_text (e :: es)).
Proof.
  simpl. destruct es as [|e' es]; [done|]. rewrite string_length_app. lia.
Qed.

Lemma cell_text_not_free (entries : list string) :
  entries ≠ [] → (∀ e, e ∈ entries → 5 ≤ String.length e) →
  cell_text entries ≠ "Free".
Proof.
  intros Hne Hlen. destruct entries as [|e es]; [done|].
  pose proof (cell_text_length e es) as H1. pose proof (Hlen e ltac:(left)) as H2.
  intros Heq. rewrite Heq in H1. simpl in H1. lia.
Qed.

Lemma entry_teaches_is_Ok (d : Data) (c r : nat) (f : string) :
  teaches d f c → r < length (rooms d) → ∃ e, entry d c r = Ok e.
Proof.
  intros (cname & Hc & Hf) Hr. unfold entry, list_getitem, getitem.
  rewrite Hc. simpl. rewrite Hf. simpl.
  destruct (lookup_lt_is_Some_2 (rooms d) r Hr) as (rname & ->). simpl. eauto.
Qed.

Lemma dd_get_append (tt : gmap nat (gmap nat (list string))) (day period : nat)
    (e : string) (day' period' : nat) :
  dd_get (dd_append tt day period e) day' period'
  = if decide (day' = day ∧ period' = period)
    then dd_get tt day period ++ [e] else dd_get tt day' period'.
Proof.
  unfold dd_get, dd_append.
  destruct (decide (day' = day)) as [->|Hne].
  - rewrite lookup_insert_eq. simpl.
    destruct (decide (period' = period)) as [->|Hne'].
    + rewrite lookup_insert_eq. simpl. by rewrite decide_True.
    + rewrite lookup_insert_ne by done. rewrite decide_False by tauto. done.
  - rewrite lookup_insert_ne by done. rewrite decide_False by tauto. done.
Qed.

Lemma fill_timetable2_flat (d : Data) (s : Solution) :
  fill_timetable2 d s
  = foldM (step2 d s) ∅
      (tc ← (t ← time_slots d; c ← course_indices d; [(t, c)]);
       r ← room_indices d; [(tc, r)]).
Proof.
  unfold fill_timetable2.
  rewrite (foldM_pairs (time_slots d) (course_indices d)
             (λ t timetable c,
                foldM (λ timetable r,
                  if BooleanValue s (X c t r) then
                    e ← entry d c r;
                    Ok (dd_append timetable (Nat.div t (slots_per_day d) + 1)
                          (Nat.modulo t (slots_per_day d) + 1) e)
                  else Ok timetable) timetable (room_indices d))).
  rewrite (foldM_pairs _ (room_indices d)
             (λ tc timetable r,
                if BooleanValue s (X tc.2 tc.1 r) then
                  e ← entry d tc.2 r;
                  Ok (dd_append timetable (Nat.div tc.1 (slots_per_day d) + 1)
                        (Nat.modulo tc.1 (slots_per_day d) + 1) e)
                else Ok timetable)).
  apply foldM_ext_in. intros [[t c] r] tt _. reflexivity.
Qed.

Lemma step2_fold_inv (d : Data) (s : Solution) (l : list (nat * nat * nat))
    (tt0 tt : gmap nat (gmap nat (list string))) :
  foldM (step2 d s) tt0 l = Ok tt →
  ∀ day period e,
    e ∈ dd_get tt day period ↔
    e ∈ dd_get tt0 day period ∨
    ∃ t c r, (t, c, r) ∈ l ∧ BooleanValue s (X c t r) = true ∧
             Nat.div t (slots_per_day d) + 1 = day ∧
             Nat.modulo t (slots_per_day d) + 1 = period ∧ entry d c r = Ok e.
Proof.
  revert tt0; induction l as [|[[t c] r] l IH]; intros tt0 H.
  - injection H as <-. intros day period e. split; [auto|].
    intros [?|(t & c & r & Hin & _)]; [done|inversion Hin].
  - simpl in H. apply bind_Ok in H as (tt1 & Hstep & Hrest).
    destruct (BooleanValue s (X c t r)) eqn:Hx.
    + apply bind_Ok in Hstep as (e0 & He0 & [= <-]).
      intros day period e. rewrite (IH _ Hrest), dd_get_append. split.
      * intros [Hin|(t' & c' & r' & Hin & Hrest')].
        -- destruct (decide _) as [[-> ->]|_]; [|by left].
           apply elem_of_app in Hin as [Hin|Hin]; [by left|].
           apply list_elem_of_singleton in Hin as ->.
           right. exists t, c, r. split; [left|done].
        -- right. exists t', c', r'. split; [by right|done].
      * intros [Hin|(t' & c' & r' & Hin & Hx' & Hd & Hp & He)].
        -- left. destruct (decide _) as [[-> ->]|_]; [|done].
           apply elem_of_app. by left.
        -- apply elem_of_cons in Hin as [[= -> -> ->]|Hin].
           ++ left. rewrite decide_True by done.
              apply elem_of_app. right. apply list_elem_of_singleton. congruence.
           ++ right. exists t', c', r'. done.
    + injection Hstep as <-.
      intros day period e. rewrite (IH _ Hrest). split.
      * intros [Hin|(t' & c' & r' & Hin & Hrest')]; [by left|].
        right. exists t', c', r'. split; [by right|done].
      * intros [Hin|(t' & c' & r' & Hin & Hx' & Hrest')]; [by left|].
        apply elem_of_cons in Hin as [[= -> -> ->]|Hin]; [congruence|].
        right. exists t', c', r'. done.
Qed.

Lemma step2_fold_is_Ok (d : Data) (s : Solution) (l : list (nat * nat * nat))
    (tt0 : gmap nat (gmap nat (list string))) :
  (∀ t c r, (t, c, r) ∈ l → ∃ e, entry d c r = Ok e) →
  ∃ tt, foldM (step2 d s) tt0 l = Ok tt.
Proof.
  revert tt0; induction l as [|[[t c] r] l IH]; intros tt0 Hl; simpl; [eauto|].
  assert (Hl' : ∀ t c r, (t, c, r) ∈ l → ∃ e, entry d c r = Ok e).
  { intros t' c' r' Hin. apply (Hl t'). by right. }
  destruct (BooleanValue s (X c t r)); simpl; [|by apply IH].
  destruct (Hl t c r) as (e & He); [left|]. rewrite He. simpl. by apply IH.
Qed.

Lemma build2_faculty_defined (d : Data) (u : gmap string (list Z)) (m : CpModel) (c : nat) :
  build2 d u = Ok m → c < length (courses d) → ∃ f, teaches d f c.
Proof.
  intros Hb Hc. apply build2_inv in Hb as (_ & _ & cs & Hcs & _).
  unfold faculty_unavailable in Hcs.
  destruct (for_each_Ok_elem _ _ _ c Hcs) as (cs1 & H1 & _); [by apply elem_of_indices|].
  apply bind_Ok in H1 as (f & Hf & _). exists f. by apply faculty_of_Ok.
Qed.

Lemma grid_slot_used (d : Data) (m : CpModel) (s : Solution) (t : nat) :
  every_slot_used d ⊆ constraints m → satisfies s m = true → t < total_slots d →
  ∃ c r, c < length (courses d) ∧ r < length (rooms d) ∧ BooleanValue s (X c t r) = true.
Proof.
  intros Hsub Hs Ht. pose proof (every_slot_constraint_in d t Ht) as Hin.
  apply Hsub, (satisfies_holds s) in Hin; [|done]. simpl in Hin.
  rewrite (bind_pair_fmap (λ c r, X c t r)), count_true_fmap in Hin.
  apply Z.leb_le in Hin.
  destruct (filter_pos_exists
              (λ cr : nat * nat, BooleanValue s (X cr.1 t cr.2) = true)
              (c ← course_indices d; r ← room_indices d; [(c, r)]))
    as ([c r] & Hcr & Hx); [lia|].
  apply elem_of_pairs in Hcr as [Hc Hr]. apply elem_of_indices in Hc, Hr.
  exists c, r. done.
Qed.

(** C10. In the second script every solution the solver may report has a
    true cell at every time slot, so that the table the script prints has
    its full shape and none of its (day, period) cells reads "Free". *)
Theorem every_slot_used_never_free (d : Data) (u : gmap string (list Z)) (s : Solution) :
  Solved (Script2 d u) s →
  (∀ t, t < total_slots d →
     ∃ c r, c < length (courses d) ∧ r < length (rooms d) ∧
            BooleanValue s (X c t r) = true) ∧
  ∃ table, decode2 d s = Ok table ∧
    length (table_data table) = days d ∧
    ∀ row, row ∈ table_data table →
      length row = S (slots_per_day d) ∧ ∀ cell, cell ∈ tail row → cell ≠ "Free".
Proof.
  intros (m & Hb & Hs). simpl in Hb.
  assert (Hused : ∀ t, t < total_slots d →
     ∃ c r, c < length (courses d) ∧ r < length (rooms d) ∧
            BooleanValue s (X c t r) = true).
  { intros t Ht. pose proof (build2_inv d u m Hb) as (_ & Hsub & _).
    by eapply grid_slot_used. }
  split; [exact Hused|].
  destruct (step2_fold_is_Ok d s
              (tc ← (t ← time_slots d; c ← course_indices d; [(t, c)]);
               r ← room_indices d; [(tc, r)]) ∅) as (tt & Htt).
  { intros t c r Hin. apply elem_of_triples in Hin as (_ & Hc & Hr).
    apply elem_of_indices in Hc, Hr.
    destruct (build2_faculty_defined d u m c Hb Hc) as (f & Hf).
    by eapply entry_teaches_is_Ok. }
  pose proof (step2_fold_inv d s _ _ _ Htt) as Hiff.
  eexists. split.
  { unfold decode2. rewrite fill_timetable2_flat, Htt. simpl. reflexivity. }
  simpl. unfold rows2. split; [by rewrite length_fmap, length_seq|].
  intros row Hrow. apply list_elem_of_fmap in Hrow as (day & -> & Hday).
  apply elem_of_seq in Hday. simpl.
  split; [by rewrite length_fmap, length_seq|].
  intros cell Hcell. apply list_elem_of_fmap in Hcell as (period & -> & Hper).
  apply elem_of_seq in Hper.
  assert (Hslot : (day - 1) * slots_per_day d + (period - 1) < total_slots d).
  { unfold total_slots. nia. }
  destruct (Hused _ Hslot) as (c & r & Hc & Hr & Hx).
  destruct (build2_faculty_defined d u m c Hb Hc) as (f & Hf).
  destruct (entry_teaches_is_Ok d c r f Hf Hr) as (e & He).
  destruct (div_mod_slot (slots_per_day d) (day - 1) (period - 1)) as [Hd Hp]; [lia|].
  apply cell_text_not_free.
  - assert (Hin : e ∈ dd_get tt day period).
    { apply Hiff. right. exists ((day - 1) * slots_per_day d + (period - 1)), c, r.
      split; [|split; [done|split; [lia|split; [lia|done]]]].
      apply elem_of_triples.
      unfold time_slots, course_indices, room_indices. by rewrite !elem_of_indices. }
    intros Hnil. rewrite Hnil in Hin. inversion Hin.
  - intros e' He'. apply Hiff in He' as [He'|(t' & c' & r' & _ & _ & _ & _ & He')].
    + unfold dd_get in He'. rewrite lookup_empty in He'. simpl in He'.
      rewrite lookup_empty in He'. inversion He'.
    + by eapply entry_length.
Qed.

Lemma every_slot_used_never_free_witness :
  Solved sih_v2 sample2 ∧
  ∃ table, decode2 data12 sample2 = Ok table ∧ length (table_data table) = days data12.
Proof.
  split; [exact sih_v2_solved|].
  destruct (every_slot_used_never_free data12 unavailability12 sample2 sih_v2_solved)
    as (_ & table & Hdec & Hlen & _).
  exists table. split; [exact Hdec|exact Hlen].
Defined.

(** The fourth script carries no unavailability table: with the data it
    declares, a lecture of Dr.A's course at slot 0 is accepted, whereas the
    third script, which lists slot 0 for Dr.A, rejects the same solution. *)
Remark fourth_script_declares_no_unavailability :
  Solved sih_v4 sample4_slot0 ∧ scheduled sih_v4 sample4_slot0 0 0 0 = true ∧
  declared_unavailability sih_v4 = ∅ ∧ ¬ Solved sih_v3 sample4_slot0.
Proof.
  split; [apply Solved_intro; vm_compute; reflexivity|].
  split; [vm_compute; reflexivity|]. split; [reflexivity|].
  intros (m & Hb & Hs).
  assert (H : build sih_v3 = Ok m → satisfies sample4_slot0 m = false).
  { intros E. assert (Hm : match build sih_v3 with
                           | Ok m' => satisfies sample4_slot0 m'
                           | Raise _ => true end = false) by (vm_compute; reflexivity).
    by rewrite E in Hm. }
  rewrite (H Hb) in Hs. discriminate.
Qed.

(* ================================================================== *)
(** * Further properties of the scripts *)

(** ** One room per course and slot *)

(** X1. A course never occupies two rooms in the same slot: in the grid scripts
    by the "can't be in two rooms" constraint, in the first script because a
    course has a single room variable. *)
Theorem single_room_per_slot (p : script) (s : Solution) (c t : nat) :
  Solved p s → c < length (courses (data p)) → t < total_slots (data p) →
  rooms_used p s c t ≤ 1.
Proof.
  intros (m & Hb & Hs) Hc Ht. unfold rooms_used.
  destruct p as [d u|d u|d u q|d q]; simpl in *.
  - pose proof (s1_scheduled_unique_room s c t (length (rooms d))) as H.
    unfold room_indices. destruct (Value s (course_time c) =? Z.of_nat t)%Z; lia.
  - apply build2_inv in Hb as [Hg _]. by eapply grid_course_count.
  - apply build3_inv in Hb as [Hg _]. by eapply grid_course_count.
  - apply build4_inv in Hb as [Hg _]. by eapply grid_course_count.
Qed.

Lemma single_room_per_slot_witness :
  Solved sih_v3 sample34 ∧ 0 < length (courses (data sih_v3)) ∧
  4 < total_slots (data sih_v3) ∧ rooms_used sih_v3 sample34 0 4 ≤ 1.
Proof.
  assert (H1 : 0 < length (courses (data sih_v3))) by (vm_compute; lia).
  assert (H2 : 4 < total_slots (data sih_v3)) by (vm_compute; lia).
  repeat (split; [assumption || exact sih_v3_solved|]).
  exact (single_room_per_slot sih_v3 sample34 0 4 sih_v3_solved H1 H2).
Defined.

(** ** The first script *)

(** X2. In the first script every course gets exactly one lecture, and it lies
    inside the timetable: the start time and room variables are bounded by
    the number of slots and of rooms. *)
Theorem first_script_one_lecture (d : Data) (u : gmap string (list Z)) (s : Solution)
    (c : nat) :
  Solved (Script1 d u) s → c < length (courses d) →
  ∃ t r, t < total_slots d ∧ r < length (rooms d) ∧
    scheduled (Script1 d u) s c t r = true ∧
    ∀ t' r', scheduled (Script1 d u) s c t' r' = true → t' = t ∧ r' = r.
Proof.
  intros (m & Hb & Hs) Hc. simpl in Hb.
  pose proof (s1_time_domain d u m s Hb Hs c Hc) as Ht.
  pose proof (s1_room_domain d u m s Hb Hs c Hc) as Hr.
  exists (Z.to_nat (Value s (course_time c))), (Z.to_nat (Value s (course_room c))).
  split; [lia|]. split; [lia|]. simpl. split.
  - apply andb_true_iff. split; apply Z.eqb_eq; lia.
  - intros t' r' H. apply andb_true_iff in H as [H1 H2].
    apply Z.eqb_eq in H1, H2. lia.
Qed.

Lemma first_script_one_lecture_witness :
  Solved sih_v1 sample1 ∧ 2 < length (courses data12) ∧
  ∃ t r, t < total_slots data12 ∧ r < length (rooms data12) ∧
         scheduled sih_v1 sample1 2 t r = true.
Proof.
  assert (H1 : 2 < length (courses data12)) by (vm_compute; lia).
  split; [exact sih_v1_solved|]. split; [exact H1|].
  destruct (first_script_one_lecture data12 unavailability12 sample1 2 sih_v1_solved H1)
    as (t & r & Ht & Hr & Hx & _).
  exists t, r. split; [exact Ht|]. split; [exact Hr|exact Hx].
Defined.

(** X3. The boolean [same_room_i_j] of the first script is true exactly when
    courses [i] and [j] are given the same room, as the comment at its
    creation says, and two courses in the same room start at different
    times. *)
Theorem same_room_reified (d : Data) (u : gmap string (list Z)) (s : Solution)
    (i j : nat) :
  Solved (Script1 d u) s → i < j → j < length (courses d) →
  (BooleanValue s (same_room i j) = true
   ↔ Value s (course_room i) = Value s (course_room j)) ∧
  (Value s (course_room i) = Value s (course_room j) →
   Value s (course_time i) ≠ Value s (course_time j)).
Proof.
  intros (m & Hb & Hs) Hij Hj. simpl in Hb.
  destruct (build1_inv _ _ _ Hb) as (_ & Hc & _).
  destruct (Hc i j Hij Hj) as (H1 & H2 & H3).
  apply (satisfies_holds s) in H1, H2, H3; [|done..]. simpl in H1, H2, H3.
  destruct (BooleanValue s (same_room i j)); simpl in *.
  - apply Z.eqb_eq in H1. apply negb_true_iff, Z.eqb_neq in H3.
    split; [split; done|done].
  - apply negb_true_iff, Z.eqb_neq in H2. split; [split; [discriminate|done]|done].
Qed.

Lemma same_room_reified_witness :
  Solved sih_v1 sample1 ∧ 0 < 3 ∧ 3 < length (courses data12) ∧
  (BooleanValue sample1 (same_room 0 3) = true
   ↔ Value sample1 (course_room 0) = Value sample1 (course_room 3)).
Proof.
  assert (H1 : 0 < 3) by lia.
  assert (H2 : 3 < length (courses data12)) by (vm_compute; lia).
  repeat (split; [assumption || exact sih_v1_solved|]).
  exact (proj1 (same_room_reified data12 unavailability12 sample1 0 3
                  sih_v1_solved H1 H2)).
Defined.

(** ** Bounds that follow from the constraints together *)

(** X4. No script ever schedules more lectures of one course than there are
    slots. *)
Theorem lectures_at_most_slots (p : script) (s : Solution) (c : nat) :
  Solved p s → c < length (courses (data p)) →
  lectures_scheduled p s c ≤ total_slots (data p).
Proof.
  intros (m & Hb & Hs) Hc. unfold lectures_scheduled.
  destruct p as [d u|d u|d u q|d q]; simpl in *.
  - pose proof (s1_time_domain d u m s Hb Hs c Hc) as Ht.
    transitivity 1; [|lia].
    apply filter_le_1_intro; [apply NoDup_pairs; apply NoDup_seq|].
    intros [t1 r1] [t2 r2] _ _ H1 H2. simpl in H1, H2.
    apply andb_true_iff in H1 as [H1 H1']. apply andb_true_iff in H2 as [H2 H2'].
    apply Z.eqb_eq in H1, H1', H2, H2'. f_equal; lia.
  - apply build2_inv in Hb as [Hg _]. by eapply grid_lectures_le_slots.
  - apply build3_inv in Hb as [Hg _]. by eapply grid_lectures_le_slots.
  - apply build4_inv in Hb as [Hg _]. by eapply grid_lectures_le_slots.
Qed.

Lemma lectures_at_most_slots_witness :
  Solved sih_v2 sample2 ∧ 4 < length (courses (data sih_v2)) ∧
  lectures_scheduled sih_v2 sample2 4 ≤ total_slots (data sih_v2).
Proof.
  assert (H1 : 4 < length (courses (data sih_v2))) by (vm_compute; lia).
  split; [exact sih_v2_solved|]. split; [exact H1|].
  exact (lectures_at_most_slots sih_v2 sample2 4 sih_v2_solved H1).
Defined.

(** X5. A conflict pair that names the same course twice: the grid scripts then
    never schedule that course at all (twice its room count is at most one),
    and the first script has no solution. *)
Theorem self_conflict_never_scheduled (p : script) (s : Solution) (a : string)
    (i t : nat) :
  Solved p s → (a, a) ∈ shared_students (data p) →
  index (courses (data p)) a = Ok i → t < total_slots (data p) →
  rooms_used p s i t = 0 ∧ ∀ d u, p ≠ Script1 d u.
Proof.
  intros (m & Hb & Hs) Hin Hi Ht. unfold rooms_used.
  destruct p as [d u|d u|d u q|d q]; simpl in *.
  - exfalso. destruct (s1_shared d u m s Hb Hs _ _ Hin) as (i' & j' & Hi' & Hj' & Hne).
    congruence.
  - apply build2_inv in Hb as [Hg _].
    pose proof (grid_shared d m s Hg Hs a a i i t Hin Hi Hi Ht). split; [lia|done].
  - apply build3_inv in Hb as [Hg _].
    pose proof (grid_shared d m s Hg Hs a a i i t Hin Hi Hi Ht). split; [lia|done].
  - apply build4_inv in Hb as [Hg _].
    pose proof (grid_shared d m s Hg Hs a a i i t Hin Hi Hi Ht). split; [lia|done].
Qed.

Lemma self_conflict_solved : Solved (Script2 self_conflict_data ∅) self_conflict_solution.
Proof. apply Solved_intro. vm_compute. reflexivity. Qed.

Lemma self_conflict_never_scheduled_witness :
  Solved (Script2 self_conflict_data ∅) self_conflict_solution ∧
  ("AI", "AI") ∈ shared_students self_conflict_data ∧
  index (courses self_conflict_data) "AI" = Ok 0 ∧
  1 < total_slots self_conflict_data ∧
  rooms_used (Script2 self_conflict_data ∅) self_conflict_solution 0 1 = 0.
Proof.
  assert (H1 : ("AI", "AI") ∈ shared_students self_conflict_data) by (simpl; left).
  assert (H2 : index (courses self_conflict_data) "AI" = Ok 0) by reflexivity.
  assert (H3 : 1 < total_slots self_conflict_data) by (vm_compute; lia).
  repeat (split; [assumption || exact self_conflict_solved|]).
  exact (proj1 (self_conflict_never_scheduled (Script2 self_conflict_data ∅)
                  self_conflict_solution "AI" 0 1 self_conflict_solved H1 H2 H3)).
Defined.

(** X6. In the third script a course with a quota of at least one lecture has a
    lecture at a slot outside the unavailable slots of its faculty. *)
Theorem lecture_outside_unavailable_slots (d : Data) (u : gmap string (list Z))
    (q : gmap string Z) (s : Solution) (c : nat) (cname f : string) (ts : list Z) (k : Z) :
  Solved (Script3 d u q) s →
  courses d !! c = Some cname → faculty d !! cname = Some f →
  u !! f = Some ts → q !! cname = Some k → (1 ≤ k)%Z →
  ∃ t r, t < total_slots d ∧ r < length (rooms d) ∧
         BooleanValue s (X c t r) = true ∧ Z.of_nat t ∉ ts.
Proof.
  intros (m & Hb & Hs) Hc Hf Hu Hq Hk. simpl in Hb.
  apply build3_inv in Hb as (Hg & (cu & Hcu & Hsubu) & (cq & Hcq & Hsubq)).
  destruct (grid_lecture_exists d q cq m s c cname k Hcq Hsubq Hs Hc Hq Hk)
    as (t & r & Ht & Hr & Hx).
  exists t, r. split; [done|]. split; [done|]. split; [done|].
  intros Hin.
  assert (Hteach : teaches d f c) by (exists cname; done).
  pose proof (grid_unavailable d u cu m s c r t f ts Hcu Hsubu Hs Hteach Hu Hin Hr).
  congruence.
Qed.

Lemma lecture_outside_unavailable_slots_witness :
  Solved sih_v3 sample34 ∧
  ∃ t r, t < total_slots data34 ∧ r < length (rooms data34) ∧
         BooleanValue sample34 (X 0 t r) = true ∧ Z.of_nat t ∉ [0; 1; 2; 3]%Z.
Proof.
  split; [exact sih_v3_solved|].
  apply (lecture_outside_unavailable_slots data34 unavailability3 course_min_lectures34
           sample34 0 "AI" "Dr.A" [0; 1; 2; 3]%Z 3%Z sih_v3_solved).
  - reflexivity.
  - vm_compute; reflexivity.
  - vm_compute; reflexivity.
  - vm_compute; reflexivity.
  - lia.
Defined.

(** X7. The second script asks for a lecture in every slot, so with at least one
    slot it has no solution unless there is a room and a course. *)
Theorem second_script_needs_rooms_and_courses (d : Data) (u : gmap string (list Z))
    (s : Solution) :
  Solved (Script2 d u) s → 0 < total_slots d →
  0 < length (rooms d) ∧ 0 < length (courses d).
Proof.
  intros (m & Hb & Hs) Ht. simpl in Hb.
  apply build2_inv in Hb as (_ & Hsub & _).
  destruct (grid_slot_used d m s 0 Hsub Hs Ht) as (c & r & Hc & Hr & _). lia.
Qed.

Lemma second_script_needs_rooms_and_courses_witness :
  Solved sih_v2 sample2 ∧ 0 < total_slots data12 ∧
  0 < length (rooms data12) ∧ 0 < length (courses data12).
Proof.
  assert (H1 : 0 < total_slots data12) by (vm_compute; lia).
  split; [exact sih_v2_solved|]. split; [exact H1|].
  exact (second_script_needs_rooms_and_courses data12 unavailability12 sample2
           sih_v2_solved H1).
Defined.

(** ** The lines the first script prints *)

Lemma build1_faculty_defined (d : Data) (u : gmap string (list Z)) (m : CpModel) (c : nat) :
  build1 d u = Ok m → c < length (courses d) → ∃ f, teaches d f c.
Proof.
  unfold build1. intros H Hc.
  apply bind_Ok in H as (c2 & _ & H). apply bind_Ok in H as (c3 & H3 & _).
  destruct (for_each_Ok_elem _ _ _ c H3) as (cs1 & H1 & _); [by apply elem_of_indices|].
  apply bind_Ok in H1 as (f & Hf & _). exists f. by apply faculty_of_Ok.
Qed.

Lemma print_lines1_all (d : Data) (s : Solution) (P : nat → Line1 → Prop) (cs : list nat) :
  (∀ c, c ∈ cs → ∃ l, line1 d s c = inr l ∧ P c l) →
  ∃ lines, print_lines1 d s cs = (lines, None) ∧ length lines = length cs ∧
    ∀ i c l, cs !! i = Some c → lines !! i = Some l → P c l.
Proof.
  induction cs as [|c cs IH]; intros Hall.
  - exists []. split; [done|]. split; [done|]. intros i c l H. inversion H.
  - destruct (Hall c) as (l & Hl & HP); [left|].
    destruct IH as (lines & Hlines & Hlen & Hprop).
    { intros c' Hc'. apply Hall. by right. }
    exists (l :: lines). simpl. rewrite Hl, Hlines. split; [done|].
    split; [by rewrite Hlen|]. intros [|i] c' l' Hc' Hl'; simpl in *.
    + by injection Hc' as <-; injection Hl' as <-.
    + eauto.
Qed.

(** X8. After a successful solve the first script prints one line per course
    without raising: the day lies in [1, days], the period in
    [1, slots_per_day], together they give back the start time, and the room
    is the one the room variable points at. *)
Theorem first_script_lines (d : Data) (u : gmap string (list Z)) (s : Solution) :
  Solved (Script1 d u) s →
  ∃ lines, print_lines1 d s (course_indices d) = (lines, None) ∧
    length lines = length (courses d) ∧
    ∀ c l, lines !! c = Some l →
      courses d !! c = Some (line_course l) ∧
      faculty d !! line_course l = Some (line_faculty l) ∧
      (1 ≤ line_day l ≤ Z.of_nat (days d))%Z ∧
      (1 ≤ line_period l ≤ Z.of_nat (slots_per_day d))%Z ∧
      ((line_day l - 1) * Z.of_nat (slots_per_day d) + (line_period l - 1)
       = Value s (course_time c))%Z ∧
      rooms d !! Z.to_nat (Value s (course_room c)) = Some (line_room l).
Proof.
  intros (m & Hb & Hs). simpl in Hb.
  destruct (print_lines1_all d s
    (λ c l, courses d !! c = Some (line_course l) ∧
      faculty d !! line_course l = Some (line_faculty l) ∧
      (1 ≤ line_day l ≤ Z.of_nat (days d))%Z ∧
      (1 ≤ line_period l ≤ Z.of_nat (slots_per_day d))%Z ∧
      ((line_day l - 1) * Z.of_nat (slots_per_day d) + (line_period l - 1)
       = Value s (course_time c))%Z ∧
      rooms d !! Z.to_nat (Value s (course_room c)) = Some (line_room l))
    (course_indices d)) as (lines & Hlines & Hlen & Hprop).
  { intros c Hc. apply elem_of_indices in Hc.
    pose proof (s1_time_domain d u m s Hb Hs c Hc) as Ht.
    pose proof (s1_room_domain d u m s Hb Hs c Hc) as Hr.
    destruct (build1_faculty_defined d u m c Hb Hc) as (f & cname & Hcn & Hf).
    unfold line1, list_getitem, list_getitem_int, getitem. rewrite Hcn.
    rewrite decide_True by lia.
    destruct (lookup_lt_is_Some_2 (rooms d) (Z.to_nat (Value s (course_room c))))
      as (rname & Hrn); [lia|].
    unfold list_getitem. rewrite Hrn.
    assert (Hspd : slots_per_day d ≠ 0).
    { intros E. unfold total_slots in Ht. rewrite E in Ht. lia. }
    rewrite decide_False by done. rewrite Hf.
    eexists. split; [reflexivity|]. simpl.
    assert (Hpos : (0 < Z.of_nat (slots_per_day d))%Z) by lia.
    pose proof (Z.mod_pos_bound (Value s (course_time c)) _ Hpos).
    pose proof (Z.div_mod (Value s (course_time c)) (Z.of_nat (slots_per_day d))
                  ltac:(lia)) as Hdm.
    assert (0 ≤ Value s (course_time c) `div` Z.of_nat (slots_per_day d))%Z
      by (apply Z.div_pos; lia).
    assert (Value s (course_time c) `div` Z.of_nat (slots_per_day d) < Z.of_nat (days d))%Z.
    { apply Z.div_lt_upper_bound; [lia|]. unfold total_slots in Ht. lia. }
    repeat split; try done; try lia. }
  exists lines. split; [done|].
  split; [unfold course_indices in Hlen; by rewrite Hlen, length_seq|].
  intros c l Hl. apply (Hprop c c l); [|done].
  apply lookup_seq_lt. apply lookup_lt_Some in Hl. rewrite Hlen in Hl.
  unfold course_indices in Hl. by rewrite length_seq in Hl.
Qed.

Lemma first_script_lines_witness :
  Solved sih_v1 sample1 ∧
  ∃ lines, print_lines1 data12 sample1 (course_indices data12) = (lines, None) ∧
           length lines = length (courses data12).
Proof.
  split; [exact sih_v1_solved|].
  destruct (first_script_lines data12 unavailability12 sample1 sih_v1_solved)
    as (lines & H1 & H2 & _).
  exists lines. split; [exact H1|exact H2].
Defined.

(** ** How model construction fails *)

Lemma for_each_Raise_inv {A B} (l : list A) (body : A → result (list B)) (e : PyErr) :
  for_each l body = Raise e → ∃ a, a ∈ l ∧ body a = Raise e.
Proof.
  induction l as [|a l IH]; simpl; [discriminate|].
  destruct (body a) as [cs|e'] eqn:E; simpl.
  - destruct (for_each l body) as [rest|e''] eqn:E'; simpl; [discriminate|].
    intros [= ->]. destruct IH as (a' & Ha' & Hb'); [done|].
    exists a'. split; [by right|done].
  - intros [= ->]. exists a. split; [left|done].
Qed.

Lemma for_each_Raise {A B} (l : list A) (body : A → result (list B)) (a : A) (e : PyErr) :
  a ∈ l → body a = Raise e →
  (∀ a' e', a' ∈ l → body a' = Raise e' → e' = e) →
  for_each l body = Raise e.
Proof.
  intros Ha Hb Hall. destruct (for_each l body) as [cs|e'] eqn:E.
  - destruct (for_each_Ok_elem l body cs a E Ha) as (cs' & Hcs' & _). congruence.
  - apply for_each_Raise_inv in E as (a' & Ha' & Hb'). f_equal. by eapply Hall.
Qed.

Lemma filterM_Raise_inv {A} (p : A → result bool) (l : list A) (e : PyErr) :
  filterM p l = Raise e → ∃ a, a ∈ l ∧ p a = Raise e.
Proof.
  induction l as [|a l IH]; simpl; [discriminate|].
  destruct (p a) as [b|e'] eqn:E; simpl.
  - destruct (filterM p l) as [rest|e''] eqn:E'; simpl; [discriminate|].
    intros [= ->]. destruct IH as (a' & Ha' & Hb'); [done|].
    exists a'. split; [by right|done].
  - intros [= ->]. exists a. split; [left|done].
Qed.

Lemma index_Raise_inv (l : list string) (s : string) (e : PyErr) :
  index l s = Raise e → e = ValueError.
Proof.
  induction l as [|a l IH]; simpl; [by intros [= <-]|].
  destruct (decide (a = s)); [discriminate|].
  destruct (index l s) as [i|e'] eqn:E; simpl; [discriminate|].
  intros [= <-]. by apply IH.
Qed.

Lemma index_Raise (l : list string) (s : string) :
  s ∉ l → index l s = Raise ValueError.
Proof.
  intros Hnotin. destruct (index l s) as [i|e] eqn:E.
  - exfalso. apply Hnotin. apply index_Ok_lookup in E.
    apply list_elem_of_lookup. eauto.
  - f_equal. by eapply index_Raise_inv.
Qed.

Lemma faculty_one_place_Raise_inv (d : Data) (e : PyErr) :
  faculty_one_place d = Raise e → e = KeyError.
Proof.
  unfold faculty_one_place. intros H.
  apply for_each_Raise_inv in H as (t & _ & H).
  apply for_each_Raise_inv in H as (f & _ & H).
  destruct (relevant_courses d f) as [rel|e'] eqn:E; simpl in H; [discriminate|].
  injection H as ->. unfold relevant_courses in E.
  apply filterM_Raise_inv in E as (c & Hc & E). apply elem_of_indices in Hc.
  destruct (faculty_of d c) as [f'|e'] eqn:E'; simpl in E; [discriminate|].
  injection E as <-. by eapply faculty_of_Raise.
Qed.

Lemma shared_students_Raise_inv (d : Data) (e : PyErr) :
  shared_students_no_overlap d = Raise e → e = ValueError.
Proof.
  unfold shared_students_no_overlap. intros H.
  apply for_each_Raise_inv in H as ([a b] & _ & H).
  destruct (index (courses d) a) as [i|e1] eqn:E1; simpl in H.
  - destruct (index (courses d) b) as [j|e2] eqn:E2; simpl in H; [discriminate|].
    injection H as <-. by eapply index_Raise_inv.
  - injection H as <-. by eapply index_Raise_inv.
Qed.

Lemma shared_students_Raise (d : Data) (a b : string) :
  (a, b) ∈ shared_students d → a ∉ courses d ∨ b ∉ courses d →
  shared_students_no_overlap d = Raise ValueError.
Proof.
  intros Hin Hnot.
  destruct (shared_students_no_overlap d) as [cs|e] eqn:E.
  - exfalso. destruct (shared_constraint_in d cs a b E Hin) as (i & j & Hi & Hj & _).
    apply index_Ok_lookup in Hi, Hj.
    destruct Hnot as [Hn|Hn]; apply Hn; apply list_elem_of_lookup; eauto.
  - f_equal. by eapply shared_students_Raise_inv.
Qed.

(** X9. A conflict pair that names a course missing from the course list stops
    the construction of the fourth script's model with a [ValueError] (the
    failed [courses.index]), once the faculty lookups before it went
    through. *)
Theorem unknown_conflict_course_ValueError (d : Data) (q : gmap string Z) (a b : string) :
  (∀ cname, cname ∈ courses d → is_Some (faculty d !! cname)) →
  (a, b) ∈ shared_students d → a ∉ courses d ∨ b ∉ courses d →
  build4 d q = Raise ValueError.
Proof.
  intros Hf Hin Hnot. unfold build4.
  destruct (faculty_one_place_is_Ok d Hf) as (c3 & ->). simpl.
  by rewrite (shared_students_Raise d a b).
Qed.

Lemma unknown_conflict_course_ValueError_witness :
  build4 unknown_pair_data pigeon_min = Raise ValueError.
Proof.
  apply (unknown_conflict_course_ValueError unknown_pair_data pigeon_min "AI" "Physics").
  - intros cname Hin. simpl in Hin.
    repeat (apply elem_of_cons in Hin as [->|Hin]; [vm_compute; eauto|]).
    inversion Hin.
  - simpl. left.
  - right. simpl. intros Hin.
    repeat (apply elem_of_cons in Hin as [Hin|Hin]; [discriminate|]).
    inversion Hin.
Defined.

Lemma min_lectures_Raise_inv (d : Data) (q : gmap string Z) (e : PyErr) :
  min_lectures_per_course d q = Raise e →
  ∃ c cname, courses d !! c = Some cname ∧
    ((q !! cname = None ∧ e = KeyError) ∨
     (∃ k, q !! cname = Some k ∧ ¬ in_int64 k ∧ e = TypeError)).
Proof.
  unfold min_lectures_per_course. intros H.
  apply for_each_Raise_inv in H as (c & Hc & H). apply elem_of_indices in Hc.
  destruct (lookup_lt_is_Some_2 (courses d) c Hc) as (cname & Hl).
  exists c, cname. split; [done|].
  unfold list_getitem, getitem in H. rewrite Hl in H. simpl in H.
  destruct (q !! cname) as [k|]; simpl in H; [|left; split; [done|by injection H as <-]].
  right. exists k. split; [done|].
  destruct (t ← time_slots d; r ← room_indices d; [X c t r]); simpl in H; [discriminate|].
  unfold int64_const in H. destruct (decide (in_int64 k)); simpl in H; [discriminate|].
  split; [done|]. by injection H as <-.
Qed.

Lemma min_lectures_Ok_int64 (d : Data) (q : gmap string Z) (cs : list Constraint)
    (c : nat) (cname : string) (k : Z) :
  min_lectures_per_course d q = Ok cs → courses d !! c = Some cname →
  q !! cname = Some k → 0 < total_slots d → 0 < length (rooms d) → in_int64 k.
Proof.
  intros H Hc Hq Ht Hr. unfold min_lectures_per_course in H.
  destruct (for_each_Ok_elem _ _ _ c H) as (cs1 & H1 & _).
  { apply elem_of_indices. by apply lookup_lt_Some in Hc. }
  unfold list_getitem, getitem in H1. rewrite Hc in H1. simpl in H1.
  rewrite Hq in H1. simpl in H1.
  apply bind_Ok in H1 as (bound & Hbound & _).
  unfold time_slots, room_indices in Hbound.
  destruct (total_slots d) as [|n]; [lia|]. destruct (length (rooms d)) as [|n']; [lia|].
  csimpl in Hbound. by apply int64_const_Ok in Hbound as [_ ?].
Qed.

(** X10. A course without an entry in the quota table stops the construction of
    the fourth script's model with a [KeyError], once the lookups before it
    went through and when the quotas that are declared are 64-bit integers. *)
Theorem missing_quota_KeyError (d : Data) (q : gmap string Z) (c : nat) (cname : string) :
  (∀ cname, cname ∈ courses d → is_Some (faculty d !! cname)) →
  (∀ a b, (a, b) ∈ shared_students d → a ∈ courses d ∧ b ∈ courses d) →
  (∀ cname k, cname ∈ courses d → q !! cname = Some k → in_int64 k) →
  courses d !! c = Some cname → q !! cname = None →
  build4 d q = Raise KeyError.
Proof.
  intros Hf Hsh Hint Hc Hq. unfold build4.
  destruct (faculty_one_place_is_Ok d Hf) as (c3 & ->). simpl.
  destruct (shared_students_is_Ok d Hsh) as (c4 & ->). simpl.
  destruct (min_lectures_per_course d q) as [cs|e] eqn:E; simpl.
  - destruct (min_lectures_constraint_in d q cs c cname E Hc) as (k & Hk & _). congruence.
  - f_equal. apply min_lectures_Raise_inv in E as (c' & cname' & Hc' & [[_ ->]|Hbad]);
      [done|].
    destruct Hbad as (k & Hk & Hout & _). exfalso. apply Hout.
    apply (Hint cname' k); [|done]. apply list_elem_of_lookup. eauto.
Qed.

(** X24. A quota outside the 64-bit integers stops the construction of the
    fourth script's model with a [TypeError], raised where the quota is
    compared with the sum of the course's variables, once the lookups went
    through and when there is a slot and a room. *)
Theorem quota_outside_int64_TypeError (d : Data) (q : gmap string Z) (c : nat)
    (cname : string) (k : Z) :
  (∀ cname, cname ∈ courses d → is_Some (faculty d !! cname)) →
  (∀ a b, (a, b) ∈ shared_students d → a ∈ courses d ∧ b ∈ courses d) →
  (∀ cname, cname ∈ courses d → is_Some (q !! cname)) →
  courses d !! c = Some cname → q !! cname = Some k → ¬ in_int64 k →
  0 < total_slots d → 0 < length (rooms d) →
  build4 d q = Raise TypeError.
Proof.
  intros Hf Hsh Hq Hc Hk Hout Ht Hr. unfold build4.
  destruct (faculty_one_place_is_Ok d Hf) as (c3 & ->). simpl.
  destruct (shared_students_is_Ok d Hsh) as (c4 & ->). simpl.
  destruct (min_lectures_per_course d q) as [cs|e] eqn:E; simpl.
  - exfalso. apply Hout. by eapply min_lectures_Ok_int64.
  - f_equal. apply min_lectures_Raise_inv in E as (c' & cname' & Hc' & [[Hnone _]|Hbad]).
    + exfalso. destruct (Hq cname') as (k' & Hk'); [|congruence].
      apply list_elem_of_lookup. eauto.
    + by destruct Hbad as (_ & _ & _ & ->).
Qed.

Lemma quota_outside_int64_TypeError_witness :
  build4 overbooked_data huge_min = Raise TypeError.
Proof.
  apply (quota_outside_int64_TypeError overbooked_data huge_min 0 "AI" (2 ^ 64)%Z).
  - intros cname Hin. apply list_elem_of_singleton in Hin as ->. vm_compute. eauto.
  - intros a b Hin. inversion Hin.
  - intros cname Hin. apply list_elem_of_singleton in Hin as ->. vm_compute. eauto.
  - reflexivity.
  - vm_compute. reflexivity.
  - intros [_ H]. vm_compute in H. by apply H.
  - vm_compute; lia.
  - vm_compute; lia.
Defined.

Lemma missing_quota_KeyError_witness :
  build4 pigeon_data overbooked_min = Raise KeyError.
Proof.
  apply (missing_quota_KeyError pigeon_data overbooked_min 1 "ML").
  - intros cname Hin. simpl in Hin.
    repeat (apply elem_of_cons in Hin as [->|Hin]; [vm_compute; eauto|]).
    inversion Hin.
  - intros a b Hin. inversion Hin.
  - intros cname k Hin Hk. simpl in Hin.
    repeat (apply elem_of_cons in Hin as [->|Hin];
            [vm_compute in Hk; try discriminate; injection Hk as <-;
             split; vm_compute; discriminate|]).
    inversion Hin.
  - reflexivity.
  - vm_compute. reflexivity.
Defined.

Lemma x_getitem_Raise_inv (d : Data) (c : nat) (t : Z) (r : nat) (e : PyErr) :
  x_getitem d c t r = Raise e → e = KeyError.
Proof. unfold x_getitem. destruct (decide _); [discriminate|]. by intros [= <-]. Qed.

Lemma x_getitem_out_of_range (d : Data) (c : nat) (t : Z) (r : nat) :
  ¬ (0 ≤ t < Z.of_nat (total_slots d))%Z → x_getitem d c t r = Raise KeyError.
Proof.
  intros Hout. destruct (x_getitem d c t r) as [v|e] eqn:E.
  - apply x_getitem_Ok in E as (H0 & Ht & _). lia.
  - f_equal. by eapply x_getitem_Raise_inv.
Qed.

Lemma faculty_unavailable_Raise_inv (d : Data) (u : gmap string (list Z)) (e : PyErr) :
  faculty_unavailable d u = Raise e → e = KeyError.
Proof.
  unfold faculty_unavailable. intros H.
  apply for_each_Raise_inv in H as (c & Hc & H). apply elem_of_indices in Hc.
  destruct (faculty_of d c) as [f|e'] eqn:E; simpl in H.
  - destruct (u !! f) as [ts|]; [|discriminate].
    apply for_each_Raise_inv in H as (t & _ & H).
    apply for_each_Raise_inv in H as (r & _ & H).
    destruct (x_getitem d c t r) as [v|e'] eqn:E'; simpl in H; [discriminate|].
    injection H as <-. by eapply x_getitem_Raise_inv.
  - injection H as <-. by eapply faculty_of_Raise.
Qed.

Lemma faculty_unavailable_out_of_range (d : Data) (u : gmap string (list Z))
    (c : nat) (f : string) (ts : list Z) (t : Z) :
  teaches d f c → u !! f = Some ts → t ∈ ts →
  ¬ (0 ≤ t < Z.of_nat (total_slots d))%Z → 0 < length (rooms d) →
  faculty_unavailable d u = Raise KeyError.
Proof.
  intros Hc Hu Ht Hout Hr.
  destruct (faculty_unavailable d u) as [cs|e] eqn:E.
  - exfalso.
    destruct (unavailable_constraint_in d u cs c 0 f ts t E Hc Hu Ht Hr) as (v & Hv & _).
    rewrite x_getitem_out_of_range in Hv by done. discriminate.
  - f_equal. by eapply faculty_unavailable_Raise_inv.
Qed.

(** X11. In the second and third script an unavailability slot outside
    [0, days * slots_per_day), listed for a faculty member who teaches some
    course, stops model construction with a [KeyError] (the failed lookup in
    the dict [x]) as soon as there is a room. *)
Theorem out_of_range_unavailability_KeyError (d : Data) (u : gmap string (list Z))
    (c : nat) (f : string) (ts : list Z) (t : Z) :
  teaches d f c → u !! f = Some ts → t ∈ ts →
  ¬ (0 ≤ t < Z.of_nat (total_slots d))%Z → 0 < length (rooms d) →
  build2 d u = Raise KeyError ∧ ∀ q, build3 d u q = Raise KeyError.
Proof.
  intros Hc Hu Ht Hout Hr.
  pose proof (faculty_unavailable_out_of_range d u c f ts t Hc Hu Ht Hout Hr) as Hun.
  unfold build2, build3.
  destruct (faculty_one_place d) as [cs|e] eqn:E; simpl.
  - rewrite Hun. done.
  - apply faculty_one_place_Raise_inv in E as ->. done.
Qed.

Lemma out_of_range_unavailability_KeyError_witness :
  build2 pigeon_data out_of_range_unavailability = Raise KeyError.
Proof.
  apply (out_of_range_unavailability_KeyError pigeon_data out_of_range_unavailability
           0 "Dr.A" [7%Z] 7%Z).
  - exists "AI". split; [reflexivity|vm_compute; reflexivity].
  - vm_compute. reflexivity.
  - left.
  - vm_compute. intros [_ H]. discriminate.
  - vm_compute. lia.
Defined.

Lemma build1_double_booking_is_Ok (d : Data) :
  (∀ cname, cname ∈ courses d → is_Some (faculty d !! cname)) →
  ∃ cs, for_each (course_indices d) (λ i,
          for_each (course_indices d) (λ j,
            if i <? j then
              fi ← faculty_of d i; fj ← faculty_of d j;
              if decide (fi = fj)
              then Ok [Add (LinNe (IntV (course_time i)) (IntV (course_time j))) []]
              else Ok []
            else Ok [])) = Ok cs.
Proof.
  intros Hf. apply for_each_is_Ok.
  intros i Hi. apply elem_of_indices in Hi. apply for_each_is_Ok.
  intros j Hj. apply elem_of_indices in Hj.
  destruct (i <? j); [|eauto].
  destruct (faculty_of_is_Ok d i Hf Hi) as (fi & ->).
  destruct (faculty_of_is_Ok d j Hf Hj) as (fj & ->). simpl.
  destruct (decide (fi = fj)); eauto.
Qed.

(** X12. The first script, in contrast, accepts unavailable slots that lie
    outside the week: its model is built for any table of 64-bit slot
    numbers whenever every course has a faculty entry and every conflict pair
    names declared courses. *)
Theorem first_script_accepts_out_of_week_slots (d : Data) (u : gmap string (list Z)) :
  (∀ cname, cname ∈ courses d → is_Some (faculty d !! cname)) →
  (∀ a b, (a, b) ∈ shared_students d → a ∈ courses d ∧ b ∈ courses d) →
  (∀ f ts t, u !! f = Some ts → t ∈ ts → in_int64 t) →
  ∃ m, build1 d u = Ok m.
Proof.
  intros Hf Hsh Hint. unfold build1.
  destruct (build1_double_booking_is_Ok d Hf) as (c2 & ->). simpl.
  match goal with |- ∃ m, (for_each ?l ?body ≫= _) = _ =>
    destruct (for_each_is_Ok l body) as (c3 & ->) end.
  { intros i Hi. apply elem_of_indices in Hi.
    destruct (faculty_of_is_Ok d i Hf Hi) as (fi & ->). simpl.
    destruct (u !! fi) as [ts|] eqn:Hu; [|eauto].
    apply for_each_is_Ok. intros t Ht.
    rewrite int64_const_in_range by eauto. simpl. eauto. }
  simpl.
  match goal with |- ∃ m, (for_each ?l ?body ≫= _) = _ =>
    destruct (for_each_is_Ok l body) as (c4 & ->) end.
  { intros [a b] Hab. destruct (Hsh a b Hab) as [Ha Hb]. simpl.
    destruct (index_is_Ok _ _ Ha) as (i & ->). destruct (index_is_Ok _ _ Hb) as (j & ->).
    simpl. eauto. }
  simpl. eauto.
Qed.

Lemma first_script_accepts_out_of_week_slots_witness :
  ∃ m, build1 pigeon_data out_of_range_unavailability = Ok m.
Proof.
  apply (first_script_accepts_out_of_week_slots pigeon_data out_of_range_unavailability).
  - intros cname Hin. simpl in Hin.
    repeat (apply elem_of_cons in Hin as [->|Hin]; [vm_compute; eauto|]).
    inversion Hin.
  - intros a b Hin. inversion Hin.
  - intros f ts t Hu Ht.
    assert (Hts : ∀ f, out_of_range_unavailability !! f = Some ts → ts = [7%Z]).
    { intros f' H. unfold out_of_range_unavailability in H.
      destruct (decide (f' = "Dr.A")) as [->|Hne].
      - vm_compute in H. by injection H as <-.
      - simpl in H. rewrite lookup_insert_ne in H by done.
        by rewrite lookup_empty in H. }
    rewrite (Hts f Hu) in Ht. apply list_elem_of_singleton in Ht as ->.
    split; vm_compute; discriminate.
Defined.

(** X25. An unavailable slot outside the 64-bit integers, listed for a
    faculty member who teaches a course, stops the construction of the first
    script's model with a [TypeError], once every course has a faculty
    entry. *)
Theorem slot_outside_int64_TypeError (d : Data) (u : gmap string (list Z)) (c : nat)
    (f : string) (ts : list Z) (t : Z) :
  (∀ cname, cname ∈ courses d → is_Some (faculty d !! cname)) →
  teaches d f c → u !! f = Some ts → t ∈ ts → ¬ in_int64 t →
  build1 d u = Raise TypeError.
Proof.
  intros Hf Hc Hu Ht Hout. unfold build1.
  destruct (build1_double_booking_is_Ok d Hf) as (c2 & ->). simpl.
  rewrite (for_each_Raise _ _ c TypeError); [done| | |].
  - apply elem_of_indices. by eapply teaches_lt.
  - apply faculty_of_Ok in Hc. rewrite Hc. simpl. rewrite Hu.
    apply (for_each_Raise _ _ t TypeError); [done| |].
    + unfold int64_const. by rewrite decide_False.
    + intros t' e' _ H. destruct (int64_const t') as [b|e''] eqn:E; simpl in H;
        [discriminate|]. injection H as <-. by eapply int64_const_Raise.
  - intros i e' Hi H. apply elem_of_indices in Hi.
    destruct (faculty_of_is_Ok d i Hf Hi) as (fi & Hfi). rewrite Hfi in H. simpl in H.
    destruct (u !! fi) as [ts'|]; [|discriminate].
    apply for_each_Raise_inv in H as (t' & _ & H).
    destruct (int64_const t') as [b|e''] eqn:E; simpl in H; [discriminate|].
    injection H as <-. by eapply int64_const_Raise.
Qed.

Lemma slot_outside_int64_TypeError_witness :
  build1 pigeon_data huge_unavailability = Raise TypeError.
Proof.
  apply (slot_outside_int64_TypeError pigeon_data huge_unavailability 0 "Dr.A"
           [(2 ^ 64)%Z] (2 ^ 64)%Z).
  - intros cname Hin. simpl in Hin.
    repeat (apply elem_of_cons in Hin as [->|Hin]; [vm_compute; eauto|]).
    inversion Hin.
  - exists "AI". split; [reflexivity|vm_compute; reflexivity].
  - vm_compute. reflexivity.
  - left.
  - intros [_ H]. vm_compute in H. by apply H.
Defined.

(** ** Whether a script can raise after the solve *)

Lemma teaches_all_faculty_defined (d : Data) :
  (∀ c, c < length (courses d) → ∃ f, teaches d f c) →
  ∀ cname, cname ∈ courses d → is_Some (faculty d !! cname).
Proof.
  intros Hall cname Hin. apply list_elem_of_lookup in Hin as (c & Hc).
  destruct (Hall c) as (f & cname' & Hc' & Hf); [by apply lookup_lt_Some in Hc|].
  rewrite Hc in Hc'. injection Hc' as <-. eauto.
Qed.

Lemma build3_faculty_defined (d : Data) (u : gmap string (list Z)) (q : gmap string Z)
    (m : CpModel) (c : nat) :
  build3 d u q = Ok m → c < length (courses d) → ∃ f, teaches d f c.
Proof.
  intros Hb Hc. apply build3_inv in Hb as (_ & (cs & Hcs & _) & _).
  unfold faculty_unavailable in Hcs.
  destruct (for_each_Ok_elem _ _ _ c Hcs) as (cs1 & H1 & _); [by apply elem_of_indices|].
  apply bind_Ok in H1 as (f & Hf & _). exists f. by apply faculty_of_Ok.
Qed.

Lemma decode2_is_Ok (d : Data) (s : Solution) :
  (∀ c, c < length (courses d) → ∃ f, teaches d f c) →
  ∃ table, decode2 d s = Ok table.
Proof.
  intros Hall.
  destruct (step2_fold_is_Ok d s
              (tc ← (t ← time_slots d; c ← course_indices d; [(t, c)]);
               r ← room_indices d; [(tc, r)]) ∅) as (tt & Htt).
  { intros t c r Hin. apply elem_of_triples in Hin as (_ & Hc & Hr).
    apply elem_of_indices in Hc, Hr. destruct (Hall c Hc) as (f & Hf).
    by eapply entry_teaches_is_Ok. }
  unfold decode2. rewrite fill_timetable2_flat, Htt. simpl. eauto.
Qed.

Lemma decode34_is_Ok (d : Data) (s : Solution) :
  (∀ cname, cname ∈ courses d → is_Some (faculty d !! cname)) →
  ∃ table, decode34 d s = Ok table.
Proof.
  intros Hf. destruct (fill_timetable34_Ok d s Hf) as (tt & Htt & Hshape & _).
  destruct (rows34_Ok d tt Hshape) as (rows & Hrows & _).
  unfold decode34. rewrite Htt. simpl. rewrite Hrows. simpl. eauto.
Qed.

(** X13. Once its model is built, the second script cannot raise any more,
    whatever the solver answers: the unavailability loop has already looked
    up the faculty of every course, which is all the decoder needs. *)
Theorem script2_cannot_raise_after_build (Solve : CpModel → CpSolverResponse)
    (d : Data) (u : gmap string (list Z)) (m : CpModel) :
  build2 d u = Ok m →
  ∃ out, script2 Solve d u = Ok out ∧
    (out = NoFeasibleTimetableFound ↔ feasible (status (Solve m)) = false).
Proof.
  intros Hb. unfold script2. rewrite Hb. simpl.
  destruct (feasible (status (Solve m))).
  - destruct (decode2_is_Ok d (solution (Solve m))) as (table & ->).
    { intros c Hc. by eapply build2_faculty_defined. }
    simpl. eexists. split; [done|]. split; discriminate.
  - eexists. split; [done|]. done.
Qed.

Lemma script2_cannot_raise_after_build_witness :
  ∃ out, script2 timed_out data12 unavailability12 = Ok out.
Proof.
  assert (Hm : ∃ m, build2 data12 unavailability12 = Ok m)
    by (eexists; vm_compute; reflexivity).
  destruct Hm as (m & Hm).
  destruct (script2_cannot_raise_after_build timed_out data12 unavailability12 m Hm)
    as (out & Hout & _).
  exists out. exact Hout.
Defined.

(** X14. The same holds for the third script. *)
Theorem script3_cannot_raise_after_build (Solve : CpModel → CpSolverResponse)
    (d : Data) (u : gmap string (list Z)) (q : gmap string Z) (m : CpModel) :
  build3 d u q = Ok m →
  ∃ out, script3 Solve d u q = Ok out ∧
    (out = NoFeasibleTimetableFound ↔ feasible (status (Solve m)) = false).
Proof.
  intros Hb. unfold script3. rewrite Hb. simpl.
  destruct (feasible (status (Solve m))).
  - destruct (decode34_is_Ok d (solution (Solve m))) as (table & ->).
    { apply teaches_all_faculty_defined. intros c Hc. by eapply build3_faculty_defined. }
    simpl. eexists. split; [done|]. split; discriminate.
  - eexists. split; [done|]. done.
Qed.

Lemma script3_cannot_raise_after_build_witness :
  ∃ out, script3 timed_out data34 unavailability3 course_min_lectures34 = Ok out.
Proof.
  assert (Hm : ∃ m, build3 data34 unavailability3 course_min_lectures34 = Ok m)
    by (eexists; vm_compute; reflexivity).
  destruct Hm as (m & Hm).
  destruct (script3_cannot_raise_after_build timed_out data34 unavailability3
              course_min_lectures34 m Hm) as (out & Hout & _).
  exists out. exact Hout.
Defined.

Lemma foldM_Raise {A S} (body : S → A → result S) (s : S) (l : list A) (e : PyErr) :
  (∀ a s, a ∈ l → body s a = Ok s ∨ body s a = Raise e) →
  (∃ a, a ∈ l ∧ ∀ s, body s a = Raise e) →
  foldM body s l = Raise e.
Proof.
  revert s; induction l as [|a l IH]; intros s Hall (a0 & Ha0 & Hraise);
    [inversion Ha0|]. simpl.
  destruct (Hall a s ltac:(left)) as [E|E]; rewrite E; simpl; [|done].
  apply elem_of_cons in Ha0 as [->|Ha0].
  - rewrite Hraise in E. discriminate.
  - apply IH; [|eauto]. intros a' s' Ha'. apply Hall. by right.
Qed.

Lemma faculty_values_empty (d : Data) : faculty d = ∅ → faculty_values d = [].
Proof.
  intros E. unfold faculty_values. rewrite E.
  apply elements_empty_iff. apply map_img_empty.
Qed.

Lemma entry_no_faculty (d : Data) (c r : nat) :
  faculty d = ∅ → c < length (courses d) → entry d c r = Raise KeyError.
Proof.
  intros E Hc. unfold entry, list_getitem, getitem.
  destruct (lookup_lt_is_Some_2 (courses d) c Hc) as (cname & ->). simpl.
  rewrite E, lookup_empty. done.
Qed.

(** X15. The fourth script looks up the faculty of a course only inside its loop
    over the faculty table, so with an empty faculty table (and quotas that
    are declared and fit in 64 bits) the model is built all the same; the
    missing entries then surface as a [KeyError] in the decoder, after a
    successful solve that scheduled a lecture. *)
Theorem fourth_script_late_KeyError (Solve : CpModel → CpSolverResponse) (d : Data)
    (q : gmap string Z) :
  faculty d = ∅ →
  (∀ cname, cname ∈ courses d → is_Some (q !! cname)) →
  (∀ cname k, cname ∈ courses d → q !! cname = Some k → in_int64 k) →
  (∀ a b, (a, b) ∈ shared_students d → a ∈ courses d ∧ b ∈ courses d) →
  ∃ m, build4 d q = Ok m ∧
    (feasible (status (Solve m)) = true →
     (∃ c t r, c < length (courses d) ∧ t < total_slots d ∧ r < length (rooms d) ∧
               BooleanValue (solution (Solve m)) (X c t r) = true) →
     script4 Solve d q = Raise KeyError).
Proof.
  intros Hempty Hq Hint Hsh.
  assert (Hb : ∃ m, build4 d q = Ok m).
  { unfold build4.
    destruct (for_each_is_Ok (time_slots d)
      (λ t, for_each (faculty_values d) (λ f,
         relevant ← relevant_courses d f;
         Ok [AddAtMostOne (c ← relevant; r ← room_indices d; [X c t r])])))
      as (c3 & Hc3).
    { intros t _. rewrite (faculty_values_empty d Hempty). simpl. eauto. }
    unfold faculty_one_place. rewrite Hc3. simpl.
    destruct (shared_students_is_Ok d Hsh) as (c4 & ->). simpl.
    destruct (min_lectures_is_Ok d q Hq Hint) as (c5 & ->). simpl. eauto. }
  destruct Hb as (m & Hb). exists m. split; [done|].
  intros Hfeas (c & t & r & Hc & Ht & Hr & Hx).
  unfold script4. rewrite Hb. simpl. rewrite Hfeas.
  assert (Hdec : decode34 d (solution (Solve m)) = Raise KeyError).
  { unfold decode34. rewrite fill_timetable34_flat.
    rewrite (foldM_Raise _ _ _ KeyError); [done| |].
    - intros [[c' t'] r'] tt Hin. apply elem_of_triples in Hin as (Hc' & _ & _).
      apply elem_of_indices in Hc'. simpl.
      destruct (BooleanValue (solution (Solve m)) (X c' t' r')); [|by left].
      right. by rewrite entry_no_faculty.
    - exists (c, t, r). split.
      + apply elem_of_triples. unfold course_indices, time_slots, room_indices.
        by rewrite !elem_of_indices.
      + intros tt. simpl. rewrite Hx. by rewrite entry_no_faculty. }
  by rewrite Hdec.
Qed.

Lemma fourth_script_late_KeyError_witness :
  (∃ m, build4 no_faculty_data one_lecture_min = Ok m) ∧
  script4 found no_faculty_data one_lecture_min = Raise KeyError.
Proof.
  destruct (fourth_script_late_KeyError found no_faculty_data one_lecture_min)
    as (m & Hb & Hraise).
  - reflexivity.
  - intros cname Hin. apply list_elem_of_singleton in Hin as ->. vm_compute. eauto.
  - intros cname k Hin Hk. apply list_elem_of_singleton in Hin as ->.
    vm_compute in Hk. injection Hk as <-. split; vm_compute; discriminate.
  - intros a b Hin. inversion Hin.
  - split; [exists m; exact Hb|]. apply Hraise; [reflexivity|].
    exists 0, 0, 0. repeat split; vm_compute; lia || reflexivity.
Defined.

Lemma summary4_is_Ok (d : Data) (q : gmap string Z) (s : Solution) :
  (∀ cname, cname ∈ courses d → is_Some (q !! cname)) →
  ∃ summ, summary4 d q s = Ok summ.
Proof.
  intros Hq. unfold summary4.
  match goal with |- ∃ summ, (map_result ?f ?l ≫= _) = _ =>
    destruct (map_result_is_Ok f l) as (lines & ->) end.
  { intros c Hc. apply elem_of_indices in Hc.
    destruct (lookup_course_elem d c Hc) as (cname & Hl & Hin).
    destruct (Hq cname Hin) as (k & Hk).
    unfold list_getitem, getitem. rewrite Hl. simpl. rewrite Hk. simpl. eauto. }
  simpl. eauto.
Qed.

Lemma pigeon_lookups_defined : lookups_defined pigeon_data pigeon_min.
Proof.
  constructor.
  - intros cname Hin. simpl in Hin.
    repeat (apply elem_of_cons in Hin as [->|Hin]; [vm_compute; eauto|]).
    inversion Hin.
  - intros cname Hin. simpl in Hin.
    repeat (apply elem_of_cons in Hin as [->|Hin]; [vm_compute; eauto|]).
    inversion Hin.
  - intros cname k Hin Hk. simpl in Hin.
    repeat (apply elem_of_cons in Hin as [->|Hin];
            [vm_compute in Hk; injection Hk as <-; split; vm_compute; discriminate|]).
    inversion Hin.
  - intros a b Hin. inversion Hin.
Qed.

(** C2 (amended).  On data whose lookups are all defined the fourth script
    surfaces two outcomes only: when the solver's status is [OPTIMAL] or
    [FEASIBLE] it prints the decoded timetable and the summary, and for every
    other status it prints one and the same message, so that a time-out
    without a solution and a proven infeasibility give identical output. *)
Theorem two_outcomes_only (Solve : CpModel → CpSolverResponse) (d : Data)
    (q : gmap string Z) :
  lookups_defined d q →
  ∃ m, build4 d q = Ok m ∧
    (feasible (status (Solve m)) = true →
     ∃ table summ,
       decode34 d (solution (Solve m)) = Ok table ∧
       summary4 d q (solution (Solve m)) = Ok summ ∧
       script4 Solve d q = Ok (Report (table, summ))) ∧
    (feasible (status (Solve m)) = false →
     script4 Solve d q = Ok NoFeasibleTimetableFound) ∧
    (∀ Solve', status (Solve m) = UNKNOWN → status (Solve' m) = INFEASIBLE →
     script4 Solve d q = script4 Solve' d q).
Proof.
  intros Hld. destruct (build4_is_Ok d q Hld) as (m & Hb).
  exists m. split; [done|]. split; [|split].
  - intros Hfeas. destruct Hld as [Hf Hq _ _].
    destruct (decode34_is_Ok d (solution (Solve m)) Hf) as (table & Htable).
    destruct (summary4_is_Ok d q (solution (Solve m)) Hq) as (summ & Hsumm).
    exists table, summ. split; [done|]. split; [done|].
    unfold script4. rewrite Hb. simpl. rewrite Hfeas, Htable. simpl.
    by rewrite Hsumm.
  - by apply script4_not_feasible.
  - intros Solve' H1 H2.
    rewrite (script4_not_feasible Solve d q m Hb) by (by rewrite H1).
    rewrite (script4_not_feasible Solve' d q m Hb) by (by rewrite H2). done.
Qed.

Lemma two_outcomes_only_witness :
  (∃ table summ, script4 found overbooked_data one_lecture_min
                 = Ok (Report (table, summ))) ∧
  script4 timed_out pigeon_data pigeon_min = script4 exhausted pigeon_data pigeon_min.
Proof.
  split.
  - assert (Hld : lookups_defined overbooked_data one_lecture_min).
    { constructor.
      - intros cname Hin. apply list_elem_of_singleton in Hin as ->. vm_compute. eauto.
      - intros cname Hin. apply list_elem_of_singleton in Hin as ->. vm_compute. eauto.
      - intros cname k Hin Hk. apply list_elem_of_singleton in Hin as ->.
        vm_compute in Hk. injection Hk as <-. split; vm_compute; discriminate.
      - intros a b Hin. inversion Hin. }
    destruct (two_outcomes_only found overbooked_data one_lecture_min Hld)
      as (m & _ & Hrep & _).
    destruct (Hrep eq_refl) as (table & summ & _ & _ & Hout).
    exists table, summ. exact Hout.
  - destruct (two_outcomes_only timed_out pigeon_data pigeon_min pigeon_lookups_defined)
      as (m & _ & _ & _ & Heq).
    apply (Heq exhausted); reflexivity.
Defined.

(** X16. With every lookup defined and quotas that fit in 64 bits the fourth
    script does not raise, whatever the solver answers: it prints the table
    and the summary, or the message. *)
Theorem script4_cannot_raise (Solve : CpModel → CpSolverResponse) (d : Data)
    (q : gmap string Z) :
  lookups_defined d q →
  ∃ m out, build4 d q = Ok m ∧ script4 Solve d q = Ok out ∧
    (out = NoFeasibleTimetableFound ↔ feasible (status (Solve m)) = false).
Proof.
  intros Hld. destruct (build4_is_Ok d q Hld) as (m & Hb).
  destruct Hld as [Hf Hq _ Hsh]. exists m.
  unfold script4. rewrite Hb. simpl.
  destruct (feasible (status (Solve m))).
  - destruct (decode34_is_Ok d (solution (Solve m)) Hf) as (table & ->). simpl.
    destruct (summary4_is_Ok d q (solution (Solve m)) Hq) as (summ & ->). simpl.
    eexists. split; [done|]. split; [done|]. split; discriminate.
  - eexists. split; [done|]. split; [done|]. done.
Qed.

Lemma script4_cannot_raise_witness :
  ∃ m out, build4 overbooked_data overbooked_min = Ok m ∧
           script4 exhausted overbooked_data overbooked_min = Ok out.
Proof.
  destruct (script4_cannot_raise exhausted overbooked_data overbooked_min
              overbooked_lookups_defined) as (m & out & Hb & Hout & _).
  exists m, out. split; [exact Hb|exact Hout].
Defined.

(** ** What exactly a cell of the table lists *)

Lemma omap_row {A B C} (f : A * B → option C) (a : A) (l2 : list B) :
  omap f (b ← l2; [(a, b)]) = omap (λ b, f (a, b)) l2.
Proof.
  induction l2 as [|b l2 IH]; [done|].
  csimpl. rewrite IH. done.
Qed.

Lemma omap_pairs {A B C} (f : A * B → option C) (l1 : list A) (l2 : list B) :
  omap f (a ← l1; b ← l2; [(a, b)]) = (a ← l1; omap (λ b, f (a, b)) l2).
Proof.
  induction l1 as [|a l1 IH]; [done|].
  csimpl. rewrite omap_app, omap_row, IH. done.
Qed.

Lemma bind_pairs {A B C} (g : A * B → list C) (l1 : list A) (l2 : list B) :
  ((a ← l1; b ← l2; [(a, b)]) ≫= g) = (a ← l1; b ← l2; g (a, b)).
Proof.
  induction l1 as [|a l1 IH]; [done|].
  change (a ← (a :: l1); b ← l2; [(a, b)])
    with ((b ← l2; [(a, b)]) ++ (a ← l1; b ← l2; [(a, b)])).
  rewrite bind_app, IH. rewrite (bind_cons _ a l1). f_equal.
  clear. induction l2 as [|b l2 IH]; [done|].
  change (b ← (b :: l2); [(a, b)]) with ((a, b) :: (b ← l2; [(a, b)])).
  rewrite !bind_cons, IH. done.
Qed.

Lemma bind_in_ext {A B} (f g : A → list B) (l : list A) :
  (∀ a, a ∈ l → f a = g a) → l ≫= f = l ≫= g.
Proof.
  induction l as [|a l IH]; intros Hext; [done|].
  rewrite !bind_cons, Hext by left. f_equal. apply IH. intros a' Ha'. apply Hext. by right.
Qed.

Lemma bind_all_nil {A B} (f : A → list B) (l : list A) :
  (∀ a, a ∈ l → f a = []) → l ≫= f = [].
Proof.
  induction l as [|a l IH]; intros Hnil; [done|].
  rewrite bind_cons, Hnil by left. simpl. apply IH. intros a' Ha'. apply Hnil. by right.
Qed.

Lemma bind_select {A B} (h : A → list B) (l : list A) (a0 : A) :
  NoDup l → a0 ∈ l → (∀ a, a ∈ l → a ≠ a0 → h a = []) → l ≫= h = h a0.
Proof.
  induction 1 as [|a l Hnotin Hnd IH]; intros Hin Hnil; [inversion Hin|].
  rewrite bind_cons. apply elem_of_cons in Hin as [->|Hin].
  - rewrite bind_all_nil; [by rewrite app_nil_r|].
    intros a' Ha'. apply Hnil; [by right|]. intros ->. contradiction.
  - rewrite Hnil; [|left|by intros ->]. simpl. apply IH; [done|].
    intros a' Ha'. apply Hnil. by right.
Qed.

Lemma omap_all_None {A B} (f : A → option B) (l : list A) :
  (∀ a, a ∈ l → f a = None) → omap f l = [].
Proof.
  induction l as [|a l IH]; intros Hn; [done|]. csimpl.
  rewrite Hn by left. apply IH. intros a' Ha'. apply Hn. by right.
Qed.

Lemma omap_in_ext {A B} (f g : A → option B) (l : list A) :
  (∀ a, a ∈ l → f a = g a) → omap f l = omap g l.
Proof.
  induction l as [|a l IH]; intros Hext; [done|]. csimpl.
  rewrite Hext by left. rewrite IH; [done|]. intros a' Ha'. apply Hext. by right.
Qed.

Lemma omap_length_filter {A B} (f : A → option B) (P : A → Prop)
    `{∀ a, Decision (P a)} (l : list A) :
  (∀ a, a ∈ l → (P a → is_Some (f a)) ∧ (¬ P a → f a = None)) →
  length (omap f l) = length (filter P l).
Proof.
  induction l as [|a l IH]; intros Hf; [done|]. csimpl. rewrite filter_cons.
  destruct (Hf a ltac:(left)) as [H1 H2].
  assert (IH' : length (omap f l) = length (filter P l)).
  { apply IH. intros a' Ha'. apply Hf. by right. }
  destruct (decide (P a)) as [HP|HP].
  - destruct (H1 HP) as (b & ->). simpl. by rewrite IH'.
  - rewrite (H2 HP). done.
Qed.

Lemma step34_fold_exact (d : Data) (s : Solution) (l : list (nat * nat * nat))
    (tt0 tt : list (list (list string))) :
  grid_shape d tt0 → foldM (step34 d s) tt0 l = Ok tt →
  ∀ day period,
    cell_at tt day period = cell_at tt0 day period ++ omap (sel34 d s day period) l.
Proof.
  revert tt0; induction l as [|[[c t] r] l IH]; intros tt0 Hshape H day period.
  - injection H as <-. simpl. by rewrite app_nil_r.
  - simpl in H. apply bind_Ok in H as (tt1 & Hstep & Hrest). simpl.
    destruct (BooleanValue s (X c t r)) eqn:Hx.
    + apply bind_Ok in Hstep as (e0 & He0 & Happ).
      destruct (append_entry_Ok d _ _ _ _ _ Hshape Happ) as [Hshape1 Hcell].
      rewrite (IH tt1 Hshape1 Hrest day period), Hcell, He0. simpl.
      destruct (decide (Nat.div t (slots_per_day d) = day
                        ∧ Nat.modulo t (slots_per_day d) = period)) as [[<- <-]|Hne].
      * rewrite decide_True by done. by rewrite <- app_assoc.
      * rewrite decide_False; [done|]. intros [-> ->]. by apply Hne.
    + injection Hstep as <-. by apply IH.
Qed.

Lemma step34_fold_entries (d : Data) (s : Solution) (l : list (nat * nat * nat))
    (tt0 tt : list (list (list string))) (c t r : nat) :
  foldM (step34 d s) tt0 l = Ok tt → (c, t, r) ∈ l →
  BooleanValue s (X c t r) = true → ∃ e, entry d c r = Ok e.
Proof.
  revert tt0; induction l as [|[[c' t'] r'] l IH]; intros tt0 H Hin Hx; [inversion Hin|].
  simpl in H. apply bind_Ok in H as (tt1 & Hstep & Hrest).
  apply elem_of_cons in Hin as [[= <- <- <-]|Hin]; [|by eapply IH].
  rewrite Hx in Hstep. apply bind_Ok in Hstep as (e & He & _). eauto.
Qed.

Lemma slot_determined (d : Data) (t t' : nat) :
  t < total_slots d →
  Nat.div t' (slots_per_day d) = Nat.div t (slots_per_day d) →
  Nat.modulo t' (slots_per_day d) = Nat.modulo t (slots_per_day d) → t' = t.
Proof.
  intros Ht Hd Hm.
  pose proof (Nat.div_mod_eq t (slots_per_day d)).
  pose proof (Nat.div_mod_eq t' (slots_per_day d)). rewrite Hd, Hm in *. lia.
Qed.

Lemma omap_sel34_slot (d : Data) (s : Solution) (t : nat) :
  t < total_slots d →
  omap (sel34 d s (Nat.div t (slots_per_day d)) (Nat.modulo t (slots_per_day d)))
    (ct ← (c ← course_indices d; t ← time_slots d; [(c, t)]);
     r ← room_indices d; [(ct, r)])
  = slot_entries d s t.
Proof.
  intros Ht. unfold slot_entries. rewrite !omap_pairs, bind_pairs.
  apply bind_in_ext. intros c _.
  rewrite (bind_select _ (time_slots d) t).
  - apply omap_in_ext. intros r _. simpl.
    destruct (BooleanValue s (X c t r)); [|done]. by rewrite decide_True.
  - apply NoDup_seq.
  - by apply elem_of_indices.
  - intros t' _ Hne. apply omap_all_None. intros r _. simpl.
    destruct (BooleanValue s (X c t' r)); [|done].
    rewrite decide_False; [done|]. intros [Hd Hm]. apply Hne.
    by eapply slot_determined.
Qed.

Lemma map_result_length {A B} (f : A → result B) (l : list A) (l' : list B) :
  map_result f l = Ok l' → length l' = length l.
Proof.
  revert l'; induction l as [|a l IH]; intros l' H; simpl in H.
  - by injection H as <-.
  - apply bind_Ok in H as (b & _ & H). apply bind_Ok in H as (rest & Hrest & [= <-]).
    simpl. by rewrite (IH _ Hrest).
Qed.

Lemma map_result_Ok_elem {A B} (f : A → result B) (l : list A) (l' : list B) (b : B) :
  map_result f l = Ok l' → b ∈ l' → ∃ a, a ∈ l ∧ f a = Ok b.
Proof.
  revert l'; induction l as [|a l IH]; intros l' H Hb; simpl in H.
  - injection H as <-. inversion Hb.
  - apply bind_Ok in H as (b0 & Hb0 & H). apply bind_Ok in H as (rest & Hrest & [= <-]).
    apply elem_of_cons in Hb as [->|Hb].
    + exists a. split; [left|done].
    + destruct (IH _ Hrest Hb) as (a' & Ha' & Hf). exists a'. split; [by right|done].
Qed.

Lemma decode34_Ok_inv (d : Data) (s : Solution) (table : Table) :
  decode34 d s = Ok table →
  ∃ tt, fill_timetable34 d s = Ok tt ∧ grid_shape d tt ∧
        rows34 d tt = Ok (table_data table) ∧
        headers table = "Day/Period"
                        :: ((λ p, "P" +:+ pretty p) <$> seq 1 (slots_per_day d)).
Proof.
  unfold decode34. intros H.
  apply bind_Ok in H as (tt & Htt & H). apply bind_Ok in H as (rows & Hrows & [= <-]).
  exists tt. split; [done|]. split; [|done].
  rewrite fill_timetable34_flat in Htt.
  by destruct (step34_fold_inv d s _ _ _ (grid_shape_initial d) Htt).
Qed.

(** X17. In the table of the third and fourth script the cell of slot [t] lists
    the entries of the true cells of that slot, once each, ordered by course
    and then by room: it has as many entries as the slot has lectures. *)
Theorem cell_lists_slot_entries (d : Data) (s : Solution) (table : Table) (t : nat) :
  decode34 d s = Ok table → t < total_slots d →
  ∃ row, table_data table !! Nat.div t (slots_per_day d) = Some row ∧
    row !! (Nat.modulo t (slots_per_day d) + 1) = Some (cell_text (slot_entries d s t)) ∧
    length (slot_entries d s t) = lectures_in_slot d s t.
Proof.
  intros Hdec Ht.
  destruct (decode34_Ok_inv d s table Hdec) as (tt & Htt & Hshape & Hrows & _).
  destruct (rows34_Ok d tt Hshape) as (rows & Hrows' & Hlook).
  rewrite Hrows in Hrows'. injection Hrows' as <-.
  destruct (slot_day_period d t Ht) as [Hday Hper].
  destruct (Hlook _ Hday) as (row & Hrow & _ & Hcells).
  exists row. split; [done|].
  rewrite fill_timetable34_flat in Htt.
  pose proof (step34_fold_exact d s _ _ _ (grid_shape_initial d) Htt
                (Nat.div t (slots_per_day d)) (Nat.modulo t (slots_per_day d))) as Hcell.
  rewrite cell_at_initial, omap_sel34_slot in Hcell by done. simpl in Hcell.
  rewrite (Hcells _ Hper), Hcell. split; [done|].
  unfold slot_entries, lectures_in_slot. apply omap_length_filter.
  intros [c r] Hin. apply elem_of_pairs in Hin as [Hc Hr]. simpl. split.
  - intros Hx. rewrite Hx.
    destruct (step34_fold_entries d s _ _ _ c t r Htt) as (e & ->); [|done|by eexists].
    apply elem_of_triples. split; [done|]. split; [by apply elem_of_indices|done].
  - intros Hx. by destruct (BooleanValue s (X c t r)).
Qed.

Lemma cell_lists_slot_entries_witness :
  ∃ table row, decode34 data34 sample34 = Ok table ∧
    table_data table !! Nat.div 12 (slots_per_day data34) = Some row ∧
    row !! (Nat.modulo 12 (slots_per_day data34) + 1)
      = Some (cell_text (slot_entries data34 sample34 12)).
Proof.
  assert (Hd : ∃ table, decode34 data34 sample34 = Ok table)
    by (eexists; vm_compute; reflexivity).
  destruct Hd as (table & Hd).
  assert (Ht : 12 < total_slots data34) by (vm_compute; lia).
  destruct (cell_lists_slot_entries data34 sample34 table 12 Hd Ht) as (row & H1 & H2 & _).
  exists table, row. split; [exact Hd|]. split; [exact H1|exact H2].
Defined.

(** X18. The table of the third and fourth script is rectangular: one row per
    day, and the header and every row have one label column followed by
    [slots_per_day] cells. *)
Theorem table34_shape (d : Data) (s : Solution) (table : Table) :
  decode34 d s = Ok table →
  length (table_data table) = days d ∧
  length (headers table) = S (slots_per_day d) ∧
  ∀ row, row ∈ table_data table → length row = length (headers table).
Proof.
  intros Hdec.
  destruct (decode34_Ok_inv d s table Hdec) as (tt & _ & _ & Hrows & Hhead).
  assert (Hlen : length (headers table) = S (slots_per_day d)).
  { rewrite Hhead. simpl. by rewrite length_fmap, length_seq. }
  split; [|split; [done|]].
  - unfold rows34 in Hrows. apply map_result_length in Hrows. by rewrite length_seq in Hrows.
  - intros row Hrow. unfold rows34 in Hrows.
    destruct (map_result_Ok_elem _ _ _ row Hrows Hrow) as (day & _ & Hday).
    apply bind_Ok in Hday as (cells & Hcells & [= <-]).
    apply map_result_length in Hcells. rewrite length_seq in Hcells.
    simpl. by rewrite Hcells, Hlen.
Qed.

Lemma table34_shape_witness :
  ∃ table, decode34 data34 sample34 = Ok table ∧ length (table_data table) = days data34.
Proof.
  assert (Hd : ∃ table, decode34 data34 sample34 = Ok table)
    by (eexists; vm_compute; reflexivity).
  destruct Hd as (table & Hd). exists table. split; [exact Hd|].
  exact (proj1 (table34_shape data34 sample34 table Hd)).
Defined.

(** X19. The table of the second script has one row per day of
    [slots_per_day] cells after the label, but its header always has the
    eight period columns P1..P8: header and rows line up only when
    [slots_per_day] is 8. *)
Theorem table2_header_fixed (d : Data) (s : Solution) (table : Table) :
  decode2 d s = Ok table →
  length (headers table) = 9 ∧
  length (table_data table) = days d ∧
  ∀ row, row ∈ table_data table →
    length row = S (slots_per_day d) ∧
    (length row = length (headers table) ↔ slots_per_day d = 8).
Proof.
  unfold decode2. intros H. apply bind_Ok in H as (tt & _ & [= <-]). simpl.
  split; [done|]. unfold rows2. split; [by rewrite length_fmap, length_seq|].
  intros row Hrow. apply list_elem_of_fmap in Hrow as (day & -> & _). simpl.
  rewrite length_fmap, length_seq. split; [done|]. lia.
Qed.

Lemma table2_header_fixed_witness :
  ∃ table, decode2 data12 sample2 = Ok table ∧ length (headers table) = 9.
Proof.
  assert (Hd : ∃ table, decode2 data12 sample2 = Ok table)
    by (eexists; vm_compute; reflexivity).
  destruct Hd as (table & Hd). exists table. split; [exact Hd|].
  exact (proj1 (table2_header_fixed data12 sample2 table Hd)).
Defined.

(** ** The cells of the CSV export *)

Lemma string_app_cons (ch : ascii) (a b : string) :
  String ch a +:+ b = String ch (a +:+ b).
Proof. reflexivity. Qed.

Lemma string_app_assoc (a b c : string) : a +:+ (b +:+ c) = (a +:+ b) +:+ c.
Proof.
  induction a as [|ch a IH]; [done|]. by rewrite !string_app_cons, IH.
Qed.

Lemma replace_char_app (old : ascii) (new a b : string) :
  replace_char old new (a +:+ b) = replace_char old new a +:+ replace_char old new b.
Proof.
  induction a as [|ch a IH]; [done|]. rewrite string_app_cons. simpl.
  destruct (decide (ch = old)); rewrite IH.
  - apply string_app_assoc.
  - by rewrite string_app_cons.
Qed.

Lemma replace_char_absent (old : ascii) (new s : string) :
  contains_char old s = false → replace_char old new s = s.
Proof.
  induction s as [|ch s IH]; simpl; [done|]. intros H.
  apply orb_false_iff in H as [H1 H2]. apply bool_decide_eq_false in H1.
  rewrite decide_False by done. by rewrite IH.
Qed.

Lemma csv_cell_replace (cell : string) :
  csv_cell cell = replace_char "010"%char "; " cell.
Proof.
  unfold csv_cell. destruct (contains_char "010"%char cell) eqn:E; [done|].
  by rewrite replace_char_absent.
Qed.

Lemma replace_char_concat (es : list string) :
  (∀ e, e ∈ es → contains_char "010"%char e = false) →
  replace_char "010"%char "; " (String.concat newline es) = String.concat "; " es.
Proof.
  induction es as [|e es IH]; intros Hno; [done|]. simpl.
  assert (He : replace_char "010"%char "; " e = e).
  { apply replace_char_absent, Hno. left. }
  destruct es as [|e' es]; [done|].
  rewrite !replace_char_app, He, IH; [done|]. intros e'' Hin. apply Hno. by right.
Qed.

(** X20. When a cell is written to the CSV file, the entries that the table shows
    one per line are joined by "; " instead (as long as no name contains a
    line break), and a free cell stays "Free". *)
Theorem csv_cell_joins_entries (entries : list string) :
  (∀ e, e ∈ entries → contains_char "010"%char e = false) →
  csv_cell (cell_text entries)
  = match entries with [] => "Free" | _ => String.concat "; " entries end.
Proof.
  intros Hno. rewrite csv_cell_replace. destruct entries as [|e es]; [done|].
  unfold cell_text. by apply replace_char_concat.
Qed.

Lemma csv_cell_joins_entries_witness :
  csv_cell (cell_text ["AI (Dr.A, R1)"; "ML (Dr.B, R2)"])
  = "AI (Dr.A, R1); ML (Dr.B, R2)".
Proof.
  apply (csv_cell_joins_entries ["AI (Dr.A, R1)"; "ML (Dr.B, R2)"]).
  intros e Hin.
  repeat (apply elem_of_cons in Hin as [->|Hin]; [vm_compute; reflexivity|]).
  inversion Hin.
Defined.

(** ** The summary of the fourth script *)

Lemma length_pairs {A B} (l1 : list A) (l2 : list B) :
  length (a ← l1; b ← l2; [(a, b)]) = length l1 * length l2.
Proof.
  induction l1 as [|a l1 IH]; [done|]. csimpl. rewrite length_app, IH. f_equal.
  clear. induction l2 as [|b l2 IH]; [done|]. csimpl. by rewrite IH.
Qed.

Lemma sum_counts_cons {A B} (P : A → B → Prop) `{∀ a b, Decision (P a b)}
    (cs : list A) (b : B) (bs : list B) :
  sum_list_with (λ a, length (filter (P a) (b :: bs))) cs
  = length (filter (λ a, P a b) cs) + sum_list_with (λ a, length (filter (P a) bs)) cs.
Proof.
  induction cs as [|a cs IH]; [done|]. simpl. rewrite IH, !filter_cons.
  destruct (decide (P a b)); simpl; lia.
Qed.

Lemma sum_counts_le {A B} (P : A → B → Prop) `{∀ a b, Decision (P a b)}
    (cs : list A) (bs : list B) :
  (∀ b, b ∈ bs → length (filter (λ a, P a b) cs) ≤ 1) →
  sum_list_with (λ a, length (filter (P a) bs)) cs ≤ length bs.
Proof.
  induction bs as [|b bs IH]; intros Hone.
  - clear Hone. induction cs as [|a cs IHcs]; [done|]. simpl. exact IHcs.
  - rewrite sum_counts_cons. simpl.
    pose proof (Hone b ltac:(left)).
    assert (sum_list_with (λ a, length (filter (P a) bs)) cs ≤ length bs).
    { apply IH. intros b' Hb'. apply Hone. by right. }
    lia.
Qed.

Lemma count_true_lectures (d : Data) (q : gmap string Z) (s : Solution) (c : nat) :
  count_true s (t ← time_slots d; r ← room_indices d; [X c t r])
  = lectures_scheduled (Script4 d q) s c.
Proof.
  unfold lectures_scheduled. simpl.
  by rewrite (bind_pair_fmap (λ t r, X c t r)), count_true_fmap.
Qed.

Lemma summary_lines_sum (d : Data) (q : gmap string Z) (s : Solution) (cs : list nat)
    (lines : list (string * nat * Z)) :
  map_result (λ c,
      course_name ← list_getitem (courses d) c;
      let lectures := count_true s (t ← time_slots d; r ← room_indices d; [X c t r]) in
      min_lectures ← getitem q course_name;
      Ok (course_name, lectures, min_lectures)) cs = Ok lines →
  foldr (λ l acc, l.1.2 + acc) 0 lines
  = sum_list_with (λ c, lectures_scheduled (Script4 d q) s c) cs.
Proof.
  revert lines; induction cs as [|c cs IH]; intros lines H; simpl in H.
  - by injection H as <-.
  - apply bind_Ok in H as (l & Hl & H). apply bind_Ok in H as (rest & Hrest & [= <-]).
    apply bind_Ok in Hl as (cname & _ & Hl). apply bind_Ok in Hl as (k & _ & [= <-]).
    simpl. rewrite (IH _ Hrest), (count_true_lectures d q). done.
Qed.

(** X21. After a successful solve the summary of the fourth script is produced
    without raising.  It has one line per course, giving the course name, the
    number of lectures scheduled and the declared minimum, with the number at
    least the minimum; and the total number of lectures does not exceed the
    number of room-slots it is printed against. *)
Theorem summary_within_capacity (d : Data) (q : gmap string Z) (s : Solution) :
  Solved (Script4 d q) s →
  ∃ summ, summary4 d q s = Ok summ ∧
    length (per_course summ) = length (courses d) ∧
    (∀ c cname, courses d !! c = Some cname →
       ∃ k, q !! cname = Some k ∧
            per_course summ !! c
              = Some (cname, lectures_scheduled (Script4 d q) s c, k) ∧
            (k ≤ Z.of_nat (lectures_scheduled (Script4 d q) s c))%Z) ∧
    total_lectures summ ≤ total_available summ.
Proof.
  intros (m & Hb & Hs). simpl in Hb.
  apply build4_inv in Hb as (Hg & cs & Hcs & Hsub).
  assert (Hq : ∀ cname, cname ∈ courses d → is_Some (q !! cname)).
  { intros cname Hin. apply list_elem_of_lookup in Hin as (c & Hc).
    destruct (min_lectures_constraint_in d q cs c cname Hcs Hc) as (k & Hk & _). eauto. }
  destruct (summary4_is_Ok d q s Hq) as (summ & Hsumm).
  exists summ. split; [done|].
  unfold summary4 in Hsumm. apply bind_Ok in Hsumm as (lines & Hlines & [= <-]). simpl.
  split; [|split].
  - apply map_result_length in Hlines. unfold course_indices in Hlines.
    by rewrite length_seq in Hlines.
  - intros c cname Hc.
    destruct (map_result_lookup _ _ _ c c Hlines) as (l & Hl & Hlook).
    { apply lookup_seq_lt. by apply lookup_lt_Some in Hc. }
    unfold list_getitem, getitem in Hl. rewrite Hc in Hl. simpl in Hl.
    destruct (q !! cname) as [k|] eqn:Hk; [|discriminate]. simpl in Hl.
    injection Hl as <-. exists k. split; [done|].
    rewrite (count_true_lectures d q) in Hlook. split; [done|].
    unfold lectures_scheduled. simpl. by eapply grid_min_lectures.
  - rewrite (summary_lines_sum d q s _ _ Hlines).
    unfold lectures_scheduled. simpl.
    etransitivity.
    + apply (sum_counts_le (λ c (tr : nat * nat), BooleanValue s (X c tr.1 tr.2) = true)).
      intros [t r] Hin. apply elem_of_pairs in Hin as [Ht Hr].
      apply elem_of_indices in Ht, Hr. simpl. by eapply grid_room_count.
    + rewrite length_pairs. unfold time_slots, room_indices.
      rewrite !length_seq. lia.
Qed.

Lemma summary_within_capacity_witness :
  Solved sih_v4 sample34 ∧
  ∃ summ, summary4 data34 course_min_lectures34 sample34 = Ok summ ∧
          total_lectures summ ≤ total_available summ.
Proof.
  split; [exact sih_v4_solved|].
  destruct (summary_within_capacity data34 course_min_lectures34 sample34 sih_v4_solved)
    as (summ & H1 & _ & _ & H2).
  exists summ. split; [exact H1|exact H2].
Defined.

(** ** Capacity *)

Lemma filter_pairs_sum {A B} (P : A * B → Prop) `{∀ ab, Decision (P ab)}
    (l1 : list A) (l2 : list B) :
  length (filter P (a ← l1; b ← l2; [(a, b)]))
  = sum_list_with (λ a, length (filter (λ b, P (a, b)) l2)) l1.
Proof.
  induction l1 as [|a l1 IH]; [done|].
  change (a ← (a :: l1); b ← l2; [(a, b)])
    with ((b ← l2; [(a, b)]) ++ (a ← l1; b ← l2; [(a, b)])).
  rewrite filter_app, length_app, filter_row_length, IH. done.
Qed.

(** X22. In a grid script no slot holds more lectures than there are rooms, nor
    more than there are courses. *)
Theorem lectures_per_slot_bounded (p : script) (s : Solution) (t : nat) :
  Solved p s → grid_script p = true → t < total_slots (data p) →
  lectures_in_slot (data p) s t ≤ length (rooms (data p)) ∧
  lectures_in_slot (data p) s t ≤ length (courses (data p)).
Proof.
  intros (m & Hb & Hs) Hgrid Ht.
  assert (Hg : grid_model (data p) m).
  { pose proof (build_grid p m Hb) as H. by destruct p. }
  unfold lectures_in_slot. split.
  - rewrite (filter_pairs_sum
               (λ cr : nat * nat, BooleanValue s (X cr.1 t cr.2) = true)).
    etransitivity.
    + apply (sum_counts_le (λ c r, BooleanValue s (X c t r) = true)).
      intros r Hr. apply elem_of_indices in Hr. by eapply grid_room_count.
    + unfold room_indices. by rewrite length_seq.
  - etransitivity.
    + apply (filter_pairs_length
               (λ cr : nat * nat, BooleanValue s (X cr.1 t cr.2) = true)).
      intros c Hc. apply elem_of_indices in Hc. simpl. by eapply grid_course_count.
    + unfold course_indices. by rewrite length_seq.
Qed.

Lemma lectures_per_slot_bounded_witness :
  Solved sih_v2 sample2 ∧ grid_script sih_v2 = true ∧ 5 < total_slots (data sih_v2) ∧
  lectures_in_slot (data sih_v2) sample2 5 ≤ length (rooms (data sih_v2)).
Proof.
  assert (H1 : grid_script sih_v2 = true) by reflexivity.
  assert (H2 : 5 < total_slots (data sih_v2)) by (vm_compute; lia).
  repeat (split; [assumption || exact sih_v2_solved|]).
  exact (proj1 (lectures_per_slot_bounded sih_v2 sample2 5 sih_v2_solved H1 H2)).
Defined.

Lemma lines_minimum_le (lines : list (string * nat * Z)) :
  (∀ l, l ∈ lines → (l.2 ≤ Z.of_nat l.1.2)%Z) →
  (foldr (λ (l : string * nat * Z) acc, (l.2 + acc)%Z) 0%Z lines
   ≤ Z.of_nat (foldr (λ (l : string * nat * Z) acc, (l.1.2 + acc)%nat) 0%nat lines))%Z.
Proof.
  induction lines as [|l lines IH]; intros Hle; simpl; [lia|].
  pose proof (Hle l ltac:(left)).
  assert (foldr (λ (l : string * nat * Z) acc, (l.2 + acc)%Z) 0%Z lines
          ≤ Z.of_nat (foldr (λ (l : string * nat * Z) acc, (l.1.2 + acc)%nat) 0%nat lines))%Z.
  { apply IH. intros l' Hl'. apply Hle. by right. }
  lia.
Qed.

(** X23. Whenever the fourth script has a solution, the declared minima add up
    to no more than the number of room-slots: a demand above the capacity is
    never satisfied. *)
Theorem demand_within_capacity (d : Data) (q : gmap string Z) (s : Solution)
    (summ : Summary) :
  Solved (Script4 d q) s → summary4 d q s = Ok summ →
  (total_minimum summ ≤ Z.of_nat (length (rooms d) * total_slots d))%Z.
Proof.
  intros (m & Hb & Hs) Hsumm. simpl in Hb.
  apply build4_inv in Hb as (Hg & cs & Hcs & Hsub).
  unfold summary4 in Hsumm. apply bind_Ok in Hsumm as (lines & Hlines & [= <-]).
  unfold total_minimum. simpl.
  etransitivity; [apply lines_minimum_le|].
  - intros l Hl.
    destruct (map_result_Ok_elem _ _ _ l Hlines Hl) as (c & Hc & Hline).
    apply bind_Ok in Hline as (cname & Hcn & Hline).
    apply bind_Ok in Hline as (k & Hk & [= <-]). simpl.
    unfold list_getitem in Hcn.
    destruct (courses d !! c) as [cname'|] eqn:Hlook; [|discriminate].
    injection Hcn as ->. unfold getitem in Hk.
    destruct (q !! cname) as [k'|] eqn:Hq; [|discriminate]. injection Hk as ->.
    rewrite (count_true_lectures d q). unfold lectures_scheduled. simpl.
    by eapply grid_min_lectures.
  - apply inj_le. rewrite (summary_lines_sum d q s _ _ Hlines).
    unfold lectures_scheduled. simpl.
    etransitivity.
    + apply (sum_counts_le (λ c (tr : nat * nat), BooleanValue s (X c tr.1 tr.2) = true)).
      intros [t r] Hin. apply elem_of_pairs in Hin as [Ht Hr].
      apply elem_of_indices in Ht, Hr. simpl. by eapply grid_room_count.
    + rewrite length_pairs. unfold time_slots, room_indices.
      rewrite !length_seq. lia.
Qed.

Lemma demand_within_capacity_witness :
  Solved sih_v4 sample34 ∧
  ∃ summ, summary4 data34 course_min_lectures34 sample34 = Ok summ ∧
          (total_minimum summ ≤ Z.of_nat (length (rooms data34) * total_slots data34))%Z.
Proof.
  split; [exact sih_v4_solved|].
  assert (Hs : ∃ summ, summary4 data34 course_min_lectures34 sample34 = Ok summ)
    by (eexists; vm_compute; reflexivity).
  destruct Hs as (summ & Hs). exists summ. split; [exact Hs|].
  exact (demand_within_capacity data34 course_min_lectures34 sample34 summ
           sih_v4_solved Hs).
Defined.
